(** * Calendar analysis scripts: a shallow embedding and its properties

    The development follows the Python sources under [scripts/]:
    - [analyze_calendar.py]: the ICS parser, the field decoder, the first
      classifier and the per-category aggregation;
    - [rerun_analysis_improved.py]: the final classifier and the
      work-relevance partition of its labels;
    - [stakeholder_analysis.py]: the event-level work-relevance filter, the
      stakeholder fold and the by-company view of the time patterns.

    Modelling conventions.
    - A Python [str] is a Rocq [string].  The model is exact on ASCII text;
      a character above 127 is kept as an opaque symbol that is neither a
      digit, nor white space, nor a cased letter (Python would consult the
      Unicode tables there).
    - A Python [float] holding hours is a rational number [Q]: sums and
      quotients are exact, and statements about them use [==].
    - A Python [dict] is a [gmap], a [set] is a [gset], a [list] is a [list].
    - A caught or uncaught exception is an explicit [None] / [Raise]. *)

From Stdlib Require Import ZArith QArith Qround Lqa String Ascii List Bool Lia.
From stdpp Require Import base gmap strings list fin_maps.

Local Open Scope string_scope.
Local Open Scope list_scope.

(** ** Python built-ins on strings *)

Module Py.

(** Character classes, as [str.isspace], [\d] and the case mappings act on
    ASCII. *)
Definition code (c : ascii) : N := N_of_ascii c.

Definition is_digit (c : ascii) : bool :=
  (48 <=? code c)%N && (code c <=? 57)%N.

Definition is_space (c : ascii) : bool :=
  ((9 <=? code c)%N && (code c <=? 13)%N)
  || ((28 <=? code c)%N && (code c <=? 32)%N).

Definition is_upper (c : ascii) : bool :=
  (65 <=? code c)%N && (code c <=? 90)%N.

Definition is_lower (c : ascii) : bool :=
  (97 <=? code c)%N && (code c <=? 122)%N.

Definition lower_char (c : ascii) : ascii :=
  if is_upper c then ascii_of_N (code c + 32) else c.

Definition upper_char (c : ascii) : ascii :=
  if is_lower c then ascii_of_N (code c - 32) else c.

Fixpoint str_map (f : ascii -> ascii) (s : string) : string :=
  match s with
  | EmptyString => EmptyString
  | String c r => String (f c) (str_map f r)
  end.

(** [s.lower()] *)
Definition lower (s : string) : string := str_map lower_char s.

(** [s.title()]: a cased letter is upper-cased when the character before it
    is not cased, and lower-cased otherwise. *)
Fixpoint title_from (prev_cased : bool) (s : string) : string :=
  match s with
  | EmptyString => EmptyString
  | String c r =>
      if is_upper c || is_lower c
      then String (if prev_cased then lower_char c else upper_char c)
                  (title_from true r)
      else String c (title_from false r)
  end.

Definition title (s : string) : string := title_from false s.

(** [s.encode('ascii', 'ignore').decode('ascii')] *)
Fixpoint ascii_ignore (s : string) : string :=
  match s with
  | EmptyString => EmptyString
  | String c r =>
      if (code c <? 128)%N then String c (ascii_ignore r) else ascii_ignore r
  end.

(** [s[:n]] *)
Fixpoint take (n : nat) (s : string) : string :=
  match n, s with
  | S k, String c r => String c (take k r)
  | _, _ => EmptyString
  end.

(** [s[n:]] *)
Fixpoint drop (n : nat) (s : string) : string :=
  match n, s with
  | S k, String _ r => drop k r
  | _, _ => s
  end.

Fixpoint take_while (p : ascii -> bool) (s : string) : string :=
  match s with
  | String c r => if p c then String c (take_while p r) else EmptyString
  | EmptyString => EmptyString
  end.

Fixpoint drop_while (p : ascii -> bool) (s : string) : string :=
  match s with
  | String c r => if p c then drop_while p r else s
  | EmptyString => EmptyString
  end.

Fixpoint all_chars (p : ascii -> bool) (s : string) : bool :=
  match s with
  | String c r => p c && all_chars p r
  | EmptyString => true
  end.

(** Truth value of a string: empty is false. *)
Definition truthy (s : string) : bool :=
  match s with EmptyString => false | _ => true end.

(** [s.startswith(p)] *)
Definition startswith (p s : string) : bool := String.prefix p s.

(** [s.endswith(suf)] *)
Fixpoint endswith (suf s : string) : bool :=
  String.eqb s suf
  || match s with
     | EmptyString => false
     | String _ r => endswith suf r
     end.

(** [sub in s] *)
Fixpoint contains (sub s : string) : bool :=
  String.prefix sub s
  || match s with
     | EmptyString => false
     | String _ r => contains sub r
     end.

(** [any(k in s for k in keywords)] *)
Definition any_in (keywords : list string) (s : string) : bool :=
  existsb (fun k => contains k s) keywords.

(** Whether the character [c] occurs in [s]. *)
Fixpoint has_char (c : ascii) (s : string) : bool :=
  match s with
  | EmptyString => false
  | String x r => Ascii.eqb x c || has_char c r
  end.

(** [s.lstrip()], [s.rstrip()], [s.strip()] *)
Definition lstrip (s : string) : string := drop_while is_space s.

Fixpoint rstrip_chars (p : ascii -> bool) (s : string) : string :=
  match s with
  | EmptyString => EmptyString
  | String c r =>
      match rstrip_chars p r with
      | EmptyString => if p c then EmptyString else String c EmptyString
      | r' => String c r'
      end
  end.

Definition rstrip (s : string) : string := rstrip_chars is_space s.

Definition strip (s : string) : string := lstrip (rstrip s).

(** [s.split(sep)] for a non-empty separator: occurrences are found from the
    left and do not overlap.  [skip] counts the characters of a separator
    still to be passed over, [cur] is the piece being read. *)
Fixpoint split_from (sep s : string) (skip : nat) (cur : string) : list string :=
  match s with
  | EmptyString => [cur]
  | String c r =>
      match skip with
      | S k => split_from sep r k cur
      | O =>
          if String.prefix sep s
          then cur :: split_from sep r (String.length sep - 1) EmptyString
          else split_from sep r 0 (cur +:+ String c EmptyString)
      end
  end.

Definition split (sep s : string) : list string := split_from sep s 0 "".

(** [pieces[0]], [pieces[-1]] *)
Definition first_piece (l : list string) : string := List.hd "" l.
Definition last_piece (l : list string) : string := List.last l "".

(** [s.split(sep, 1)] when [sep] is one character and occurs in [s]: the text
    before and after its first occurrence; [None] when it does not occur. *)
Fixpoint split1 (sep : ascii) (s : string) : option (string * string) :=
  match s with
  | EmptyString => None
  | String c r =>
      if Ascii.eqb c sep then Some (EmptyString, r)
      else match split1 sep r with
           | Some (a, b) => Some (String c a, b)
           | None => None
           end
  end.

(** [''.join(pieces)] *)
Definition join (pieces : list string) : string :=
  fold_right String.append EmptyString pieces.

(** [re.search]: the leftmost position at which the anchored matcher [m]
    succeeds. *)
Fixpoint search {A} (m : string -> option A) (s : string) : option A :=
  match m s with
  | Some a => Some a
  | None =>
      match s with
      | EmptyString => None
      | String _ r => search m r
      end
  end.

(** [int(s)] on a string of decimal digits. *)
Definition digit_val (c : ascii) : Z := Z.of_N (code c) - 48.

Fixpoint int_from (acc : Z) (s : string) : Z :=
  match s with
  | EmptyString => acc
  | String c r => int_from (10 * acc + digit_val c) r
  end.

Definition int (s : string) : Z := int_from 0 s.

End Py.

(** ** Exceptions *)

Inductive exn : Type :=
  | AttributeError
  | ZeroDivisionError.

Inductive result (A : Type) : Type :=
  | Ok (a : A)
  | Raise (e : exn).

Arguments Ok {A} a.
Arguments Raise {A} e.

Definition bind {A B} (r : result A) (k : A -> result B) : result B :=
  match r with
  | Ok a => k a
  | Raise e => Raise e
  end.

Notation "'let*' x := r 'in' k" := (bind r (fun x => k))
  (at level 10, x name, r at level 100, k at level 200).

(** ** [datetime]: the part of the standard library the accessors use *)

Module Datetime.

Record datetime : Type := mk_datetime {
  year : Z; month : Z; day : Z;
  hour : Z; minute : Z; second : Z
}.

Definition is_leap (y : Z) : bool :=
  (y mod 4 =? 0)%Z && (negb (y mod 100 =? 0)%Z || (y mod 400 =? 0)%Z).

Definition days_in_month (y m : Z) : Z :=
  if (m =? 2)%Z then (if is_leap y then 29 else 28)%Z
  else if (m =? 4)%Z || (m =? 6)%Z || (m =? 9)%Z || (m =? 11)%Z then 30%Z
  else 31%Z.

(** Days before January 1st of year [y]. *)
Definition days_before_year (y : Z) : Z :=
  let p := (y - 1)%Z in (p * 365 + p / 4 - p / 100 + p / 400)%Z.

(** Days of year [y] before the first of month [m]. *)
Definition days_before_month (y m : Z) : Z :=
  (match m with
   | 2 => 31 | 3 => 59 | 4 => 90 | 5 => 120 | 6 => 151 | 7 => 181
   | 8 => 212 | 9 => 243 | 10 => 273 | 11 => 304 | 12 => 334
   | _ => 0
   end
   + (if (2 <? m)%Z && is_leap y then 1 else 0))%Z.

(** [date.toordinal()] *)
Definition toordinal (d : datetime) : Z :=
  (days_before_year (year d) + days_before_month (year d) (month d) + day d)%Z.

(** The range checks of the [datetime] constructor; it raises [ValueError]
    when one fails. *)
Definition valid (d : datetime) : bool :=
  (1 <=? year d)%Z && (year d <=? 9999)%Z
  && (1 <=? month d)%Z && (month d <=? 12)%Z
  && (1 <=? day d)%Z && (day d <=? days_in_month (year d) (month d))%Z
  && (0 <=? hour d)%Z && (hour d <=? 23)%Z
  && (0 <=? minute d)%Z && (minute d <=? 59)%Z
  && (0 <=? second d)%Z && (second d <=? 59)%Z.

(** The constructor's checks, as propositions. *)
Record valid_fields (d : datetime) : Prop := {
  vf_year : (1 <= year d <= 9999)%Z;
  vf_month : (1 <= month d <= 12)%Z;
  vf_day : (1 <= day d <= days_in_month (year d) (month d))%Z;
  vf_hour : (0 <= hour d <= 23)%Z;
  vf_minute : (0 <= minute d <= 59)%Z;
  vf_second : (0 <= second d <= 59)%Z
}.

(** The shape [\d{8}T\d{6}] of a whole string. *)
Definition token_shape (t : string) : bool :=
  (String.length t =? 15)%nat
  && Py.all_chars Py.is_digit (Py.take 8 t)
  && String.eqb (Py.take 1 (Py.drop 8 t)) "T"
  && Py.all_chars Py.is_digit (Py.drop 9 t).

(** [datetime.strptime(t, '%Y%m%dT%H%M%S')] on a token of the shape above;
    [None] stands for [ValueError].  With eight digits before the [T] and six
    after it, the directives can only consume the whole token by taking four,
    two and two digits, then two, two and two; the format's own ranges
    (month 01-12, day 01-31, hour 00-23, minute 00-59, second 00-61) are
    implied by the constructor's checks. *)
Definition strptime (t : string) : option datetime :=
  if token_shape t then
    let d := {| year := Py.int (Py.take 4 t);
                month := Py.int (Py.take 2 (Py.drop 4 t));
                day := Py.int (Py.take 2 (Py.drop 6 t));
                hour := Py.int (Py.take 2 (Py.drop 9 t));
                minute := Py.int (Py.take 2 (Py.drop 11 t));
                second := Py.int (Py.take 2 (Py.drop 13 t)) |} in
    if valid d then Some d else None
  else None.

Definition seconds_of_day (d : datetime) : Z :=
  (hour d * 3600 + minute d * 60 + second d)%Z.

(** [(e - s).total_seconds()] *)
Definition total_seconds_between (s e : datetime) : Z :=
  ((toordinal e - toordinal s) * 86400
   + (seconds_of_day e - seconds_of_day s))%Z.

(** Chronological order on the fields, most significant first. *)
Definition fields (d : datetime) : list Z :=
  [year d; month d; day d; hour d; minute d; second d].

Fixpoint lex_leb (a b : list Z) : bool :=
  match a, b with
  | x :: a', y :: b' => (x <? y)%Z || ((x =? y)%Z && lex_leb a' b')
  | _, _ => true
  end.

Definition not_after (s e : datetime) : bool := lex_leb (fields s) (fields e).

End Datetime.

(** ** The duration accessor, shared by the three scripts *)

Module Duration.

(** [s.split('TZID=')[-1] if 'TZID=' in s else s] *)
Definition tz_tail (s : string) : string :=
  if Py.contains "TZID=" s then Py.last_piece (Py.split "TZID=" s) else s.

(** The pattern [(\d{8}T\d{6})] anchored at the head of [s]. *)
Definition match_datetime_token (s : string) : option string :=
  let t := Py.take 15 s in
  if Datetime.token_shape t then Some t else None.

(** [re.search(r'(\d{8}T\d{6})', s)], group 1. *)
Definition search_datetime_token (s : string) : option string :=
  Py.search match_datetime_token s.

(** The timestamp read from a stored [DTSTART]/[DTEND] string: [None] when
    no token is found or the token does not parse. *)
Definition timestamp (s : string) : option Datetime.datetime :=
  match search_datetime_token (tz_tail s) with
  | Some t => Datetime.strptime t
  | None => None
  end.

(** [CalendarEvent.get_duration_hours], as a function of the two stored
    strings.  Every exception of the body is caught and yields [0.0]. *)
Definition get_duration_hours (dtstart dtend : string) : Q :=
  let start_str := tz_tail dtstart in
  let end_str := tz_tail dtend in
  match search_datetime_token start_str, search_datetime_token end_str with
  | Some start_match, Some end_match =>
      match Datetime.strptime start_match with
      | Some start =>
          match Datetime.strptime end_match with
          | Some end_ => Datetime.total_seconds_between start end_ # 3600
          | None => 0
          end
      | None => 0
      end
  | _, _ => 0
  end.

End Duration.

(** ** Regular expressions of the field decoder *)

Module Re.

Definition non_empty (s : string) : option string :=
  if Py.truthy s then Some s else None.

(** [mailto:([^\s]+)] anchored at the head of [s]. *)
Definition match_mailto (s : string) : option string :=
  if Py.startswith "mailto:" s
  then non_empty (Py.take_while (fun c => negb (Py.is_space c)) (Py.drop 7 s))
  else None.

Definition search_mailto (s : string) : option string :=
  Py.search match_mailto s.

Definition sep_char (c : ascii) : bool :=
  Ascii.eqb c ";" || Ascii.eqb c ":".

(** [PARTSTAT=([^;:]+)] anchored at the head of [s]. *)
Definition match_partstat (s : string) : option string :=
  if Py.startswith "PARTSTAT=" s
  then non_empty (Py.take_while (fun c => negb (sep_char c)) (Py.drop 9 s))
  else None.

Definition search_partstat (s : string) : option string :=
  Py.search match_partstat s.

End Re.

(** ** Reading a text file line by line *)

Module File.

Definition LF : ascii := ascii_of_nat 10.
Definition CR : ascii := ascii_of_nat 13.
Definition tab : string := String (ascii_of_nat 9) "".

(** Iteration over a file opened in text mode: [\n], [\r] and [\r\n] each
    end a line and are handed over as a single [\n].  [after_cr] tells that
    the previous character was a [\r], so that a [\n] right after it belongs
    to the same line end. *)
Fixpoint lines_from (s : string) (after_cr : bool) (cur : string) : list string :=
  match s with
  | EmptyString => if Py.truthy cur then [cur] else []
  | String c r =>
      if Ascii.eqb c LF then
        if after_cr then lines_from r false cur
        else (cur +:+ String LF "") :: lines_from r false ""
      else if Ascii.eqb c CR then
        (cur +:+ String LF "") :: lines_from r true ""
      else lines_from r false (cur +:+ String c "")
  end.

Definition lines (text : string) : list string := lines_from text false "".

(** [line.rstrip('\n\r')] *)
Definition rstrip_newline (line : string) : string :=
  Py.rstrip_chars (fun c => Ascii.eqb c LF || Ascii.eqb c CR) line.

End File.

(** [round(x, 2)]: the nearest multiple of 1/100, a tie going to the even
    neighbour. *)
Definition round2 (x : Q) : Q :=
  let n := (x * 100)%Q in
  let f := Qfloor n in
  let twice_frac := ((n - inject_Z f) * 2)%Q in
  let up :=
    match (twice_frac ?= 1)%Q with
    | Lt => false
    | Gt => true
    | Eq => Z.odd f
    end in
  ((if up then f + 1 else f)%Z # 100).

(** ** [analyze_calendar.py] *)

Module AnalyzeCalendar.

(** The attendee dictionary: ['email'] always, ['status'] when the line
    carried a [PARTSTAT]. *)
Record attendee_info : Type := {
  email : string;
  att_status : option string
}.

Record CalendarEvent : Type := {
  summary : string;
  dtstart : string;
  dtend : string;
  description : string;
  location : string;
  organizer : string;
  attendees : list attendee_info;
  categories : list string;
  status : string;
  busy_status : string;
  transp : string;
  created : string;
  uid : string;
  is_recurring : bool;
  recurrence_id : string
}.

(** [CalendarEvent()] *)
Definition CalendarEvent_init : CalendarEvent := {|
  summary := ""; dtstart := ""; dtend := ""; description := "";
  location := ""; organizer := ""; attendees := []; categories := [];
  status := ""; busy_status := ""; transp := ""; created := ""; uid := "";
  is_recurring := false; recurrence_id := ""
|}.

(** Attribute assignments. *)
Definition set_summary (v : string) (e : CalendarEvent) : CalendarEvent :=
  {| summary := v; dtstart := dtstart e; dtend := dtend e;
     description := description e; location := location e;
     organizer := organizer e; attendees := attendees e;
     categories := categories e; status := status e;
     busy_status := busy_status e; transp := transp e; created := created e;
     uid := uid e; is_recurring := is_recurring e;
     recurrence_id := recurrence_id e |}.

Definition set_dtstart (v : string) (e : CalendarEvent) : CalendarEvent :=
  {| summary := summary e; dtstart := v; dtend := dtend e;
     description := description e; location := location e;
     organizer := organizer e; attendees := attendees e;
     categories := categories e; status := status e;
     busy_status := busy_status e; transp := transp e; created := created e;
     uid := uid e; is_recurring := is_recurring e;
     recurrence_id := recurrence_id e |}.

Definition set_dtend (v : string) (e : CalendarEvent) : CalendarEvent :=
  {| summary := summary e; dtstart := dtstart e; dtend := v;
     description := description e; location := location e;
     organizer := organizer e; attendees := attendees e;
     categories := categories e; status := status e;
     busy_status := busy_status e; transp := transp e; created := created e;
     uid := uid e; is_recurring := is_recurring e;
     recurrence_id := recurrence_id e |}.

Definition set_description (v : string) (e : CalendarEvent) : CalendarEvent :=
  {| summary := summary e; dtstart := dtstart e; dtend := dtend e;
     description := v; location := location e;
     organizer := organizer e; attendees := attendees e;
     categories := categories e; status := status e;
     busy_status := busy_status e; transp := transp e; created := created e;
     uid := uid e; is_recurring := is_recurring e;
     recurrence_id := recurrence_id e |}.

Definition set_location (v : string) (e : CalendarEvent) : CalendarEvent :=
  {| summary := summary e; dtstart := dtstart e; dtend := dtend e;
     description := description e; location := v;
     organizer := organizer e; attendees := attendees e;
     categories := categories e; status := status e;
     busy_status := busy_status e; transp := transp e; created := created e;
     uid := uid e; is_recurring := is_recurring e;
     recurrence_id := recurrence_id e |}.

Definition set_organizer (v : string) (e : CalendarEvent) : CalendarEvent :=
  {| summary := summary e; dtstart := dtstart e; dtend := dtend e;
     description := description e; location := location e;
     organizer := v; attendees := attendees e;
     categories := categories e; status := status e;
     busy_status := busy_status e; transp := transp e; created := created e;
     uid := uid e; is_recurring := is_recurring e;
     recurrence_id := recurrence_id e |}.

Definition set_attendees (v : list attendee_info) (e : CalendarEvent) : CalendarEvent :=
  {| summary := summary e; dtstart := dtstart e; dtend := dtend e;
     description := description e; location := location e;
     organizer := organizer e; attendees := v;
     categories := categories e; status := status e;
     busy_status := busy_status e; transp := transp e; created := created e;
     uid := uid e; is_recurring := is_recurring e;
     recurrence_id := recurrence_id e |}.

Definition set_categories (v : list string) (e : CalendarEvent) : CalendarEvent :=
  {| summary := summary e; dtstart := dtstart e; dtend := dtend e;
     description := description e; location := location e;
     organizer := organizer e; attendees := attendees e;
     categories := v; status := status e;
     busy_status := busy_status e; transp := transp e; created := created e;
     uid := uid e; is_recurring := is_recurring e;
     recurrence_id := recurrence_id e |}.

Definition set_status (v : string) (e : CalendarEvent) : CalendarEvent :=
  {| summary := summary e; dtstart := dtstart e; dtend := dtend e;
     description := description e; location := location e;
     organizer := organizer e; attendees := attendees e;
     categories := categories e; status := v;
     busy_status := busy_status e; transp := transp e; created := created e;
     uid := uid e; is_recurring := is_recurring e;
     recurrence_id := recurrence_id e |}.

Definition set_busy_status (v : string) (e : CalendarEvent) : CalendarEvent :=
  {| summary := summary e; dtstart := dtstart e; dtend := dtend e;
     description := description e; location := location e;
     organizer := organizer e; attendees := attendees e;
     categories := categories e; status := status e;
     busy_status := v; transp := transp e; created := created e;
     uid := uid e; is_recurring := is_recurring e;
     recurrence_id := recurrence_id e |}.

Definition set_transp (v : string) (e : CalendarEvent) : CalendarEvent :=
  {| summary := summary e; dtstart := dtstart e; dtend := dtend e;
     description := description e; location := location e;
     organizer := organizer e; attendees := attendees e;
     categories := categories e; status := status e;
     busy_status := busy_status e; transp := v; created := created e;
     uid := uid e; is_recurring := is_recurring e;
     recurrence_id := recurrence_id e |}.

Definition set_created (v : string) (e : CalendarEvent) : CalendarEvent :=
  {| summary := summary e; dtstart := dtstart e; dtend := dtend e;
     description := description e; location := location e;
     organizer := organizer e; attendees := attendees e;
     categories := categories e; status := status e;
     busy_status := busy_status e; transp := transp e; created := v;
     uid := uid e; is_recurring := is_recurring e;
     recurrence_id := recurrence_id e |}.

Definition set_uid (v : string) (e : CalendarEvent) : CalendarEvent :=
  {| summary := summary e; dtstart := dtstart e; dtend := dtend e;
     description := description e; location := location e;
     organizer := organizer e; attendees := attendees e;
     categories := categories e; status := status e;
     busy_status := busy_status e; transp := transp e; created := created e;
     uid := v; is_recurring := is_recurring e;
     recurrence_id := recurrence_id e |}.

Definition set_is_recurring (v : bool) (e : CalendarEvent) : CalendarEvent :=
  {| summary := summary e; dtstart := dtstart e; dtend := dtend e;
     description := description e; location := location e;
     organizer := organizer e; attendees := attendees e;
     categories := categories e; status := status e;
     busy_status := busy_status e; transp := transp e; created := created e;
     uid := uid e; is_recurring := v;
     recurrence_id := recurrence_id e |}.

Definition set_recurrence_id (v : string) (e : CalendarEvent) : CalendarEvent :=
  {| summary := summary e; dtstart := dtstart e; dtend := dtend e;
     description := description e; location := location e;
     organizer := organizer e; attendees := attendees e;
     categories := categories e; status := status e;
     busy_status := busy_status e; transp := transp e; created := created e;
     uid := uid e; is_recurring := is_recurring e;
     recurrence_id := v |}.

Definition get_duration_hours (e : CalendarEvent) : Q :=
  Duration.get_duration_hours (dtstart e) (dtend e).

Definition viewer_email : string := "daniel.moreira@autodesk.com".

(** [process_field(event, field, value)] on an event object. *)
Definition process_field (event : CalendarEvent) (field value : string) : CalendarEvent :=
  let field_name := Py.first_piece (Py.split ";" field) in
  if String.eqb field_name "SUMMARY" then
    set_summary (Py.ascii_ignore value) event
  else if String.eqb field_name "DTSTART" then
    set_dtstart (field +:+ ":" +:+ value) event
  else if String.eqb field_name "DTEND" then
    set_dtend (field +:+ ":" +:+ value) event
  else if String.eqb field_name "DESCRIPTION" then
    set_description (Py.take 500 value) event
  else if String.eqb field_name "LOCATION" then
    set_location value event
  else if String.eqb field_name "ORGANIZER" then
    match Re.search_mailto value with
    | Some email_match => set_organizer email_match event
    | None => event
    end
  else if String.eqb field_name "ATTENDEE" then
    let partstat_match := Re.search_partstat field in
    let email_match := Re.search_mailto value in
    let event :=
      if Py.contains viewer_email (Py.lower value) then
        match partstat_match with
        | Some st => set_status st event
        | None => event
        end
      else event in
    match email_match with
    | Some em =>
        set_attendees
          (attendees event ++ [{| email := em; att_status := partstat_match |}])
          event
    | None => event
    end
  else if String.eqb field_name "CATEGORIES" then
    set_categories (List.map Py.strip (Py.split "," value)) event
  else if String.eqb field_name "X-MICROSOFT-CDO-BUSYSTATUS" then
    set_busy_status value event
  else if String.eqb field_name "TRANSP" then
    set_transp value event
  else if String.eqb field_name "CREATED" then
    set_created value event
  else if String.eqb field_name "UID" then
    set_uid value event
  else if String.eqb field_name "RRULE" then
    set_is_recurring true event
  else if String.eqb field_name "RECURRENCE-ID" then
    set_recurrence_id value event
  else event.

(** Whether [process_field] assigns to an attribute of its event for this
    field: called on [None] it raises [AttributeError] exactly then. *)
Definition assigns (field value : string) : bool :=
  let field_name := Py.first_piece (Py.split ";" field) in
  if String.eqb field_name "ORGANIZER" then
    bool_decide (is_Some (Re.search_mailto value))
  else if String.eqb field_name "ATTENDEE" then
    (Py.contains viewer_email (Py.lower value)
     && bool_decide (is_Some (Re.search_partstat field)))
    || bool_decide (is_Some (Re.search_mailto value))
  else
    existsb (String.eqb field_name)
      ["SUMMARY"; "DTSTART"; "DTEND"; "DESCRIPTION"; "LOCATION"; "CATEGORIES";
       "X-MICROSOFT-CDO-BUSYSTATUS"; "TRANSP"; "CREATED"; "UID"; "RRULE";
       "RECURRENCE-ID"].

(** [process_field] as the parser calls it, on [current_event], which may
    be [None]. *)
Definition process_field_on (event : option CalendarEvent) (field value : string)
  : result (option CalendarEvent) :=
  match event with
  | Some ev => Ok (Some (process_field ev field value))
  | None => if assigns field value then Raise AttributeError else Ok None
  end.

(** The local variables of [parse_ics_file]. *)
Record parser : Type := {
  events : list CalendarEvent;
  current_event : option CalendarEvent;
  current_field : option string;
  continuation_value : string
}.

Definition parser_init : parser := {|
  events := []; current_event := None; current_field := None;
  continuation_value := ""
|}.

(** Truth value of [current_field]: [None] and the empty string are false. *)
Definition field_pending (st : parser) : bool :=
  match current_field st with
  | Some f => Py.truthy f
  | None => false
  end.

Definition is_continuation_line (line : string) : bool :=
  Py.startswith " " line || Py.startswith File.tab line.

(** The block "process previous field if we have continuation". *)
Definition flush (st : parser) : result parser :=
  match current_field st with
  | Some f =>
      if Py.truthy f && Py.truthy (continuation_value st) then
        let* ev := process_field_on (current_event st) f (continuation_value st) in
        Ok {| events := events st; current_event := ev;
              current_field := None; continuation_value := "" |}
      else Ok st
  | None => Ok st
  end.

(** The remainder of the loop body, after the flush.  Both [elif] branches
    require [current_event] to be set, so they are read under one match
    on it. *)
Definition dispatch (st : parser) (line : string) : result parser :=
  if String.eqb line "BEGIN:VEVENT" then
    Ok {| events := events st; current_event := Some CalendarEvent_init;
          current_field := current_field st;
          continuation_value := continuation_value st |}
  else
    match current_event st with
    | Some ev =>
        if String.eqb line "END:VEVENT" then
          Ok {| events := events st ++ [ev]; current_event := None;
                current_field := current_field st;
                continuation_value := continuation_value st |}
        else
          match Py.split1 ":" line with
          | Some (field, value) =>
              if negb (Py.endswith "=" line) then
                let* ev' := process_field_on (Some ev) field value in
                Ok {| events := events st; current_event := ev';
                      current_field := None;
                      continuation_value := continuation_value st |}
              else
                Ok {| events := events st; current_event := Some ev;
                      current_field := Some field;
                      continuation_value := value |}
          | None => Ok st
          end
    | None => Ok st
    end.

(** One iteration of the loop over the lines. *)
Definition step (st : parser) (line : string) : result parser :=
  if is_continuation_line line && field_pending st then
    Ok {| events := events st; current_event := current_event st;
          current_field := current_field st;
          continuation_value := continuation_value st +:+ Py.strip line |}
  else
    let* st := flush st in
    dispatch st line.

Fixpoint run (st : parser) (lines : list string) : result parser :=
  match lines with
  | [] => Ok st
  | line :: rest => let* st := step st line in run st rest
  end.

(** The loop of [parse_ics_file] over lines already stripped of their line
    end, and its return value. *)
Definition parse_lines (lines : list string) : result (list CalendarEvent) :=
  let* st := run parser_init lines in Ok (events st).

(** [parse_ics_file], given the decoded content of the file. *)
Definition parse_ics_file (text : string) : result (list CalendarEvent) :=
  parse_lines (List.map File.rstrip_newline (File.lines text)).

(** [categorize_event]: the first matching rule gives the label. *)
Definition categorize_event (event : CalendarEvent) : string :=
  let summary_lower := Py.lower (summary event) in
  let desc_lower := Py.lower (description event) in
  if existsb (String.eqb (status event)) ["DECLINED"; "TENTATIVE"] then
    "declined_tentative_" +:+ Py.lower (status event)
  else if String.eqb (busy_status event) "OOF" then "out_of_office"
  else if Py.any_in
       ["out of office"; "ooo"; "pto"; "vacation"; "holiday";
        "personal"; "dentist"; "doctor"; "appointment"] summary_lower
  then "personal_time_off"
  else if Py.any_in
       ["lunch"; "breakfast"; "dinner"; "coffee break"; "break";
        "gym"; "workout"; "exercise"] summary_lower
  then "breaks_personal_care"
  else if String.eqb (transp event) "TRANSPARENT"
          || String.eqb (busy_status event) "FREE"
  then "free_time_transparent"
  else if Py.any_in
       ["1:1"; "one on one"; "1-1"; "sync"; "standup"; "stand-up";
        "team meeting"; "all hands"; "town hall"; "skip level"] summary_lower
  then "internal_meetings_1on1_sync"
  else if existsb
       (fun keyword =>
          Py.contains keyword summary_lower || Py.contains keyword desc_lower)
       ["customer"; "client"; "external"; "demo"; "presentation";
        "sales"; "prospect"]
  then "customer_external"
  else if Py.any_in
       ["training"; "workshop"; "learning"; "course"; "webinar";
        "certification"; "onboarding"] summary_lower
  then "training_learning"
  else if Py.any_in
       ["planning"; "roadmap"; "strategy"; "review"; "retrospective";
        "sprint"; "scrum"; "project"; "initiative"] summary_lower
  then "planning_strategy"
  else if Py.any_in
       ["interview"; "candidate"; "hiring"; "recruiting"; "screening"]
       summary_lower
  then "recruiting_hiring"
  else if Py.any_in
       ["focus"; "focus time"; "blocked"; "do not book"; "dnb";
        "heads down"; "deep work"; "no meetings"] summary_lower
  then "focus_time_blocked"
  else if String.eqb (busy_status event) "BUSY"
          || String.eqb (transp event) "OPAQUE"
  then "general_work_meetings"
  else "uncategorized".

(** One entry of ['sample_events']. *)
Record sample_event : Type := {
  sample_summary : string;
  sample_start : string;
  sample_duration_hours : Q;
  sample_status : string;
  sample_busy_status : string
}.

(** One value of [stats['by_category']]. *)
Record category_stats : Type := {
  count : nat;
  total_hours : Q;
  sample_events : list sample_event
}.

(** The [stats] dictionary. *)
Record stats : Type := {
  total_events : nat;
  by_category : gmap string category_stats;
  by_status : gmap string nat;
  by_busy_status : gmap string nat;
  total_hours_by_category : gmap string Q
}.

(** What the first loop of [analyze_calendar] updates. *)
Record tally : Type := {
  t_categories : gmap string (list CalendarEvent);
  t_by_status : gmap string nat;
  t_by_busy_status : gmap string nat;
  t_total_hours : gmap string Q
}.

Definition tally_init : tally := {|
  t_categories := ∅; t_by_status := ∅; t_by_busy_status := ∅;
  t_total_hours := ∅
|}.

(** [d[k] += 1] on a [defaultdict(int)] *)
Definition incr (k : string) (d : gmap string nat) : gmap string nat :=
  <[k := S (default 0%nat (d !! k))]> d.

(** [d[k] += x] on a [defaultdict(float)] *)
Definition add_hours (k : string) (x : Q) (d : gmap string Q) : gmap string Q :=
  <[k := (default 0%Q (d !! k) + x)%Q]> d.

(** The body of the first loop. *)
Definition tally_event (t : tally) (event : CalendarEvent) : tally :=
  let category := categorize_event event in
  let duration := get_duration_hours event in
  {| t_categories :=
       <[category := (default [] (t_categories t !! category) ++ [event])%list]>
         (t_categories t);
     t_by_status :=
       if Py.truthy (status event)
       then incr (status event) (t_by_status t) else t_by_status t;
     t_by_busy_status :=
       if Py.truthy (busy_status event)
       then incr (busy_status event) (t_by_busy_status t)
       else t_by_busy_status t;
     t_total_hours := add_hours category duration (t_total_hours t) |}.

Definition make_sample (e : CalendarEvent) : sample_event := {|
  sample_summary := Py.take 80 (summary e);
  sample_start :=
    if Py.truthy (dtstart e)
    then Py.take 15 (Py.last_piece (Py.split ":" (dtstart e))) else "";
  sample_duration_hours := round2 (get_duration_hours e);
  sample_status := status e;
  sample_busy_status := busy_status e
|}.

(** The body of the second loop: the entry of [by_category] for one key of
    [categories]. *)
Definition make_category_stats (hours : gmap string Q)
    (category : string) (cat_events : list CalendarEvent) : category_stats := {|
  count := length cat_events;
  total_hours := round2 (default 0%Q (hours !! category));
  sample_events := List.map make_sample (List.firstn 5 cat_events)
|}.

(** [analyze_calendar(events)]: the pair [(dict(categories), stats)]. *)
Definition analyze_calendar (events : list CalendarEvent)
  : gmap string (list CalendarEvent) * stats :=
  let t := fold_left tally_event events tally_init in
  (t_categories t,
   {| total_events := length events;
      by_category :=
        map_imap (fun category cat_events =>
                    Some (make_category_stats (t_total_hours t) category cat_events))
                 (t_categories t);
      by_status := t_by_status t;
      by_busy_status := t_by_busy_status t;
      total_hours_by_category := t_total_hours t |}).

End AnalyzeCalendar.

(** ** [rerun_analysis_improved.py] *)

Module Rerun.

Record attendee_info : Type := {
  email : string;
  name : string
}.

Record CalendarEvent : Type := {
  summary : string;
  dtstart : string;
  dtend : string;
  description : string;
  location : string;
  organizer : string;
  organizer_name : string;
  attendees : list attendee_info;
  busy_status : string;
  transp : string;
  status : string
}.

Definition get_duration_hours (e : CalendarEvent) : Q :=
  Duration.get_duration_hours (dtstart e) (dtend e).

(** [len(event.attendees) > 0] *)
Definition is_actual_meeting (event : CalendarEvent) : bool :=
  (0 <? length (attendees event))%nat.

(** [any(k in summary_lower or k in desc_lower for k in keywords)] *)
Definition any_in_either (keywords : list string) (summary_lower desc_lower : string) : bool :=
  existsb
    (fun keyword =>
       Py.contains keyword summary_lower || Py.contains keyword desc_lower)
    keywords.

(** [categorize_event_final]: the first matching rule gives the label. *)
Definition categorize_event_final (event : CalendarEvent) : string :=
  let summary_lower := Py.lower (summary event) in
  let desc_lower := Py.lower (description event) in
  if negb (is_actual_meeting event) then "non_meetings_excluded"
  else if existsb (String.eqb (status event)) ["DECLINED"; "TENTATIVE"] then
    "declined_tentative_" +:+ Py.lower (status event)
  else if String.eqb (busy_status event) "OOF" then "out_of_office"
  else if Py.any_in
       ["out of office"; "ooo"; "pto"; "vacation"; "holiday"] summary_lower
  then "personal_time_off"
  else if Py.contains "focus friday" summary_lower
          || Py.contains "focus fridays" summary_lower
  then "focus_fridays_excluded"
  else if Py.any_in
       ["laptop"; "new laptop"; "it support"; "setup"; "infoworks icm cloud"]
       summary_lower
  then "work_admin_it"
  else if Py.any_in ["dentist"; "doctor"; "personal bookings"] summary_lower
          && negb (Py.any_in ["customer"; "client"] summary_lower)
  then "personal_appointments_excluded"
  else if Py.any_in ["lunch"; "breakfast"] summary_lower then
    if any_in_either
         ["customer"; "client"; "dinner"; "reception"; "networking";
          "team"; "cs dinner"; "ebcs"; "awi"] summary_lower desc_lower
    then "business_meals_networking"
    else "breaks_personal_excluded"
  else if Py.any_in ["gym"; "workout"; "exercise"] summary_lower
  then "breaks_personal_excluded"
  else if String.eqb (transp event) "TRANSPARENT"
          || String.eqb (busy_status event) "FREE"
  then "free_time_transparent_excluded"
  else if any_in_either
       ["customer"; "client"; "external"; "demo"; "presentation";
        "sales"; "prospect"; "dinner"; "reception"] summary_lower desc_lower
  then "customer_external"
  else if Py.any_in
       ["1:1"; "one on one"; "1-1"; "sync"; "catch up"; "check in"]
       summary_lower
  then "internal_meetings_1on1_sync"
  else if Py.any_in
       ["training"; "workshop"; "learning"; "course"; "webinar";
        "certification"; "onboarding"] summary_lower
  then "training_learning"
  else if Py.any_in
       ["planning"; "roadmap"; "strategy"; "review"; "retrospective";
        "sprint"; "scrum"; "project"; "initiative"; "backlog"; "refinement"]
       summary_lower
  then "planning_strategy"
  else if Py.any_in
       ["interview"; "candidate"; "hiring"; "recruiting"; "screening"]
       summary_lower
  then "recruiting_hiring"
  else if Py.any_in
       ["focus time"; "blocked"; "do not book"; "dnb";
        "heads down"; "deep work"; "no meetings"] summary_lower
          && negb (Py.contains "friday" summary_lower)
  then "focus_time_blocked"
  else if String.eqb (busy_status event) "BUSY"
          || String.eqb (transp event) "OPAQUE"
  then "general_work_meetings"
  else "uncategorized".

Definition excluded_categories : list string :=
  ["declined_tentative_declined";
   "declined_tentative_tentative";
   "out_of_office";
   "personal_time_off";
   "breaks_personal_excluded";
   "free_time_transparent_excluded";
   "focus_fridays_excluded";
   "personal_appointments_excluded";
   "non_meetings_excluded"].

(** [category not in excluded_categories] *)
Definition is_work_relevant_final (category : string) : bool :=
  negb (existsb (String.eqb category) excluded_categories).

(** The labels the classifier can return: the excluded ones and the
    work-relevant ones. *)
Definition work_categories : list string :=
  ["work_admin_it";
   "business_meals_networking";
   "customer_external";
   "internal_meetings_1on1_sync";
   "training_learning";
   "planning_strategy";
   "recruiting_hiring";
   "focus_time_blocked";
   "general_work_meetings";
   "uncategorized"].

Definition category_set : list string :=
  (excluded_categories ++ work_categories)%list.

(** The classifier read as an ordered table of rules, each a predicate on
    the event with the label it assigns; used to state that the first
    matching rule wins. *)
Definition rule : Type := ((CalendarEvent -> bool) * (CalendarEvent -> string))%type.

Definition summary_lower (event : CalendarEvent) : string := Py.lower (summary event).
Definition desc_lower (event : CalendarEvent) : string := Py.lower (description event).

Definition rules : list rule :=
  [ (fun e => negb (is_actual_meeting e), fun _ => "non_meetings_excluded");
    (fun e => existsb (String.eqb (status e)) ["DECLINED"; "TENTATIVE"],
     fun e => "declined_tentative_" +:+ Py.lower (status e));
    (fun e => String.eqb (busy_status e) "OOF", fun _ => "out_of_office");
    (fun e => Py.any_in
       ["out of office"; "ooo"; "pto"; "vacation"; "holiday"] (summary_lower e),
     fun _ => "personal_time_off");
    (fun e => Py.contains "focus friday" (summary_lower e)
              || Py.contains "focus fridays" (summary_lower e),
     fun _ => "focus_fridays_excluded");
    (fun e => Py.any_in
       ["laptop"; "new laptop"; "it support"; "setup"; "infoworks icm cloud"]
       (summary_lower e),
     fun _ => "work_admin_it");
    (fun e => Py.any_in ["dentist"; "doctor"; "personal bookings"] (summary_lower e)
              && negb (Py.any_in ["customer"; "client"] (summary_lower e)),
     fun _ => "personal_appointments_excluded");
    (fun e => Py.any_in ["lunch"; "breakfast"] (summary_lower e)
              && any_in_either
                   ["customer"; "client"; "dinner"; "reception"; "networking";
                    "team"; "cs dinner"; "ebcs"; "awi"]
                   (summary_lower e) (desc_lower e),
     fun _ => "business_meals_networking");
    (fun e => Py.any_in ["lunch"; "breakfast"] (summary_lower e),
     fun _ => "breaks_personal_excluded");
    (fun e => Py.any_in ["gym"; "workout"; "exercise"] (summary_lower e),
     fun _ => "breaks_personal_excluded");
    (fun e => String.eqb (transp e) "TRANSPARENT"
              || String.eqb (busy_status e) "FREE",
     fun _ => "free_time_transparent_excluded");
    (fun e => any_in_either
       ["customer"; "client"; "external"; "demo"; "presentation";
        "sales"; "prospect"; "dinner"; "reception"]
       (summary_lower e) (desc_lower e),
     fun _ => "customer_external");
    (fun e => Py.any_in
       ["1:1"; "one on one"; "1-1"; "sync"; "catch up"; "check in"]
       (summary_lower e),
     fun _ => "internal_meetings_1on1_sync");
    (fun e => Py.any_in
       ["training"; "workshop"; "learning"; "course"; "webinar";
        "certification"; "onboarding"] (summary_lower e),
     fun _ => "training_learning");
    (fun e => Py.any_in
       ["planning"; "roadmap"; "strategy"; "review"; "retrospective";
        "sprint"; "scrum"; "project"; "initiative"; "backlog"; "refinement"]
       (summary_lower e),
     fun _ => "planning_strategy");
    (fun e => Py.any_in
       ["interview"; "candidate"; "hiring"; "recruiting"; "screening"]
       (summary_lower e),
     fun _ => "recruiting_hiring");
    (fun e => Py.any_in
       ["focus time"; "blocked"; "do not book"; "dnb";
        "heads down"; "deep work"; "no meetings"] (summary_lower e)
              && negb (Py.contains "friday" (summary_lower e)),
     fun _ => "focus_time_blocked");
    (fun e => String.eqb (busy_status e) "BUSY"
              || String.eqb (transp e) "OPAQUE",
     fun _ => "general_work_meetings") ].

(** The label of the first rule whose predicate holds, [default] when none
    does. *)
Fixpoint first_match (rs : list rule) (default : string) (e : CalendarEvent) : string :=
  match rs with
  | [] => default
  | (applies, label) :: rest =>
      if applies e then label e else first_match rest default e
  end.

End Rerun.

(** ** [stakeholder_analysis.py] *)

Module Stakeholder.

Record attendee_info : Type := {
  email : string;
  name : string;
  att_status : string
}.

Record CalendarEvent : Type := {
  summary : string;
  dtstart : string;
  dtend : string;
  description : string;
  location : string;
  organizer : string;
  organizer_name : string;
  attendees : list attendee_info;
  categories : list string;
  status : string;
  busy_status : string;
  transp : string;
  created : string;
  uid : string;
  is_recurring : bool;
  recurrence_id : string
}.

Definition get_duration_hours (e : CalendarEvent) : Q :=
  Duration.get_duration_hours (dtstart e) (dtend e).

(** The pattern [(\d{8})] anchored at the head of [s]. *)
Definition match_date_token (s : string) : option string :=
  let t := Py.take 8 s in
  if (String.length t =? 8)%nat && Py.all_chars Py.is_digit t
  then Some t else None.

(** [get_date]: [strptime(t, '%Y%m%d')] consumes the eight digits only as
    four, two and two, and raises unless they form a date; [strftime] then
    prints the same digits (years are taken to print on four digits). *)
Definition get_date (e : CalendarEvent) : string :=
  let start_str := Duration.tz_tail (dtstart e) in
  match Py.search match_date_token start_str with
  | Some t =>
      let d := {| Datetime.year := Py.int (Py.take 4 t);
                  Datetime.month := Py.int (Py.take 2 (Py.drop 4 t));
                  Datetime.day := Py.int (Py.drop 6 t);
                  Datetime.hour := 0; Datetime.minute := 0;
                  Datetime.second := 0 |} in
      if Datetime.valid d
      then Py.take 4 t +:+ "-" +:+ Py.take 2 (Py.drop 4 t) +:+ "-" +:+ Py.drop 6 t
      else ""
  | None => ""
  end.

(** [get_month] *)
Definition get_month (e : CalendarEvent) : string :=
  let date := get_date e in
  if Py.truthy date then Py.take 7 date else "".

(** [is_work_relevant(event)] *)
Definition is_work_relevant (event : CalendarEvent) : bool :=
  let summary_lower := Py.lower (summary event) in
  if (length (attendees event) =? 0)%nat then false
  else if existsb (String.eqb (status event)) ["DECLINED"; "TENTATIVE"] then false
  else if String.eqb (busy_status event) "OOF" then false
  else if Py.any_in
       ["out of office"; "ooo"; "pto"; "vacation"; "holiday";
        "personal"; "dentist"; "doctor"] summary_lower
  then false
  else if Py.contains "focus friday" summary_lower
          || Py.contains "focus fridays" summary_lower
  then false
  else if Py.any_in ["lunch"; "breakfast"; "gym"; "workout"] summary_lower
          && negb (Py.any_in ["customer"; "client"; "meeting"] summary_lower)
  then false
  else if String.eqb (transp event) "TRANSPARENT"
          || String.eqb (busy_status event) "FREE"
  then false
  else true.

(** [extract_company_from_email(email)] *)
Definition extract_company_from_email (email : string) : string :=
  if negb (Py.truthy email) || negb (Py.contains "@" email) then "Unknown"
  else
    let domain := Py.lower (List.nth 1 (Py.split "@" email) "") in
    if Py.contains "autodesk" domain then "Autodesk (Internal)"
    else if existsb (String.eqb domain)
              ["gmail.com"; "outlook.com"; "hotmail.com"; "yahoo.com"]
    then "Personal Email"
    else Py.title (Py.first_piece (Py.split "." domain)).

(** [categorize_meeting_type(event)] *)
Definition categorize_meeting_type (event : CalendarEvent) : string :=
  let summary_lower := Py.lower (summary event) in
  let desc_lower := Py.lower (description event) in
  if Py.any_in
       ["1:1"; "one on one"; "1-1"; "sync"; "catch up"; "check in"] summary_lower
  then "1:1 & Syncs"
  else if existsb
       (fun keyword =>
          Py.contains keyword summary_lower || Py.contains keyword desc_lower)
       ["customer"; "client"; "external"; "demo"; "presentation"]
  then "Customer/External"
  else if Py.any_in
       ["team meeting"; "standup"; "stand-up"; "all hands"; "town hall"]
       summary_lower
  then "Team Meetings"
  else if Py.any_in
       ["training"; "workshop"; "learning"; "course"; "webinar"] summary_lower
  then "Training/Learning"
  else if Py.any_in
       ["planning"; "roadmap"; "strategy"; "review"; "retrospective"; "sprint"]
       summary_lower
  then "Planning/Strategy"
  else if Py.any_in ["focus"; "blocked"; "do not book"; "heads down"] summary_lower
  then "Focus Time"
  else "General Meetings".

(** One value of [stakeholder_meetings]. *)
Record stakeholder : Type := {
  count : nat;
  hours : Q;
  as_organizer : nat;
  as_attendee : nat;
  companies : gset string;
  meeting_types : gmap string nat;
  months_active : gset string
}.

(** The default factory of [stakeholder_meetings]. *)
Definition stakeholder_init : stakeholder := {|
  count := 0; hours := 0; as_organizer := 0; as_attendee := 0;
  companies := ∅; meeting_types := ∅; months_active := ∅
|}.

(** One value of [organizer_stats]. *)
Record organizer_record : Type := {
  org_count : nat;
  org_hours : Q;
  org_company : string;
  org_months_active : gset string
}.

Definition organizer_init : organizer_record := {|
  org_count := 0; org_hours := 0; org_company := ""; org_months_active := ∅
|}.

Definition viewer_email : string := "daniel.moreira@autodesk.com".

(** ['daniel.moreira' in email.lower()]: the attendee is skipped as self. *)
Definition is_self (a : attendee_info) : bool :=
  Py.contains "daniel.moreira" (Py.lower (email a)).

(** [name if name else email] *)
Definition stakeholder_key (a : attendee_info) : string :=
  if Py.truthy (name a) then name a else email a.

(** The body of the loop over [event.attendees]. *)
Definition track_attendee (event : CalendarEvent)
    (m : gmap string stakeholder) (a : attendee_info) : gmap string stakeholder :=
  if is_self a then m
  else
    let key := stakeholder_key a in
    let company := extract_company_from_email (email a) in
    let month := get_month event in
    let r := default stakeholder_init (m !! key) in
    let by_me := String.eqb (organizer event) viewer_email in
    <[key := {|
        count := S (count r);
        hours := (hours r + get_duration_hours event)%Q;
        as_organizer := if by_me then S (as_organizer r) else as_organizer r;
        as_attendee := if by_me then as_attendee r else S (as_attendee r);
        companies := companies r ∪ {[company]};
        meeting_types :=
          <[categorize_meeting_type event :=
              S (default 0%nat (meeting_types r !! categorize_meeting_type event))]>
            (meeting_types r);
        months_active :=
          if Py.truthy month then months_active r ∪ {[month]}
          else months_active r
      |}]> m.

(** The block "track organizer". *)
Definition track_organizer (event : CalendarEvent)
    (m : gmap string organizer_record) : gmap string organizer_record :=
  if Py.truthy (organizer event)
     && negb (String.eqb (organizer event) viewer_email)
  then
    let org_key :=
      if Py.truthy (organizer_name event)
      then organizer_name event else organizer event in
    let month := get_month event in
    let r := default organizer_init (m !! org_key) in
    <[org_key := {|
        org_count := S (org_count r);
        org_hours := (org_hours r + get_duration_hours event)%Q;
        org_company := extract_company_from_email (organizer event);
        org_months_active :=
          if Py.truthy month then org_months_active r ∪ {[month]}
          else org_months_active r
      |}]> m
  else m.

(** The result dictionary of [analyze_stakeholders]. *)
Record stakeholder_data : Type := {
  stakeholders : gmap string stakeholder;
  organizers : gmap string organizer_record;
  work_events : list CalendarEvent
}.

(** The body of the loop over [work_events]. *)
Definition track_event
    (acc : gmap string stakeholder * gmap string organizer_record)
    (event : CalendarEvent)
  : gmap string stakeholder * gmap string organizer_record :=
  (fold_left (track_attendee event) (attendees event) (fst acc),
   track_organizer event (snd acc)).

(** [analyze_stakeholders(events)] *)
Definition analyze_stakeholders (events : list CalendarEvent) : stakeholder_data :=
  let work := List.filter is_work_relevant events in
  let acc := fold_left track_event work (∅, ∅) in
  {| stakeholders := fst acc; organizers := snd acc; work_events := work |}.

(** One value of [stats['by_company']]. *)
Record bucket : Type := {
  b_count : nat;
  b_hours : Q
}.

Definition bucket_init : bucket := {| b_count := 0; b_hours := 0 |}.

(** [x / n] for a float [x] and an integer [n]. *)
Definition divide (x : Q) (n : nat) : result Q :=
  match n with
  | O => Raise ZeroDivisionError
  | S _ => Ok (x / inject_Z (Z.of_nat n))%Q
  end.

(** The set built by the loop "by company (from attendees)". *)
Definition event_companies (event : CalendarEvent) : gset string :=
  list_to_set (List.map (fun a => extract_company_from_email (email a))
                        (attendees event)).

(** The body of [for company in companies]. *)
Definition add_company_share (duration : Q) (n : nat)
    (acc : result (gmap string bucket)) (company : string)
  : result (gmap string bucket) :=
  let* m := acc in
  let* share := divide duration n in
  let b := default bucket_init (m !! company) in
  Ok (<[company := {| b_count := S (b_count b);
                      b_hours := (b_hours b + share)%Q |}]> m).

(** What one event adds to [stats['by_company']]; the set is visited in the
    order of [elements]. *)
Definition by_company_event (acc : result (gmap string bucket))
    (event : CalendarEvent) : result (gmap string bucket) :=
  let companies := event_companies event in
  fold_left (add_company_share (get_duration_hours event) (size companies))
            (elements companies) acc.

(** The [by_company] view computed by [analyze_time_patterns(events)]; the
    other views of that function are filled by separate statements of the
    same loop and do not feed into this one. *)
Definition by_company (events : list CalendarEvent) : result (gmap string bucket) :=
  fold_left by_company_event (List.filter is_work_relevant events) (Ok ∅).

End Stakeholder.

(** ** Statements and sample inputs *)

Module Contract.

(** What the duration accessor returns for the stored strings [dtstart] and
    [dtend]: the difference of the two timestamps in hours when both are
    found and parse, which is non-negative exactly when the end is not
    earlier than the start; zero otherwise. *)
Definition duration (dtstart dtend : string) (hours : Q) : Prop :=
  (forall s e,
      Duration.timestamp dtstart = Some s ->
      Duration.timestamp dtend = Some e ->
      hours = (Datetime.total_seconds_between s e # 3600)
      /\ ((0 <= hours)%Q <-> Datetime.not_after s e = true))
  /\ (Duration.timestamp dtstart = None \/ Duration.timestamp dtend = None ->
      hours = 0%Q).

End Contract.

Module Samples.

(** An event whose end is one day before its start. *)
Definition backwards_event : AnalyzeCalendar.CalendarEvent :=
  AnalyzeCalendar.process_field
    (AnalyzeCalendar.process_field AnalyzeCalendar.CalendarEvent_init
       "DTSTART" "20250102T090000")
    "DTEND" "20250101T090000".

(** A one-hour event with a time-zone parameter. *)
Definition one_hour_event : AnalyzeCalendar.CalendarEvent :=
  AnalyzeCalendar.process_field
    (AnalyzeCalendar.process_field AnalyzeCalendar.CalendarEvent_init
       "DTSTART;TZID=Eastern Standard Time" "20250106T090000")
    "DTEND;TZID=Eastern Standard Time" "20250106T100000".

Definition nine_am : Datetime.datetime :=
  Datetime.mk_datetime 2025 1 6 9 0 0.

Definition ten_am : Datetime.datetime :=
  Datetime.mk_datetime 2025 1 6 10 0 0.

End Samples.

(** ** Well-formed event blocks and parser invariants *)

Module Ics.

Import AnalyzeCalendar.

(** A logical field of an event block: a single line [field:value], or a
    line [field:value] ending in [=] together with the continuation lines
    that follow it. *)
Inductive logical_line : Type :=
  | Single (field value : string)
  | Folded (field value : string) (continuation : list string).

Definition first_line (it : logical_line) : string :=
  match it with
  | Single f v => f +:+ ":" +:+ v
  | Folded f v _ => f +:+ ":" +:+ v
  end.

(** The physical lines of a logical field. *)
Definition render (it : logical_line) : list string :=
  match it with
  | Single f v => [first_line it]
  | Folded f v cs => first_line it :: cs
  end.

(** The field decoder applied to a logical field: the value of a folded one
    is the first line's value followed by the continuation lines, each
    stripped of white space at both ends. *)
Definition decode (ev : CalendarEvent) (it : logical_line) : CalendarEvent :=
  match it with
  | Single f v => process_field ev f v
  | Folded f v cs => process_field ev f (v +:+ Py.join (List.map Py.strip cs))
  end.

(** The field name holds no colon; the first line is neither a continuation
    line nor an event boundary; a single line does not end in [=]; a folded
    one does, has a non-empty field name, and is followed by continuation
    lines only. *)
Definition well_formed (it : logical_line) : bool :=
  let l := first_line it in
  negb (is_continuation_line l)
  && negb (String.eqb l "BEGIN:VEVENT")
  && negb (String.eqb l "END:VEVENT")
  && match it with
     | Single f _ => negb (Py.contains ":" f) && negb (Py.endswith "=" l)
     | Folded f _ cs =>
         negb (Py.contains ":" f) && Py.truthy f && Py.endswith "=" l
         && forallb is_continuation_line cs
     end.

(** An event block of the file. *)
Definition block_lines (b : list logical_line) : list string :=
  "BEGIN:VEVENT" :: (flat_map render b ++ ["END:VEVENT"])%list.

(** The event a block describes: the fields decoded in order onto a fresh
    event. *)
Definition decode_block (b : list logical_line) : CalendarEvent :=
  fold_left decode b CalendarEvent_init.

(** A calendar text: event blocks, each preceded by lines that lie outside
    any event (the calendar header, other components), and trailing lines. *)
Definition document : Type := (list (list string * list logical_line) * list string)%type.

Definition document_lines (d : document) : list string :=
  (flat_map (fun p => fst p ++ block_lines (snd p)) (fst d) ++ snd d)%list.

Definition document_blocks (d : document) : list (list logical_line) :=
  List.map snd (fst d).

Definition outside_line (l : string) : bool :=
  negb (String.eqb l "BEGIN:VEVENT").

Definition well_formed_document (d : document) : bool :=
  forallb (fun p => forallb outside_line (fst p) && forallb well_formed (snd p))
          (fst d)
  && forallb outside_line (snd d).

(** The invariant of the parser loop: a pending field belongs to an open
    event and has a non-empty accumulated value. *)
Definition consistent (st : parser) : Prop :=
  field_pending st = true ->
  is_Some (current_event st) /\ Py.truthy (continuation_value st) = true.

(** The event under construction once a pending field has been decoded. *)
Definition settled_event (st : parser) : option CalendarEvent :=
  match current_event st with
  | Some ev =>
      if field_pending st
      then match current_field st with
           | Some f => Some (process_field ev f (continuation_value st))
           | None => Some ev
           end
      else Some ev
  | None => None
  end.

(** The state the flush block leaves when it does not raise. *)
Definition flushed (st : parser) : parser :=
  if field_pending st
  then {| events := events st; current_event := settled_event st;
          current_field := None; continuation_value := "" |}
  else st.

(** The state after a continuation line was accumulated. *)
Definition accumulated (st : parser) (text : string) : parser :=
  {| events := events st; current_event := current_event st;
     current_field := current_field st;
     continuation_value := continuation_value st +:+ text |}.

(** Two states that the loop cannot tell apart: they agree except on a
    continuation value that no pending field will read. *)
Definition alike (st st' : parser) : Prop :=
  events st = events st'
  /\ current_event st = current_event st'
  /\ current_field st = current_field st'
  /\ (field_pending st = true -> continuation_value st = continuation_value st').

(** The continuation accumulation as the prose reads it, with each
    continuation line trimmed on the left only. *)
Definition left_trimmed_unfold (line : string) (continuation : list string) : string :=
  line +:+ Py.join (List.map Py.lstrip continuation).

(** The same with the trimming the loop applies, [line.strip()]. *)
Definition unfold_line (line : string) (continuation : list string) : string :=
  line +:+ Py.join (List.map Py.strip continuation).

End Ics.

Module ParserSamples.

Import AnalyzeCalendar Ics.

(** A text from its lines, each ended by a line feed. *)
Definition unlines (ls : list string) : string :=
  Py.join (List.map (fun l => l +:+ String File.LF "") ls).

(** A start field folded after a trailing [=], whose continuation line also
    ends in a space. *)
Definition folded_start : string := "DTSTART;TZID=X:2025=".
Definition folded_rest : list string := [" 0106T090000 "].

Definition folded_event_lines : list string :=
  ["BEGIN:VEVENT"; folded_start] ++ folded_rest ++ ["END:VEVENT"].

Definition left_trimmed_event_lines : list string :=
  ["BEGIN:VEVENT"; left_trimmed_unfold folded_start folded_rest; "END:VEVENT"].

(** A closed event followed by one that is never closed. *)
Definition closed_block : list string :=
  ["BEGIN:VEVENT"; "SUMMARY:Weekly sync"; "END:VEVENT"].

Definition open_tail : list string :=
  ["SUMMARY:Lost"; "DTSTART:20250106T090000"].

Definition unterminated_text : string :=
  unlines (closed_block ++ "BEGIN:VEVENT" :: open_tail).

(** A calendar with a header, one event block and a footer. *)
Definition calendar : document :=
  ([(["BEGIN:VCALENDAR"; "VERSION:2.0"],
     [Single "SUMMARY" "Customer QBR";
      Folded "DTSTART;TZID=X" "2025=" [" 0106T090000"];
      Single "DTEND;TZID=X" "20250106T100000";
      Single "ATTENDEE;PARTSTAT=ACCEPTED;CN=Jane Doe" "mailto:jane@acme.com"])],
   ["END:VCALENDAR"]).

Definition calendar_text : string := unlines (document_lines calendar).

End ParserSamples.

Module RerunSamples.

Import Rerun.

Definition viewer : attendee_info :=
  {| email := "daniel.moreira@autodesk.com"; name := "Daniel Moreira" |}.

Definition jane : attendee_info :=
  {| email := "jane@acme.com"; name := "Jane Doe" |}.

(** A reminder with a blank title and nobody invited. *)
Definition blank_reminder : CalendarEvent := {|
  summary := ""; dtstart := "DTSTART:20250106T090000";
  dtend := "DTEND:20250106T093000"; description := ""; location := "";
  organizer := ""; organizer_name := ""; attendees := [];
  busy_status := "BUSY"; transp := "OPAQUE"; status := ""
|}.

(** A customer meeting the viewing user declined. *)
Definition declined_review : CalendarEvent := {|
  summary := "Customer QBR"; dtstart := "DTSTART:20250106T090000";
  dtend := "DTEND:20250106T100000"; description := ""; location := "";
  organizer := "jane@acme.com"; organizer_name := "Jane Doe";
  attendees := [viewer; jane];
  busy_status := "BUSY"; transp := "OPAQUE"; status := "DECLINED"
|}.

(** A meeting to which no rule applies. *)
Definition plain_chat : CalendarEvent := {|
  summary := "Chat"; dtstart := "DTSTART:20250106T090000";
  dtend := "DTEND:20250106T100000"; description := ""; location := "";
  organizer := "jane@acme.com"; organizer_name := "Jane Doe";
  attendees := [viewer; jane];
  busy_status := ""; transp := ""; status := "ACCEPTED"
|}.

End RerunSamples.

Module Aggregate.

(** [sum(h for h in hours)] *)
Definition sum_hours (hours : list Q) : Q := fold_right Qplus 0%Q hours.

(** The events of a sequence that [analyze_calendar.py] labels [label]. *)
Definition members (label : string) (events : list AnalyzeCalendar.CalendarEvent)
  : list AnalyzeCalendar.CalendarEvent :=
  List.filter
    (fun e => String.eqb (AnalyzeCalendar.categorize_event e) label) events.

(** An event of twenty minutes that no rule of the first classifier
    catches. *)
Definition twenty_minutes : AnalyzeCalendar.CalendarEvent :=
  AnalyzeCalendar.process_field
    (AnalyzeCalendar.process_field AnalyzeCalendar.CalendarEvent_init
       "DTSTART" "20250106T090000")
    "DTEND" "20250106T092000".

End Aggregate.

Module StakeholderSpec.

Import Stakeholder.

(** The accumulated hours of a stakeholder key, zero when the key has no
    record. *)
Definition hours_of (m : gmap string stakeholder) (key : string) : Q :=
  from_option hours 0%Q (m !! key).

(** The attendee entry is credited to [key]: it is not the viewing user
    and its name, or its email when it has no name, is [key]. *)
Definition credited (key : string) (a : attendee_info) : bool :=
  negb (is_self a) && String.eqb (stakeholder_key a) key.

(** How many attendee entries of the event are credited to [key]. *)
Definition appearances (key : string) (e : CalendarEvent) : nat :=
  length (List.filter (credited key) (attendees e)).

(** The hours credited to [key]: each work-relevant event counts once for
    every attendee entry credited to [key]. *)
Definition credited_hours (key : string) (events : list CalendarEvent) : Q :=
  Aggregate.sum_hours
    (List.map
       (fun e => (inject_Z (Z.of_nat (appearances key e)) * get_duration_hours e)%Q)
       (List.filter is_work_relevant events)).

(** The sum of the durations of the work-relevant events in which [key]
    appears as an attendee other than the viewing user, each event counted
    once. *)
Definition attended_hours (key : string) (events : list CalendarEvent) : Q :=
  Aggregate.sum_hours
    (List.map get_duration_hours
       (List.filter
          (fun e => is_work_relevant e && (0 <? appearances key e)%nat) events)).

(** The hours of an organization in the [by_company] view. *)
Definition company_hours (m : gmap string bucket) (company : string) : Q :=
  from_option b_hours 0%Q (m !! company).

Definition company_count (m : gmap string bucket) (company : string) : nat :=
  from_option b_count 0%nat (m !! company).

Definition viewer : attendee_info :=
  {| email := "daniel.moreira@autodesk.com"; name := "Daniel Moreira";
     att_status := "ACCEPTED" |}.

Definition jane : attendee_info :=
  {| email := "jane@acme.com"; name := "Jane Doe"; att_status := "ACCEPTED" |}.

Definition meeting (people : list attendee_info) : CalendarEvent := {|
  summary := "Customer QBR";
  dtstart := "DTSTART;TZID=X:20250106T090000";
  dtend := "DTEND;TZID=X:20250106T100000";
  description := ""; location := "";
  organizer := "daniel.moreira@autodesk.com"; organizer_name := "Daniel Moreira";
  attendees := people; categories := [];
  status := "ACCEPTED"; busy_status := "BUSY"; transp := "OPAQUE";
  created := ""; uid := ""; is_recurring := false; recurrence_id := ""
|}.

(** A one-hour customer meeting with the viewing user and Jane. *)
Definition review : CalendarEvent := meeting [viewer; jane].

(** The same meeting when the export lists Jane's attendee line twice. *)
Definition review_listed_twice : CalendarEvent := meeting [viewer; jane; jane].

End StakeholderSpec.

(** ** Further notions about the parser's input *)

Module Lines.

(** How many lines of [ls] are exactly [l]. *)
Definition count_lines (l : string) (ls : list string) : nat :=
  length (List.filter (String.eqb l) ls).

(** The physical lines the loop of [parse_ics_file] sees for a text. *)
Definition of_text (text : string) : list string :=
  List.map File.rstrip_newline (File.lines text).

(** One if an event is under construction, zero otherwise. *)
Definition open_events (st : AnalyzeCalendar.parser) : nat :=
  match AnalyzeCalendar.current_event st with
  | Some _ => 1
  | None => 0
  end.

End Lines.

Module Stray.

Import AnalyzeCalendar.

(** The field names the decoder of [analyze_calendar.py] acts on. *)
Definition known_fields : list string :=
  ["SUMMARY"; "DTSTART"; "DTEND"; "DESCRIPTION"; "LOCATION"; "ORGANIZER";
   "ATTENDEE"; "CATEGORIES"; "X-MICROSOFT-CDO-BUSYSTATUS"; "TRANSP";
   "CREATED"; "UID"; "RRULE"; "RECURRENCE-ID"].

(** [field.split(';')[0]] *)
Definition field_name (field : string) : string :=
  Py.first_piece (Py.split ";" field).

(** Two states the loop treats alike: the same finished and open events, and
    the same pending field with its value when there is one. *)
Definition similar (a b : parser) : Prop :=
  events a = events b
  /\ current_event a = current_event b
  /\ field_pending a = field_pending b
  /\ (field_pending a = true ->
      current_field a = current_field b
      /\ continuation_value a = continuation_value b).

(** A state reached from [origin] by lines that only left, at most, a
    pending field whose name starts with white space. *)
Definition strayed (origin st : parser) : Prop :=
  events st = events origin
  /\ current_event st = current_event origin
  /\ Ics.consistent st
  /\ (field_pending st = true ->
      exists f, current_field st = Some f /\ is_continuation_line f = true).

End Stray.

Module Decoded.

Import AnalyzeCalendar.

(** The character is in the ASCII range. *)
Definition is_ascii (c : ascii) : bool := (Py.code c <? 128)%N.

(** What the decoder guarantees of the text fields it bounds: a title of
    ASCII characters and a description of at most 500 characters. *)
Definition bounded_text (ev : CalendarEvent) : Prop :=
  Py.all_chars is_ascii (summary ev) = true
  /\ String.length (description ev) <= 500.

(** An address as the pattern [mailto:([^\s]+)] captures it: not empty and
    free of white space. *)
Definition address_like (s : string) : bool :=
  Py.truthy s && Py.all_chars (fun c => negb (Py.is_space c)) s.

(** A status as the pattern [PARTSTAT=([^;:]+)] captures it: not empty and
    free of semicolons and colons. *)
Definition status_like (s : string) : bool :=
  Py.truthy s && Py.all_chars (fun c => negb (Re.sep_char c)) s.

Definition attendee_captured (a : attendee_info) : bool :=
  address_like (email a)
  && match att_status a with
     | Some s => status_like s
     | None => true
     end.

(** Every attendee entry of the event holds captured text. *)
Definition attendees_captured (ev : CalendarEvent) : Prop :=
  forallb attendee_captured (attendees ev) = true.

End Decoded.

Module Stored.




End Stored.

(** ** Sums over dictionaries *)

Module Dict.

(** [sum(f(k, v) for k, v in d.items())] for integer terms. *)
Definition sum_items {A} (f : string -> A -> nat) (d : gmap string A) : nat :=
  list_sum (List.map (fun kv => f (fst kv) (snd kv)) (map_to_list d)).

(** The same for terms that are hours. *)
Definition sum_items_hours {A} (f : string -> A -> Q) (d : gmap string A) : Q :=
  Aggregate.sum_hours (List.map (fun kv => f (fst kv) (snd kv)) (map_to_list d)).

End Dict.

(** ** [print_analysis] of [analyze_calendar.py]: the numbers it reports *)

Module Report.

Import AnalyzeCalendar.

(** The order in which the categories are printed; a category outside this
    list is not printed. *)
Definition category_order : list string :=
  ["declined_tentative_declined";
   "declined_tentative_tentative";
   "out_of_office";
   "personal_time_off";
   "breaks_personal_care";
   "free_time_transparent";
   "focus_time_blocked";
   "customer_external";
   "planning_strategy";
   "internal_meetings_1on1_sync";
   "recruiting_hiring";
   "training_learning";
   "general_work_meetings";
   "uncategorized"].

Definition non_relevant : list string :=
  ["declined_tentative_declined";
   "declined_tentative_tentative";
   "out_of_office";
   "personal_time_off";
   "breaks_personal_care";
   "free_time_transparent"].

(** [stats['by_category'].get(cat, {}).get('count', 0)] *)
Definition entry_count (s : stats) (cat : string) : nat :=
  from_option count 0%nat (by_category s !! cat).

(** [stats['by_category'].get(cat, {}).get('total_hours', 0)] *)
Definition entry_hours (s : stats) (cat : string) : Q :=
  from_option total_hours 0%Q (by_category s !! cat).

Definition non_relevant_hours (s : stats) : Q :=
  Aggregate.sum_hours (List.map (entry_hours s) non_relevant).

Definition non_relevant_count (s : stats) : nat :=
  list_sum (List.map (entry_count s) non_relevant).

(** [sum(stats['total_hours_by_category'].values())] *)
Definition total_hours_of (s : stats) : Q :=
  Dict.sum_items_hours (fun _ h => h) (total_hours_by_category s).

Definition work_relevant_hours (s : stats) : Q :=
  (total_hours_of s - non_relevant_hours s)%Q.

Definition work_relevant_count (s : stats) : Z :=
  (Z.of_nat (total_events s) - Z.of_nat (non_relevant_count s))%Z.

(** [n / total * 100] with an integer divisor. *)
Definition percent_of_events (n : Z) (total : nat) : result Q :=
  match total with
  | O => Raise ZeroDivisionError
  | S _ => Ok (inject_Z n / inject_Z (Z.of_nat total) * 100)%Q
  end.

(** [h / total * 100] with a float divisor. *)
Definition percent_of_hours (h total : Q) : result Q :=
  if Qeq_bool total 0 then Raise ZeroDivisionError
  else Ok (h / total * 100)%Q.

(** The four percentages of the work-relevance summary, in the order in
    which they are printed. *)
Record percentages : Type := {
  non_relevant_events_pct : Q;
  non_relevant_hours_pct : Q;
  work_relevant_events_pct : Q;
  work_relevant_hours_pct : Q
}.

Definition work_relevance_summary (s : stats) : result percentages :=
  let* p1 := percent_of_events (Z.of_nat (non_relevant_count s)) (total_events s) in
  let* p2 := percent_of_hours (non_relevant_hours s) (total_hours_of s) in
  let* p3 := percent_of_events (work_relevant_count s) (total_events s) in
  let* p4 := percent_of_hours (work_relevant_hours s) (total_hours_of s) in
  Ok {| non_relevant_events_pct := p1; non_relevant_hours_pct := p2;
        work_relevant_events_pct := p3; work_relevant_hours_pct := p4 |}.

(** Whether the label of an event is one of [labels]. *)
Definition has_label (labels : list string) (e : CalendarEvent) : bool :=
  existsb (String.eqb (categorize_event e)) labels.

(** The events of a sequence whose label is one of [labels], and the
    others. *)
Definition labelled_in (labels : list string) (events : list CalendarEvent)
  : list CalendarEvent :=
  List.filter (has_label labels) events.

Definition labelled_outside (labels : list string) (events : list CalendarEvent)
  : list CalendarEvent :=
  List.filter (fun e => negb (has_label labels e)) events.

End Report.

(** ** [main] of [rerun_analysis_improved.py], from the parsed events on *)

Module RerunMain.

(** [categorized[category].append(event)] on a [defaultdict(list)] from
    labels to the events that received them. *)
Definition append_to (category : string) (event : Rerun.CalendarEvent)
    (d : gmap string (list Rerun.CalendarEvent))
  : gmap string (list Rerun.CalendarEvent) :=
  <[category := (default [] (d !! category) ++ [event])%list]> d.

(** The body of the first loop, and the loop. *)
Definition categorize_one (d : gmap string (list Rerun.CalendarEvent))
    (event : Rerun.CalendarEvent)
  : gmap string (list Rerun.CalendarEvent) :=
  append_to (Rerun.categorize_event_final event) event d.

Definition categorize_all (events : list Rerun.CalendarEvent)
  : gmap string (list Rerun.CalendarEvent) :=
  fold_left categorize_one events ∅.

(** [categorized[cat]] on a [defaultdict(list)]: the value, and the
    dictionary afterwards, to which a missing key has been added with an
    empty list. *)
Definition getitem (cat : string) (d : gmap string (list Rerun.CalendarEvent))
  : list Rerun.CalendarEvent * gmap string (list Rerun.CalendarEvent) :=
  match d !! cat with
  | Some l => (l, d)
  | None => ([], <[cat := []]> d)
  end.

Definition keys (d : gmap string (list Rerun.CalendarEvent)) : list string :=
  List.map fst (map_to_list d).

Definition work_categories (d : gmap string (list Rerun.CalendarEvent)) : list string :=
  List.filter Rerun.is_work_relevant_final (keys d).

Definition excluded_categories (d : gmap string (list Rerun.CalendarEvent))
  : list string :=
  List.filter (fun cat => negb (Rerun.is_work_relevant_final cat)) (keys d).

(** [sum(e.get_duration_hours() for e in cat_events)] *)
Definition hours_of (cat_events : list Rerun.CalendarEvent) : Q :=
  Aggregate.sum_hours (List.map Rerun.get_duration_hours cat_events).

Definition work_events (d : gmap string (list Rerun.CalendarEvent)) : nat :=
  list_sum (List.map (fun cat => length (fst (getitem cat d))) (work_categories d)).

Definition excluded_events (d : gmap string (list Rerun.CalendarEvent)) : nat :=
  list_sum (List.map (fun cat => length (fst (getitem cat d)))
              (excluded_categories d)).

Definition work_hours (d : gmap string (list Rerun.CalendarEvent)) : Q :=
  Aggregate.sum_hours
    (List.map (fun cat => hours_of (fst (getitem cat d))) (work_categories d)).

Definition excluded_hours (d : gmap string (list Rerun.CalendarEvent)) : Q :=
  Aggregate.sum_hours
    (List.map (fun cat => hours_of (fst (getitem cat d))) (excluded_categories d)).

(** [n / total * 100] *)
Definition percent (n total : nat) : result Q :=
  match total with
  | O => Raise ZeroDivisionError
  | S _ => Ok (inject_Z (Z.of_nat n) / inject_Z (Z.of_nat total) * 100)%Q
  end.

(** [(count / total_events * 100) if total_events > 0 else 0] *)
Definition percent_guarded (n total : nat) : Q :=
  if (0 <? total)%nat
  then (inject_Z (Z.of_nat n) / inject_Z (Z.of_nat total) * 100)%Q else 0%Q.

Record summary : Type := {
  total_events : nat;
  work_relevant_events : nat;
  work_relevant_hours : Q;
  excluded_events_total : nat;
  excluded_hours_total : Q
}.

Record sample_event : Type := {
  sample_summary : string;
  sample_duration_hours : Q
}.

Record category_entry : Type := {
  count : nat;
  hours : Q;
  is_work_relevant : bool;
  sample_events : list sample_event
}.

Record output : Type := {
  output_summary : summary;
  by_category : gmap string category_entry
}.

Definition make_sample (e : Rerun.CalendarEvent) : sample_event := {|
  sample_summary := Py.take 80 (Rerun.summary e);
  sample_duration_hours := round2 (Rerun.get_duration_hours e)
|}.

Definition make_entry (cat : string) (cat_events : list Rerun.CalendarEvent)
  : category_entry := {|
  count := length cat_events;
  hours := round2 (hours_of cat_events);
  is_work_relevant := Rerun.is_work_relevant_final cat;
  sample_events := List.map make_sample (List.firstn 5 cat_events)
|}.

(** The rows of the categorisation table: the percentage of each row is
    guarded against an empty calendar. *)
Definition table (d : gmap string (list Rerun.CalendarEvent)) (total : nat)
  : list (string * nat * Q * Q) :=
  List.map (fun kv => (fst kv, length (snd kv), hours_of (snd kv),
                       percent_guarded (length (snd kv)) total))
           (map_to_list d).

(** [main] after parsing.  The two percentages of the work-relevant versus
    excluded block are not guarded; the two subscripts of the key-changes
    block add their keys to [categorized] before it is exported. *)
Definition main (events : list Rerun.CalendarEvent) : result output :=
  let categorized := categorize_all events in
  let total := length events in
  let _ := table categorized total in
  let* _ := percent (work_events categorized) total in
  let* _ := percent (excluded_events categorized) total in
  let touched := snd (getitem "non_meetings_excluded" categorized) in
  let touched := snd (getitem "uncategorized" touched) in
  Ok {| output_summary :=
          {| total_events := total;
             work_relevant_events := work_events categorized;
             work_relevant_hours := round2 (work_hours categorized);
             excluded_events_total := excluded_events categorized;
             excluded_hours_total := round2 (excluded_hours categorized) |};
        by_category :=
          map_imap (fun cat cat_events => Some (make_entry cat cat_events))
                   touched |}.

(** The events of a sequence that receive a given label. *)
Definition members (label : string) (events : list Rerun.CalendarEvent)
  : list Rerun.CalendarEvent :=
  List.filter (fun e => String.eqb (Rerun.categorize_event_final e) label) events.

(** The keywords of the time-off rule. *)
Definition time_off_keywords : list string :=
  ["out of office"; "ooo"; "pto"; "vacation"; "holiday"].

Definition no_attendees : Rerun.CalendarEvent := {|
  Rerun.summary := "Write report"; Rerun.dtstart := ""; Rerun.dtend := "";
  Rerun.description := ""; Rerun.location := ""; Rerun.organizer := "";
  Rerun.organizer_name := ""; Rerun.attendees := [];
  Rerun.busy_status := "BUSY"; Rerun.transp := "OPAQUE"; Rerun.status := ""
|}.

Definition with_attendee : Rerun.CalendarEvent := {|
  Rerun.summary := "Customer demo";
  Rerun.dtstart := "DTSTART:20250106T100000";
  Rerun.dtend := "DTEND:20250106T110000";
  Rerun.description := ""; Rerun.location := ""; Rerun.organizer := "";
  Rerun.organizer_name := "";
  Rerun.attendees := [ {| Rerun.email := "jane@example.com"; Rerun.name := "jane" |} ];
  Rerun.busy_status := "BUSY"; Rerun.transp := "OPAQUE"; Rerun.status := ""
|}.

End RerunMain.

(** ** The other views of [analyze_time_patterns] and the end of
    [print_stakeholder_report] *)

Module TimePatterns.

Import Stakeholder.

(** [stats[view][key]['count'] += 1] followed by
    [stats[view][key]['hours'] += duration]. *)
Definition add_to_bucket (key : string) (duration : Q)
    (m : gmap string bucket) : gmap string bucket :=
  let b := default bucket_init (m !! key) in
  <[key := {| b_count := S (b_count b);
              b_hours := (b_hours b + duration)%Q |}]> m.

(** A view that files every work-relevant event under one key. *)
Definition view (key : CalendarEvent -> string) (events : list CalendarEvent)
  : gmap string bucket :=
  fold_left (fun m event => add_to_bucket (key event) (get_duration_hours event) m)
            (List.filter is_work_relevant events) ∅.

Definition by_meeting_type (events : list CalendarEvent) : gmap string bucket :=
  view categorize_meeting_type events.

(** The key of the view by location. *)
Definition location_label (event : CalendarEvent) : string :=
  let location :=
    if Py.truthy (location event) then location event else "No Location" in
  if Py.contains "teams.microsoft.com" (Py.lower location)
     || Py.contains "zoom" (Py.lower location)
  then "Virtual (Teams/Zoom)"
  else if Py.truthy location && negb (String.eqb location "No Location")
  then "Physical Location"
  else location.

Definition by_location (events : list CalendarEvent) : gmap string bucket :=
  view location_label events.

(** The view by month files an event only when it has a month. *)
Definition by_month (events : list CalendarEvent) : gmap string bucket :=
  fold_left
    (fun m event =>
       if Py.truthy (get_month event)
       then add_to_bucket (get_month event) (get_duration_hours event) m
       else m)
    (List.filter is_work_relevant events) ∅.

(** The size label of a meeting. *)
Definition meeting_size (event : CalendarEvent) : string :=
  let attendee_count := length (attendees event) in
  if (attendee_count <=? 2)%nat then "1:1 (2 people)"
  else if (attendee_count <=? 5)%nat then "Small (3-5 people)"
  else if (attendee_count <=? 10)%nat then "Medium (6-10 people)"
  else if (attendee_count <=? 20)%nat then "Large (11-20 people)"
  else "Very Large (20+ people)".

Definition meeting_size_distribution (events : list CalendarEvent)
  : gmap string nat :=
  fold_left (fun d event => AnalyzeCalendar.incr (meeting_size event) d)
            (List.filter is_work_relevant events) ∅.

(** The sizes that [print_stakeholder_report] prints. *)
Definition size_order : list string :=
  ["1:1 (2 people)";
   "Small (3-5 people)";
   "Medium (6-10 people)";
   "Large (11-20 people)";
   "Very Large (20+ people)"].

(** [stats['recurring_vs_adhoc']] *)
Record recurring_stats : Type := {
  recurring : nat;
  adhoc : nat;
  recurring_hours : Q;
  adhoc_hours : Q
}.

Definition recurring_init : recurring_stats := {|
  recurring := 0; adhoc := 0; recurring_hours := 0; adhoc_hours := 0
|}.

Definition count_recurring (r : recurring_stats) (event : CalendarEvent)
  : recurring_stats :=
  if is_recurring event
  then {| recurring := S (recurring r); adhoc := adhoc r;
          recurring_hours := (recurring_hours r + get_duration_hours event)%Q;
          adhoc_hours := adhoc_hours r |}
  else {| recurring := recurring r; adhoc := S (adhoc r);
          recurring_hours := recurring_hours r;
          adhoc_hours := (adhoc_hours r + get_duration_hours event)%Q |}.

Definition recurring_vs_adhoc (events : list CalendarEvent) : recurring_stats :=
  fold_left count_recurring (List.filter is_work_relevant events) recurring_init.

(** The last block of [print_stakeholder_report]: the two percentages of
    the recurring versus ad-hoc lines.  Every division before this block is
    guarded. *)
Definition recurring_percentages (r : recurring_stats) : result (Q * Q) :=
  let total_meetings := (recurring r + adhoc r)%nat in
  let* p1 := RerunMain.percent (recurring r) total_meetings in
  let* p2 := RerunMain.percent (adhoc r) total_meetings in
  Ok (p1, p2).

(** [sum(e.get_duration_hours() for e in events)] *)
Definition hours_of (events : list CalendarEvent) : Q :=
  Aggregate.sum_hours (List.map get_duration_hours events).

(** The number of distinct organizations over the events. *)
Definition company_slots (events : list CalendarEvent) : nat :=
  list_sum (List.map (fun e => size (event_companies e)) events).

End TimePatterns.

(** ** The shape of a stakeholder record *)

Module Records.

Import Stakeholder.

(** [sum(record['meeting_types'].values())] *)
Definition type_total (r : stakeholder) : nat :=
  Dict.sum_items (fun _ n => n) (meeting_types r).

(** The counters of a record agree with each other. *)
Definition consistent (r : stakeholder) : Prop :=
  count r = (as_organizer r + as_attendee r)%nat
  /\ type_total r = count r
  /\ (size (months_active r) <= count r)%nat.

(** A record that has been updated at least once. *)
Definition populated (r : stakeholder) : Prop :=
  consistent r /\ (0 < count r)%nat /\ companies r <> ∅.

(** The condition of the block that tracks the organizer: the event has an
    organizer other than the viewing user. *)
Definition organized_by_other (event : CalendarEvent) : bool :=
  Py.truthy (organizer event)
  && negb (String.eqb (organizer event) viewer_email).

End Records.

(** * Properties *)

#[local] Arguments String.append !_ _ / : simpl nomatch.

(** ** Calendar arithmetic *)

Section DatetimeFacts.

Import Datetime.
Local Open Scope Z_scope.

Lemma days_before_year_succ (y : Z) :
  days_before_year (y + 1)
  = days_before_year y + (if is_leap y then 366 else 365).
Proof.
  unfold days_before_year, is_leap.
  replace (y + 1 - 1) with y by lia.
  destruct (y mod 4 =? 0) eqn:H4; destruct (y mod 100 =? 0) eqn:H100;
    destruct (y mod 400 =? 0) eqn:H400; cbn [andb orb negb];
    rewrite ?Z.eqb_eq, ?Z.eqb_neq in *; Z.div_mod_to_equations; lia.
Qed.

Lemma days_before_year_le (y1 y2 : Z) :
  y1 <= y2 -> days_before_year y1 + 365 * (y2 - y1) <= days_before_year y2.
Proof.
  intros H. pattern y2. apply (Zlt_lower_bound_ind _ y1); [|exact H].
  intros x IH Hx.
  destruct (Z.eq_dec x y1) as [->|Hne]; [lia|].
  specialize (IH (x - 1) ltac:(lia)).
  replace x with (x - 1 + 1) at 2 by lia.
  rewrite days_before_year_succ. destruct (is_leap (x - 1)); lia.
Qed.

Ltac month_cases m :=
  let H := fresh "Hm" in
  assert (m = 1 \/ m = 2 \/ m = 3 \/ m = 4 \/ m = 5 \/ m = 6 \/ m = 7
          \/ m = 8 \/ m = 9 \/ m = 10 \/ m = 11 \/ m = 12) as H by lia;
  repeat (destruct H as [H | H]); subst m.

Lemma day_of_year_bounds (y m d : Z) :
  1 <= m <= 12 -> 1 <= d <= days_in_month y m ->
  1 <= days_before_month y m + d <= (if is_leap y then 366 else 365).
Proof.
  intros Hm Hd. unfold days_before_month, days_in_month in *.
  destruct (is_leap y); month_cases m; cbn in *; lia.
Qed.

Lemma days_before_month_lt (y m1 m2 d1 d2 : Z) :
  1 <= m1 -> m1 < m2 -> m2 <= 12 ->
  1 <= d1 <= days_in_month y m1 -> 1 <= d2 ->
  days_before_month y m1 + d1 < days_before_month y m2 + d2.
Proof.
  intros H1 H12 H2 Hd1 Hd2.
  assert (Hn : days_before_month y m1 + days_in_month y m1
               <= days_before_month y m2).
  { clear Hd1 Hd2 d1 d2. unfold days_before_month, days_in_month.
    destruct (is_leap y); month_cases m1; month_cases m2; try lia;
      cbn; lia. }
  lia.
Qed.

Lemma valid_true (d : datetime) : valid d = true -> valid_fields d.
Proof.
  unfold valid. rewrite !andb_true_iff, !Z.leb_le. intros H.
  split; lia.
Qed.

Lemma strptime_valid (t : string) (d : datetime) :
  strptime t = Some d -> valid_fields d.
Proof.
  unfold strptime. destruct (token_shape t); [|discriminate].
  match goal with |- context [valid ?x] => destruct (valid x) eqn:V end;
    [|discriminate].
  intros [= <-]. now apply valid_true.
Qed.

Lemma toordinal_year_lt (a b : datetime) :
  valid_fields a -> valid_fields b -> year a < year b ->
  toordinal a < toordinal b.
Proof.
  intros [] [] Hy. unfold toordinal.
  pose proof (day_of_year_bounds (year a) (month a) (day a)
                ltac:(lia) ltac:(lia)) as Ha.
  pose proof (day_of_year_bounds (year b) (month b) (day b)
                ltac:(lia) ltac:(lia)) as Hb.
  pose proof (days_before_year_succ (year a)) as Hs.
  pose proof (days_before_year_le (year a + 1) (year b) ltac:(lia)) as Hle.
  destruct (is_leap (year a)); lia.
Qed.

Lemma toordinal_month_lt (a b : datetime) :
  valid_fields a -> valid_fields b -> year a = year b -> month a < month b ->
  toordinal a < toordinal b.
Proof.
  intros [] [] Hy Hm. unfold toordinal. rewrite Hy in *.
  pose proof (days_before_month_lt (year b) (month a) (month b) (day a) (day b)
                ltac:(lia) Hm ltac:(lia) ltac:(lia) ltac:(lia)).
  lia.
Qed.

(** The difference in seconds is non-negative exactly when the first
    timestamp is not after the second, field by field. *)
Lemma total_seconds_sign (s e : datetime) :
  valid_fields s -> valid_fields e ->
  (0 <= total_seconds_between s e <-> not_after s e = true).
Proof.
  intros Hs He.
  pose proof (toordinal_year_lt s e Hs He) as Hy1.
  pose proof (toordinal_year_lt e s He Hs) as Hy2.
  pose proof (toordinal_month_lt s e Hs He) as Hm1.
  pose proof (toordinal_month_lt e s He Hs) as Hm2.
  assert (Hd : year s = year e -> month s = month e ->
               toordinal e - toordinal s = day e - day s).
  { unfold toordinal. intros -> ->. lia. }
  destruct Hs, He.
  unfold not_after, fields, lex_leb, total_seconds_between, seconds_of_day.
  rewrite !orb_true_iff, !andb_true_iff, !Z.ltb_lt, !Z.eqb_eq.
  split; intros H.
  - destruct (Z.lt_trichotomy (year s) (year e)) as [?|[Ey|?]];
      [lia| |specialize (Hy2 ltac:(lia)); lia].
    destruct (Z.lt_trichotomy (month s) (month e)) as [?|[Em|?]];
      [lia| |specialize (Hm2 ltac:(lia) ltac:(lia)); lia].
    specialize (Hd Ey Em). lia.
  - destruct (Z.lt_trichotomy (year s) (year e)) as [?|[Ey|?]];
      [specialize (Hy1 ltac:(lia)); lia| |lia].
    destruct (Z.lt_trichotomy (month s) (month e)) as [?|[Em|?]];
      [specialize (Hm1 ltac:(lia) ltac:(lia)); lia| |lia].
    specialize (Hd Ey Em). lia.
Qed.

End DatetimeFacts.

(** ** The duration accessor *)

Lemma duration_contract_holds (dtstart dtend : string) :
  Contract.duration dtstart dtend (Duration.get_duration_hours dtstart dtend).
Proof.
  unfold Contract.duration, Duration.get_duration_hours, Duration.timestamp.
  destruct (Duration.search_datetime_token (Duration.tz_tail dtstart)) as [ts|];
    destruct (Duration.search_datetime_token (Duration.tz_tail dtend)) as [te|].
  - destruct (Datetime.strptime ts) as [s|] eqn:Hs;
      destruct (Datetime.strptime te) as [e|] eqn:He.
    + split; [|intros [?|?]; discriminate].
      intros s' e' [= <-] [= <-]. split; [reflexivity|].
      rewrite <- (total_seconds_sign s e)
        by eauto using strptime_valid.
      unfold Qle. cbn. lia.
    + split; [intros; discriminate | reflexivity].
    + split; [intros; discriminate | reflexivity].
    + split; [intros; discriminate | reflexivity].
  - split; [intros; discriminate | reflexivity].
  - split; [intros; discriminate | reflexivity].
  - split; [intros; discriminate | reflexivity].
Qed.

(** C1 (as amended).  For every event of [analyze_calendar.py] and of
    [stakeholder_analysis.py], the duration accessor returns a value without
    raising: the end minus the start in hours when both stored strings hold a
    timestamp token (after any [TZID=] prefix) that parses, in which case the
    value is non-negative exactly when the end is not earlier than the
    start; and zero when either token is absent or does not parse. *)
Theorem get_duration_hours_contract
    (ev : AnalyzeCalendar.CalendarEvent) (ev' : Stakeholder.CalendarEvent) :
  Contract.duration (AnalyzeCalendar.dtstart ev) (AnalyzeCalendar.dtend ev)
    (AnalyzeCalendar.get_duration_hours ev)
  /\ Contract.duration (Stakeholder.dtstart ev') (Stakeholder.dtend ev')
       (Stakeholder.get_duration_hours ev').
Proof.
  split; apply duration_contract_holds.
Qed.

(** The contract at a one-hour event: both timestamps parse and the result
    is one hour, a non-negative value. *)
Lemma get_duration_hours_contract_witness :
  AnalyzeCalendar.get_duration_hours Samples.one_hour_event
  = (Datetime.total_seconds_between Samples.nine_am Samples.ten_am # 3600)
  /\ ((0 <= AnalyzeCalendar.get_duration_hours Samples.one_hour_event)%Q
      <-> Datetime.not_after Samples.nine_am Samples.ten_am = true).
Proof.
  destruct (get_duration_hours_contract Samples.one_hour_event
              {| Stakeholder.summary := ""; Stakeholder.dtstart := "";
                 Stakeholder.dtend := ""; Stakeholder.description := "";
                 Stakeholder.location := ""; Stakeholder.organizer := "";
                 Stakeholder.organizer_name := ""; Stakeholder.attendees := [];
                 Stakeholder.categories := []; Stakeholder.status := "";
                 Stakeholder.busy_status := ""; Stakeholder.transp := "";
                 Stakeholder.created := ""; Stakeholder.uid := "";
                 Stakeholder.is_recurring := false;
                 Stakeholder.recurrence_id := "" |}) as [[H _] _].
  apply (H Samples.nine_am Samples.ten_am); reflexivity.
Defined.

(** C1 as stated fails: an event that ends a day before it starts has a
    negative duration. *)
Lemma get_duration_hours_negative :
  ~ (0 <= AnalyzeCalendar.get_duration_hours Samples.backwards_event)%Q.
Proof.
  vm_compute. intros H. apply H. reflexivity.
Qed.

(** ** Strings *)

Section StringFacts.

Import Py.

Lemma append_assoc (a b c : string) : (a +:+ b) +:+ c = a +:+ (b +:+ c).
Proof. induction a as [|x a IH]; cbn; [reflexivity | now f_equal]. Qed.

Lemma append_empty_r (a : string) : a +:+ "" = a.
Proof. induction a as [|x a IH]; cbn; [reflexivity | now f_equal]. Qed.

Lemma endswith_has_char (c : ascii) (l t : string) :
  endswith (String c "") l = true -> has_char c (l +:+ t) = true.
Proof.
  induction l as [|x l IH]; cbn; [discriminate|].
  intros H. apply orb_true_iff in H as [H|H].
  - apply andb_true_iff in H as [H _]. now rewrite H.
  - rewrite IH by exact H. apply orb_true_r.
Qed.

Lemma endswith_not_literal (l t lit : string) :
  endswith "=" l = true -> has_char "=" lit = false -> l +:+ t <> lit.
Proof.
  intros H Hl E. apply endswith_has_char with (t := t) in H.
  rewrite E in H. congruence.
Qed.

Lemma split1_append (c : ascii) (l t f v : string) :
  split1 c l = Some (f, v) -> split1 c (l +:+ t) = Some (f, v +:+ t).
Proof.
  revert f v. induction l as [|x l IH]; cbn; [discriminate|]. intros f v.
  destruct (Ascii.eqb x c); [now intros [= <- <-]|].
  destruct (split1 c l) as [[a b]|]; [|discriminate].
  intros [= <- <-]. now rewrite (IH a b eq_refl).
Qed.

Lemma split1_value_truthy (l f v : string) :
  split1 ":" l = Some (f, v) -> endswith "=" l = true -> truthy v = true.
Proof.
  revert f v. induction l as [|x l IH]; cbn; [discriminate|]. intros f v.
  destruct (Ascii.eqb x ":") eqn:Ex.
  - intros [= <- <-] H. apply Ascii.eqb_eq in Ex as ->. cbn in H.
    destruct l; [discriminate | reflexivity].
  - destruct (split1 ":" l) as [[a b]|] eqn:Hs; [|discriminate].
    intros [= <- <-] H. apply orb_true_iff in H as [H|H].
    + apply andb_true_iff in H as [_ H]. destruct l; [discriminate|].
      cbn in H. discriminate.
    + now apply (IH a b).
Qed.

Lemma split1_make (f v : string) :
  contains ":" f = false -> split1 ":" (f +:+ ":" +:+ v) = Some (f, v).
Proof.
  induction f as [|x f IH]; cbn; [reflexivity|].
  intros H. apply orb_false_iff in H as [Hx H].
  destruct (Ascii.eqb x ":") eqn:E.
  - apply Ascii.eqb_eq in E as ->. cbn in Hx.
    destruct f; discriminate.
  - specialize (IH H). cbn in IH. now rewrite IH.
Qed.

Lemma prefix_append_nonempty (p l t : string) :
  truthy l = true -> String.length p = 1%nat ->
  String.prefix p (l +:+ t) = String.prefix p l.
Proof.
  destruct l as [|x l]; [discriminate|]. intros _.
  destruct p as [|y [|z p]]; cbn; try discriminate. intros _.
  destruct (ascii_dec y x); [|reflexivity].
  destruct l; destruct t; reflexivity.
Qed.

Lemma endswith_truthy (suf l : string) :
  truthy suf = true -> endswith suf l = true -> truthy l = true.
Proof. destruct l; cbn; [|reflexivity]. destruct suf; cbn; intros; congruence. Qed.

End StringFacts.

(** ** The parser loop *)

Section ParserFacts.

Import AnalyzeCalendar Ics.

Lemma run_app (st : parser) (a b : list string) :
  run st (a ++ b) = bind (run st a) (fun st' => run st' b).
Proof.
  revert st. induction a as [|l a IH]; intros st; cbn; [reflexivity|].
  destruct (step st l); cbn; [apply IH | reflexivity].
Qed.

Lemma flushed_not_pending (st : parser) : field_pending (flushed st) = false.
Proof.
  unfold flushed. destruct (field_pending st) eqn:E; [reflexivity | exact E].
Qed.

Lemma flushed_events (st : parser) : events (flushed st) = events st.
Proof. unfold flushed. now destruct (field_pending st). Qed.

Lemma flushed_current_event (st : parser) :
  current_event (flushed st) = settled_event st.
Proof.
  unfold flushed, settled_event.
  destruct (field_pending st); [reflexivity|]. now destruct (current_event st).
Qed.

Lemma flushed_id (st : parser) : field_pending st = false -> flushed st = st.
Proof. unfold flushed. now intros ->. Qed.

Lemma flush_flushed (st : parser) : consistent st -> flush st = Ok (flushed st).
Proof.
  intros Hc. unfold flush, flushed, settled_event.
  destruct (field_pending st) eqn:Hp.
  - destruct (Hc Hp) as [[ev Hev] Hcv].
    unfold field_pending in Hp.
    destruct (current_field st) as [f|]; [|discriminate].
    rewrite Hp, Hcv, Hev. reflexivity.
  - unfold field_pending in Hp.
    destruct (current_field st) as [f|]; [|reflexivity].
    now rewrite Hp.
Qed.

Lemma dispatch_begin (st : parser) :
  dispatch st "BEGIN:VEVENT"
  = Ok {| events := events st; current_event := Some CalendarEvent_init;
          current_field := current_field st;
          continuation_value := continuation_value st |}.
Proof. reflexivity. Qed.

Lemma dispatch_end (st : parser) (ev : CalendarEvent) :
  current_event st = Some ev ->
  dispatch st "END:VEVENT"
  = Ok {| events := events st ++ [ev]; current_event := None;
          current_field := current_field st;
          continuation_value := continuation_value st |}.
Proof. intros H. unfold dispatch. cbn. now rewrite H. Qed.

Lemma dispatch_closed (st : parser) (l : string) :
  current_event st = None -> l <> "BEGIN:VEVENT" -> dispatch st l = Ok st.
Proof.
  intros H Hl. unfold dispatch. apply String.eqb_neq in Hl. now rewrite Hl, H.
Qed.

Lemma dispatch_single (st : parser) (l f v : string) (ev : CalendarEvent) :
  current_event st = Some ev ->
  l <> "BEGIN:VEVENT" -> l <> "END:VEVENT" ->
  Py.split1 ":" l = Some (f, v) -> Py.endswith "=" l = false ->
  dispatch st l
  = Ok {| events := events st; current_event := Some (process_field ev f v);
          current_field := None;
          continuation_value := continuation_value st |}.
Proof.
  intros H Hb He Hs Hw. unfold dispatch.
  apply String.eqb_neq in Hb, He. now rewrite Hb, H, He, Hs, Hw.
Qed.

Lemma dispatch_folded (st : parser) (l f v : string) (ev : CalendarEvent) :
  current_event st = Some ev ->
  l <> "BEGIN:VEVENT" -> l <> "END:VEVENT" ->
  Py.split1 ":" l = Some (f, v) -> Py.endswith "=" l = true ->
  dispatch st l
  = Ok {| events := events st; current_event := Some ev;
          current_field := Some f; continuation_value := v |}.
Proof.
  intros H Hb He Hs Hw. unfold dispatch.
  apply String.eqb_neq in Hb, He. now rewrite Hb, H, He, Hs, Hw.
Qed.

Lemma step_continuation (st : parser) (l : string) :
  is_continuation_line l = true -> field_pending st = true ->
  step st l = Ok (accumulated st (Py.strip l)).
Proof. intros Hl Hp. unfold step. now rewrite Hl, Hp. Qed.

Lemma step_dispatch (st : parser) (l : string) :
  consistent st ->
  is_continuation_line l && field_pending st = false ->
  step st l = dispatch (flushed st) l.
Proof.
  intros Hc H. unfold step. rewrite H, (flush_flushed st Hc). reflexivity.
Qed.

(** [dispatch] never raises; from a state without a pending field it keeps
    the invariant, and it extends [events] only on an [END:VEVENT] line. *)
Lemma dispatch_ok (st : parser) (l : string) :
  field_pending st = false ->
  exists st', dispatch st l = Ok st' /\ consistent st'
              /\ (l <> "END:VEVENT" -> events st' = events st).
Proof.
  intros Hp. unfold dispatch.
  destruct (String.eqb l "BEGIN:VEVENT") eqn:Hb.
  { eexists; split; [reflexivity|]. split; [|reflexivity].
    intros H. unfold field_pending in *. cbn in *. congruence. }
  destruct (current_event st) as [ev|] eqn:Hev.
  2:{ exists st. split; [reflexivity|]. split; [|reflexivity].
      intros H. congruence. }
  destruct (String.eqb l "END:VEVENT") eqn:He.
  { eexists; split; [reflexivity|]. split.
    - intros H. unfold field_pending in *. cbn in *. congruence.
    - intros Hne. apply String.eqb_eq in He. contradiction. }
  destruct (Py.split1 ":" l) as [[f v]|] eqn:Hs.
  2:{ exists st. split; [reflexivity|]. split; [|reflexivity].
      intros H. congruence. }
  destruct (Py.endswith "=" l) eqn:Hw; cbn.
  - eexists; split; [reflexivity|]. split; [|reflexivity].
    intros _. cbn. split; [eauto|]. eapply split1_value_truthy; eauto.
  - eexists; split; [reflexivity|]. split; [|reflexivity].
    intros H. unfold field_pending in H. cbn in H. discriminate.
Qed.

Lemma truthy_append (a b : string) :
  Py.truthy a = true -> Py.truthy (a +:+ b) = true.
Proof. destruct a; [discriminate | reflexivity]. Qed.

Lemma accumulated_consistent (st : parser) (t : string) :
  consistent st -> consistent (accumulated st t).
Proof.
  intros Hc Hp. destruct (Hc Hp) as [He Hv]. split; [exact He|].
  now apply truthy_append.
Qed.

(** One iteration never raises and keeps the invariant. *)
Lemma step_ok (st : parser) (l : string) :
  consistent st ->
  exists st', step st l = Ok st' /\ consistent st'
              /\ (l <> "END:VEVENT" -> events st' = events st).
Proof.
  intros Hc.
  destruct (is_continuation_line l && field_pending st) eqn:H.
  - apply andb_true_iff in H as [Hl Hp].
    rewrite (step_continuation st l Hl Hp).
    eexists; split; [reflexivity|]. split; [|reflexivity].
    now apply accumulated_consistent.
  - rewrite (step_dispatch st l Hc H).
    destruct (dispatch_ok (flushed st) l (flushed_not_pending st))
      as (st' & -> & Hc' & Hev).
    exists st'. split; [reflexivity|]. split; [exact Hc'|].
    intros Hne. rewrite (Hev Hne). apply flushed_events.
Qed.

Lemma run_ok (st : parser) (ls : list string) :
  consistent st -> exists st', run st ls = Ok st' /\ consistent st'.
Proof.
  revert st. induction ls as [|l ls IH]; intros st Hc; cbn.
  - now exists st.
  - destruct (step_ok st l Hc) as (st1 & -> & Hc1 & _). cbn. now apply IH.
Qed.

Lemma parser_init_consistent : consistent parser_init.
Proof. intros H. discriminate. Qed.

(** Lines other than [END:VEVENT] leave [events] as it is. *)
Lemma run_without_end (st : parser) (ls : list string) :
  consistent st -> Forall (fun l => l <> "END:VEVENT") ls ->
  exists st', run st ls = Ok st' /\ events st' = events st.
Proof.
  revert st. induction ls as [|l ls IH]; intros st Hc Hall; cbn.
  - now exists st.
  - inversion Hall as [|? ? Hl Hls]; subst.
    destruct (step_ok st l Hc) as (st1 & -> & Hc1 & Hev). cbn.
    destruct (IH st1 Hc1 Hls) as (st2 & -> & Hev2).
    exists st2. split; [reflexivity|]. rewrite Hev2. now apply Hev.
Qed.

(** Lines outside an event, other than [BEGIN:VEVENT], change nothing. *)
Lemma run_outside (st : parser) (ls : list string) :
  current_event st = None -> field_pending st = false ->
  forallb outside_line ls = true -> run st ls = Ok st.
Proof.
  intros Hev Hp. induction ls as [|l ls IH]; cbn; [reflexivity|].
  intros H. apply andb_true_iff in H as [Hl Hls].
  assert (Hc : consistent st) by (intros H; congruence).
  rewrite (step_dispatch st l Hc) by (rewrite Hp; apply andb_false_r).
  rewrite (flushed_id st Hp), (dispatch_closed st l Hev).
  - cbn. now apply IH.
  - unfold outside_line in Hl. apply negb_true_iff in Hl.
    now apply String.eqb_neq.
Qed.

Lemma not_continuation_dispatch (st : parser) (l : string) :
  consistent st -> is_continuation_line l = false ->
  step st l = dispatch (flushed st) l.
Proof. intros Hc Hl. apply step_dispatch; [exact Hc | now rewrite Hl]. Qed.

(** Continuation lines after a pending field are accumulated, stripped and
    without a separator. *)
Lemma run_continuations (st : parser) (cs : list string) :
  field_pending st = true -> forallb is_continuation_line cs = true ->
  run st cs = Ok (accumulated st (Py.join (List.map Py.strip cs))).
Proof.
  revert st. induction cs as [|c cs IH]; intros st Hp H; cbn.
  - unfold accumulated. rewrite append_empty_r. now destruct st.
  - apply andb_true_iff in H as [Hc Hcs].
    rewrite (step_continuation st c Hc Hp). cbn.
    rewrite IH by assumption. unfold accumulated. cbn.
    now rewrite append_assoc.
Qed.

Lemma settled_not_pending (st : parser) :
  field_pending st = false -> settled_event st = current_event st.
Proof.
  intros Hp. unfold settled_event. rewrite Hp. now destruct (current_event st).
Qed.

(** A well-formed logical field has the decoder's effect on the event under
    construction. *)
Lemma run_logical_line (st : parser) (ev : CalendarEvent) (it : logical_line) :
  consistent st -> settled_event st = Some ev -> well_formed it = true ->
  exists st', run st (render it) = Ok st' /\ consistent st'
              /\ events st' = events st
              /\ settled_event st' = Some (decode ev it).
Proof.
  intros Hc Hs Hw. unfold well_formed in Hw.
  rewrite !andb_true_iff, !negb_true_iff in Hw.
  destruct Hw as [[[Hl Hb] He] Hit].
  apply String.eqb_neq in Hb, He.
  rewrite <- flushed_current_event in Hs.
  destruct it as [f v | f v cs]; cbn [render run first_line] in *.
  - rewrite !andb_true_iff, !negb_true_iff in Hit. destruct Hit as [Hf Hn].
    rewrite (not_continuation_dispatch st _ Hc Hl).
    rewrite (dispatch_single _ _ f v ev Hs Hb He (split1_make f v Hf) Hn).
    cbn. eexists; split; [reflexivity|]. split; [|split].
    + intros H. discriminate.
    + apply flushed_events.
    + reflexivity.
  - rewrite !andb_true_iff, !negb_true_iff in Hit.
    destruct Hit as [[[Hf Ht] Hn] Hcs].
    rewrite (not_continuation_dispatch st _ Hc Hl).
    rewrite (dispatch_folded _ _ f v ev Hs Hb He (split1_make f v Hf) Hn).
    cbn [bind]. rewrite run_continuations; [|exact Ht|exact Hcs].
    eexists; split; [reflexivity|]. split; [|split].
    + intros _. cbn. split; [eauto|]. apply truthy_append.
      eapply split1_value_truthy; [apply (split1_make f v Hf) | exact Hn].
    + cbn. apply flushed_events.
    + unfold settled_event, field_pending. cbn. now rewrite Ht.
Qed.

Lemma run_logical_lines (st : parser) (ev : CalendarEvent) (b : list logical_line) :
  consistent st -> settled_event st = Some ev -> forallb well_formed b = true ->
  exists st', run st (flat_map render b) = Ok st' /\ consistent st'
              /\ events st' = events st
              /\ settled_event st' = Some (fold_left decode b ev).
Proof.
  revert st ev. induction b as [|it b IH]; intros st ev Hc Hs Hw; cbn.
  - now exists st.
  - apply andb_true_iff in Hw as [Hit Hb].
    destruct (run_logical_line st ev it Hc Hs Hit) as (st1 & H1 & Hc1 & He1 & Hs1).
    destruct (IH st1 _ Hc1 Hs1 Hb) as (st2 & H2 & Hc2 & He2 & Hs2).
    exists st2. rewrite run_app, H1. cbn. rewrite H2.
    split; [reflexivity|]. split; [exact Hc2|].
    split; [congruence | exact Hs2].
Qed.

(** A well-formed block appends exactly its event. *)
Lemma run_block (st : parser) (b : list logical_line) :
  consistent st -> forallb well_formed b = true ->
  exists st', run st (block_lines b) = Ok st'
              /\ events st' = (events st ++ [decode_block b])%list
              /\ current_event st' = None /\ field_pending st' = false.
Proof.
  intros Hc Hw. unfold block_lines. cbn [run].
  rewrite (not_continuation_dispatch st "BEGIN:VEVENT" Hc eq_refl), dispatch_begin.
  cbn [bind].
  set (st0 := {| events := events (flushed st) |}).
  assert (Hp0 : field_pending st0 = false) by apply (flushed_not_pending st).
  assert (Hc0 : consistent st0).
  { intros H. rewrite Hp0 in H. discriminate. }
  destruct (run_logical_lines st0 CalendarEvent_init b Hc0
              (eq_trans (settled_not_pending st0 Hp0) eq_refl) Hw)
    as (st1 & H1 & Hc1 & He1 & Hs1).
  rewrite run_app, H1. cbn [bind run].
  rewrite (not_continuation_dispatch st1 "END:VEVENT" Hc1 eq_refl).
  rewrite <- flushed_current_event in Hs1.
  rewrite (dispatch_end _ _ Hs1). cbn [bind].
  eexists; split; [reflexivity|]. cbn.
  rewrite flushed_events, He1. subst st0. cbn. rewrite flushed_events.
  repeat split. apply (flushed_not_pending st1).
Qed.

Lemma run_blocks (st : parser) (d : list (list string * list logical_line)) :
  current_event st = None -> field_pending st = false ->
  forallb (fun p => forallb outside_line (fst p) && forallb well_formed (snd p)) d
  = true ->
  exists st', run st (flat_map (fun p => fst p ++ block_lines (snd p)) d) = Ok st'
              /\ events st' = (events st ++ List.map decode_block (List.map snd d))%list
              /\ current_event st' = None /\ field_pending st' = false.
Proof.
  revert st. induction d as [|[junk b] d IH]; intros st Hev Hp Hw; cbn.
  - exists st. rewrite app_nil_r. auto.
  - apply andb_true_iff in Hw as [Hw Hd]. cbn in Hw.
    apply andb_true_iff in Hw as [Hj Hb].
    assert (Hc : consistent st) by (intros H; congruence).
    destruct (run_block st b Hc Hb) as (st1 & H1 & He1 & Hn1 & Hp1).
    destruct (IH st1 Hn1 Hp1 Hd) as (st2 & H2 & He2 & Hn2 & Hp2).
    exists st2. rewrite !run_app, (run_outside st junk Hev Hp Hj). cbn [bind].
    rewrite H1. cbn [bind]. rewrite H2.
    split; [reflexivity|]. split; [|auto].
    rewrite He2, He1, <- app_assoc. reflexivity.
Qed.

(** States that are alike stay alike, line after line. *)
Lemma alike_consistent (a b : parser) : alike a b -> consistent a -> consistent b.
Proof.
  intros (He & Hc & Hf & Hv) Ha Hp.
  assert (Hpa : field_pending a = true).
  { unfold field_pending in *. now rewrite Hf. }
  destruct (Ha Hpa) as [H1 H2]. rewrite <- Hc, <- (Hv Hpa). auto.
Qed.

Lemma alike_pending (a b : parser) : alike a b -> field_pending a = field_pending b.
Proof. intros (_ & _ & Hf & _). unfold field_pending. now rewrite Hf. Qed.

Lemma alike_refl (a : parser) : alike a a.
Proof. unfold alike. auto. Qed.

Ltac alike_intro :=
  unfold alike; cbn; refine (conj _ (conj _ (conj _ _))); try assumption;
  try reflexivity; try congruence.

Lemma alike_flushed (a b : parser) : alike a b -> alike (flushed a) (flushed b).
Proof.
  intros H. pose proof (alike_pending a b H) as Hp.
  destruct H as (He & Hc & Hf & Hv). unfold flushed, settled_event.
  rewrite <- Hp. destruct (field_pending a) eqn:Hpa.
  - rewrite <- Hc, <- Hf, <- (Hv eq_refl), He. apply alike_refl.
  - alike_intro.
Qed.

Lemma alike_dispatch (a b : parser) (l : string) :
  alike a b -> field_pending a = false ->
  exists a' b', dispatch a l = Ok a' /\ dispatch b l = Ok b' /\ alike a' b'.
Proof.
  intros (He & Hc & Hf & Hv) Hp. unfold dispatch. rewrite <- Hc, <- He, <- Hf.
  destruct (String.eqb l "BEGIN:VEVENT").
  { do 2 eexists. split; [reflexivity|]. split; [reflexivity|].
    alike_intro; unfold field_pending in *; cbn; congruence. }
  destruct (current_event a) as [ev|] eqn:Hev.
  2:{ exists a, b. split; [reflexivity|]. split; [reflexivity|]. alike_intro. }
  destruct (String.eqb l "END:VEVENT").
  { do 2 eexists. split; [reflexivity|]. split; [reflexivity|].
    alike_intro; unfold field_pending in *; cbn; congruence. }
  destruct (Py.split1 ":" l) as [[f v]|].
  2:{ exists a, b. split; [reflexivity|]. split; [reflexivity|]. alike_intro. }
  destruct (negb (Py.endswith "=" l)); cbn.
  - do 2 eexists. split; [reflexivity|]. split; [reflexivity|].
    alike_intro; intros H; discriminate.
  - do 2 eexists. split; [reflexivity|]. split; [reflexivity|].
    alike_intro.
Qed.

Lemma alike_step (a b : parser) (l : string) :
  alike a b -> consistent a ->
  exists a' b', step a l = Ok a' /\ step b l = Ok b'
                /\ alike a' b' /\ consistent a'.
Proof.
  intros H Ha. pose proof (alike_consistent a b H Ha) as Hb.
  pose proof (alike_pending a b H) as Hp.
  destruct (is_continuation_line l && field_pending a) eqn:E.
  - apply andb_true_iff in E as [El Ep].
    rewrite (step_continuation a l El Ep).
    rewrite (step_continuation b l El) by congruence.
    do 2 eexists. split; [reflexivity|]. split; [reflexivity|].
    split; [|now apply accumulated_consistent].
    destruct H as (He & Hc & Hf & Hv). unfold accumulated.
    alike_intro; intros _; now rewrite (Hv Ep).
  - rewrite (step_dispatch a l Ha E).
    rewrite (step_dispatch b l Hb) by (rewrite <- Hp; exact E).
    destruct (alike_dispatch (flushed a) (flushed b) l (alike_flushed a b H)
                (flushed_not_pending a)) as (a' & b' & H1 & H2 & H3).
    exists a', b'. split; [exact H1|]. split; [exact H2|]. split; [exact H3|].
    destruct (dispatch_ok (flushed a) l (flushed_not_pending a))
      as (a2 & H4 & H5 & _).
    rewrite H1 in H4. injection H4 as <-. exact H5.
Qed.

Lemma alike_run (a b : parser) (ls : list string) :
  alike a b -> consistent a ->
  exists a' b', run a ls = Ok a' /\ run b ls = Ok b' /\ events a' = events b'.
Proof.
  revert a b. induction ls as [|l ls IH]; intros a b H Ha; cbn.
  - exists a, b. split; [reflexivity|]. split; [reflexivity|]. apply H.
  - destruct (alike_step a b l H Ha) as (a1 & b1 & -> & -> & H1 & Ha1). cbn.
    now apply IH.
Qed.

Lemma continuation_outside (cs : list string) :
  forallb is_continuation_line cs = true -> forallb outside_line cs = true.
Proof.
  induction cs as [|c cs IH]; cbn; [reflexivity|].
  intros H. apply andb_true_iff in H as [Hc Hcs]. rewrite (IH Hcs), andb_true_r.
  unfold outside_line. destruct (String.eqb_spec c "BEGIN:VEVENT") as [->|];
    [discriminate | reflexivity].
Qed.

Lemma run_same (st : parser) (ls : list string) :
  consistent st ->
  exists a b, run st ls = Ok a /\ run st ls = Ok b /\ events a = events b.
Proof.
  intros Hc. destruct (run_ok st ls Hc) as (a & Ha & _). now exists a, a.
Qed.

(** A field line ending in [=] with its continuation lines is read like the
    single line obtained by appending the stripped continuation lines. *)
Lemma run_folded_unfolded (st : parser) (l f v : string) (cs post : list string) :
  consistent st ->
  is_continuation_line l = false ->
  Py.split1 ":" l = Some (f, v) ->
  Py.endswith "=" l = true ->
  Py.truthy f = true ->
  forallb is_continuation_line cs = true ->
  is_continuation_line (List.hd "" post) = false ->
  exists a b, run st (l :: cs ++ post) = Ok a
              /\ run st (unfold_line l cs :: post) = Ok b
              /\ events a = events b.
Proof.
  intros Hc Hl Hs Hw Hf Hcs Hpost. unfold unfold_line.
  set (J := Py.join (List.map Py.strip cs)).
  assert (Hlt : Py.truthy l = true) by (eapply endswith_truthy; [|exact Hw]; reflexivity).
  assert (Hb : l <> "BEGIN:VEVENT").
  { rewrite <- (append_empty_r l). now apply endswith_not_literal. }
  assert (He : l <> "END:VEVENT").
  { rewrite <- (append_empty_r l). now apply endswith_not_literal. }
  assert (Hb' : l +:+ J <> "BEGIN:VEVENT") by now apply endswith_not_literal.
  assert (He' : l +:+ J <> "END:VEVENT") by now apply endswith_not_literal.
  assert (Hl' : is_continuation_line (l +:+ J) = false).
  { unfold is_continuation_line, Py.startswith in *.
    now rewrite !prefix_append_nonempty. }
  pose proof (split1_append ":" l J f v Hs) as Hs'.
  cbn [run]. rewrite (not_continuation_dispatch st l Hc Hl).
  rewrite (not_continuation_dispatch st _ Hc Hl').
  pose proof (flushed_not_pending st) as Hp1.
  set (s1 := flushed st) in *.
  assert (Hc1 : consistent s1) by (intros H; congruence).
  destruct (current_event s1) as [ev|] eqn:Hev.
  - rewrite (dispatch_folded s1 l f v ev Hev Hb He Hs Hw). cbn [bind].
    rewrite run_app, run_continuations; [|exact Hf|exact Hcs]. cbn [bind].
    fold J.
    set (A := accumulated _ J).
    assert (HcA : consistent A).
    { intros _. split; [cbn; eauto|]. cbn. apply truthy_append.
      eapply split1_value_truthy; eauto. }
    destruct (Py.endswith "=" (l +:+ J)) eqn:Hw'.
    + rewrite (dispatch_folded s1 _ f (v +:+ J) ev Hev Hb' He' Hs' Hw').
      cbn [bind]. apply (run_same A post HcA).
    + rewrite (dispatch_single s1 _ f (v +:+ J) ev Hev Hb' He' Hs' Hw').
      cbn [bind].
      set (B := {| events := events s1 |}).
      destruct post as [|p rest].
      * exists A, B. auto.
      * cbn in Hpost. cbn [run].
        rewrite (not_continuation_dispatch A p HcA Hpost).
        assert (HcB : consistent B) by (intros H; discriminate).
        rewrite (not_continuation_dispatch B p HcB Hpost).
        rewrite (flushed_id B eq_refl).
        assert (HAB : alike (flushed A) B).
        { unfold flushed, settled_event, field_pending, A, B, accumulated. cbn.
          rewrite Hf. alike_intro; intros H; discriminate. }
        destruct (alike_dispatch (flushed A) B p HAB (flushed_not_pending A))
          as (a1 & b1 & Ha1 & Hb1 & Hab).
        rewrite Ha1, Hb1. cbn [bind].
        destruct (dispatch_ok (flushed A) p (flushed_not_pending A))
          as (a2 & Ha2 & Hca & _).
        rewrite Ha1 in Ha2. injection Ha2 as <-.
        apply (alike_run a1 b1 rest Hab Hca).
  - rewrite (dispatch_closed s1 l Hev Hb), (dispatch_closed s1 _ Hev Hb').
    cbn [bind].
    rewrite run_app, (run_outside s1 cs Hev Hp1 (continuation_outside cs Hcs)).
    cbn [bind]. apply (run_same s1 post Hc1).
Qed.

End ParserFacts.

(** ** The parser: unterminated events, well-formed blocks, folded fields *)

Lemma parse_lines_run (lines : list string) (st : AnalyzeCalendar.parser) :
  AnalyzeCalendar.run AnalyzeCalendar.parser_init lines = Ok st ->
  AnalyzeCalendar.parse_lines lines = Ok (AnalyzeCalendar.events st).
Proof. intros H. unfold AnalyzeCalendar.parse_lines. now rewrite H. Qed.

(** C3.  When the lines of the input text contain a [BEGIN:VEVENT] line
    with no [END:VEVENT] line after it, the parser returns exactly the
    events of the lines before that [BEGIN:VEVENT]: the event left open at
    the end of the input is not appended. *)
Theorem unterminated_event_discarded (text : string) (pre post : list string) :
  List.map File.rstrip_newline (File.lines text) = pre ++ "BEGIN:VEVENT" :: post ->
  ~ In "END:VEVENT" post ->
  exists evs, AnalyzeCalendar.parse_ics_file text = Ok evs
              /\ AnalyzeCalendar.parse_lines pre = Ok evs.
Proof.
  intros Hlines Hpost. unfold AnalyzeCalendar.parse_ics_file. rewrite Hlines.
  destruct (run_ok AnalyzeCalendar.parser_init pre parser_init_consistent)
    as (st1 & H1 & Hc1).
  destruct (run_without_end st1 ("BEGIN:VEVENT" :: post) Hc1)
    as (st2 & H2 & He2).
  { constructor; [discriminate|]. apply List.Forall_forall.
    intros l Hl ->. contradiction. }
  exists (AnalyzeCalendar.events st1). split; [|now apply parse_lines_run].
  rewrite <- He2. apply parse_lines_run. now rewrite run_app, H1.
Qed.

(** The statement at a text with one closed event and one left open. *)
Lemma unterminated_event_discarded_witness :
  exists evs,
    AnalyzeCalendar.parse_ics_file ParserSamples.unterminated_text = Ok evs
    /\ AnalyzeCalendar.parse_lines ParserSamples.closed_block = Ok evs.
Proof.
  apply (unterminated_event_discarded ParserSamples.unterminated_text
           ParserSamples.closed_block ParserSamples.open_tail).
  - reflexivity.
  - cbn. intros [H|[H|H]]; [discriminate H | discriminate H | exact H].
Defined.

(** C4.  The parser never raises, whatever the text; and for a text made of
    well-formed event blocks (with lines other than [BEGIN:VEVENT] allowed
    around them) it returns one event per block, in the order of the text,
    each being the fresh event on which the field decoder was applied to the
    block's fields in order. *)
Theorem well_formed_blocks_parsed :
  (forall text, exists evs, AnalyzeCalendar.parse_ics_file text = Ok evs)
  /\ (forall text d,
        List.map File.rstrip_newline (File.lines text) = Ics.document_lines d ->
        Ics.well_formed_document d = true ->
        AnalyzeCalendar.parse_ics_file text
        = Ok (List.map Ics.decode_block (Ics.document_blocks d))).
Proof.
  split.
  - intros text. unfold AnalyzeCalendar.parse_ics_file.
    destruct (run_ok AnalyzeCalendar.parser_init
                (List.map File.rstrip_newline (File.lines text))
                parser_init_consistent) as (st & H & _).
    exists (AnalyzeCalendar.events st). now apply parse_lines_run.
  - intros text [blocks trailer] Hlines Hw.
    unfold AnalyzeCalendar.parse_ics_file. rewrite Hlines.
    unfold Ics.well_formed_document in Hw. cbn [fst snd] in Hw.
    apply andb_true_iff in Hw as [Hb Ht].
    destruct (run_blocks AnalyzeCalendar.parser_init blocks eq_refl eq_refl Hb)
      as (st1 & H1 & He1 & Hn1 & Hp1).
    unfold Ics.document_lines, Ics.document_blocks. cbn [fst snd].
    erewrite parse_lines_run.
    2:{ rewrite run_app, H1. cbn [bind]. apply (run_outside st1 trailer Hn1 Hp1 Ht). }
    now rewrite He1.
Qed.

(** The statement at a calendar with a header, one block and a footer. *)
Lemma well_formed_blocks_parsed_witness :
  AnalyzeCalendar.parse_ics_file ParserSamples.calendar_text
  = Ok (List.map Ics.decode_block (Ics.document_blocks ParserSamples.calendar)).
Proof.
  apply (proj2 well_formed_blocks_parsed ParserSamples.calendar_text
           ParserSamples.calendar); reflexivity.
Defined.

(** C2 (as amended).  For a field line that ends in [=] and is followed by
    continuation lines (each beginning with a space or a tab) and then by a
    line that is not a continuation (or by the end of the input), the parser
    accumulates the value of the first line followed by the text of each
    continuation line stripped of white space at both ends, with no
    separator; and the whole input yields the same events as the input in
    which these lines are replaced by that single unfolded line. *)
Theorem folded_field_round_trip
    (pre post cs : list string) (l field value : string) :
  AnalyzeCalendar.is_continuation_line l = false ->
  Py.split1 ":" l = Some (field, value) ->
  Py.endswith "=" l = true ->
  Py.truthy field = true ->
  forallb AnalyzeCalendar.is_continuation_line cs = true ->
  AnalyzeCalendar.is_continuation_line (List.hd "" post) = false ->
  AnalyzeCalendar.parse_lines (pre ++ l :: cs ++ post)
  = AnalyzeCalendar.parse_lines (pre ++ Ics.unfold_line l cs :: post)
  /\ (forall st ev,
        AnalyzeCalendar.run AnalyzeCalendar.parser_init pre = Ok st ->
        Ics.settled_event st = Some ev ->
        AnalyzeCalendar.run st (l :: cs)
        = Ok {| AnalyzeCalendar.events := AnalyzeCalendar.events st;
                AnalyzeCalendar.current_event := Some ev;
                AnalyzeCalendar.current_field := Some field;
                AnalyzeCalendar.continuation_value :=
                  value +:+ Py.join (List.map Py.strip cs) |}).
Proof.
  intros Hl Hs Hw Hf Hcs Hpost.
  destruct (run_ok AnalyzeCalendar.parser_init pre parser_init_consistent)
    as (st0 & H0 & Hc0).
  split.
  - destruct (run_folded_unfolded st0 l field value cs post
                Hc0 Hl Hs Hw Hf Hcs Hpost) as (a & b & Ha & Hb & Hab).
    rewrite (parse_lines_run _ a) by (now rewrite run_app, H0).
    rewrite (parse_lines_run _ b) by (now rewrite run_app, H0).
    now rewrite Hab.
  - intros st ev Hst Hev. rewrite H0 in Hst. injection Hst as <-.
    assert (Hb : l <> "BEGIN:VEVENT").
    { rewrite <- (append_empty_r l). now apply endswith_not_literal. }
    assert (He : l <> "END:VEVENT").
    { rewrite <- (append_empty_r l). now apply endswith_not_literal. }
    cbn [AnalyzeCalendar.run].
    rewrite (not_continuation_dispatch st0 l Hc0 Hl).
    rewrite <- flushed_current_event in Hev.
    rewrite (dispatch_folded _ l field value ev Hev Hb He Hs Hw). cbn [bind].
    rewrite run_continuations; [|exact Hf|exact Hcs].
    unfold Ics.accumulated. cbn. now rewrite flushed_events.
Qed.

(** The statement at the folded start field of the sample block. *)
Lemma folded_field_round_trip_witness :
  AnalyzeCalendar.parse_lines
    (["BEGIN:VEVENT"] ++ ParserSamples.folded_start
       :: ParserSamples.folded_rest ++ ["END:VEVENT"])
  = AnalyzeCalendar.parse_lines
      (["BEGIN:VEVENT"]
         ++ Ics.unfold_line ParserSamples.folded_start ParserSamples.folded_rest
         :: ["END:VEVENT"]).
Proof.
  apply (proj1 (folded_field_round_trip ["BEGIN:VEVENT"] ["END:VEVENT"]
                  ParserSamples.folded_rest ParserSamples.folded_start
                  "DTSTART;TZID=X" "2025="
                  eq_refl eq_refl eq_refl eq_refl eq_refl eq_refl)).
Defined.

(** C2 as stated fails: a continuation line that ends in white space is
    trimmed on the right as well, so the folded field does not decode like
    the line built from the left-trimmed continuation. *)
Lemma left_trimmed_unfold_differs :
  AnalyzeCalendar.parse_lines ParserSamples.folded_event_lines
  <> AnalyzeCalendar.parse_lines ParserSamples.left_trimmed_event_lines.
Proof.
  vm_compute. intros H. discriminate H.
Qed.

(** ** The final classifier *)

Section ClassifierFacts.

Import Rerun.

Lemma status_label (s : string) :
  existsb (String.eqb s) ["DECLINED"; "TENTATIVE"] = true ->
  "declined_tentative_" +:+ Py.lower s = "declined_tentative_declined"
  \/ "declined_tentative_" +:+ Py.lower s = "declined_tentative_tentative".
Proof.
  cbn. rewrite orb_false_r, orb_true_iff, !String.eqb_eq.
  intros [-> | ->]; [left | right]; reflexivity.
Qed.

Lemma first_match_none (rs : list rule) (default : string) (e : CalendarEvent) :
  forallb (fun r => negb (fst r e)) rs = true -> first_match rs default e = default.
Proof.
  induction rs as [|[applies label] rs IH]; cbn; [reflexivity|].
  intros H. apply andb_true_iff in H as [Ha Hrs].
  apply negb_true_iff in Ha. rewrite Ha. now apply IH.
Qed.

(** The chain of conditionals is the rule table read top to bottom. *)
Lemma categorize_event_final_rules (e : CalendarEvent) :
  categorize_event_final e = first_match rules "uncategorized" e.
Proof.
  unfold categorize_event_final, rules, first_match, summary_lower, desc_lower.
  repeat match goal with
         | |- (if ?c then _ else _) = _ => destruct c; cbn [andb]; try reflexivity
         end.
Qed.

Lemma categorize_event_final_in_set (e : CalendarEvent) :
  In (categorize_event_final e) category_set.
Proof.
  unfold categorize_event_final.
  destruct (negb (is_actual_meeting e)); [cbn; tauto|].
  destruct (existsb (String.eqb (status e)) ["DECLINED"; "TENTATIVE"]) eqn:Hs.
  { destruct (status_label _ Hs) as [-> | ->]; cbn; tauto. }
  repeat match goal with
         | |- In (if ?c then _ else _) _ => destruct c
         end; cbn; tauto.
Qed.

End ClassifierFacts.

(** C5.  The classifier is a total function of the event, so that
    classifying the same event again gives the same label; the label is a
    member of the fixed set of categories; it is the label of the first rule
    of the ordered table that applies, and ["uncategorized"] when no rule
    applies. *)
Theorem categorize_event_final_total (event : Rerun.CalendarEvent) :
  In (Rerun.categorize_event_final event) Rerun.category_set
  /\ Rerun.categorize_event_final event
     = Rerun.first_match Rerun.rules "uncategorized" event
  /\ (forallb (fun r => negb (fst r event)) Rerun.rules = true ->
      Rerun.categorize_event_final event = "uncategorized")
  /\ (forall event', event' = event ->
      Rerun.categorize_event_final event' = Rerun.categorize_event_final event).
Proof.
  split; [apply categorize_event_final_in_set|].
  split; [apply categorize_event_final_rules|].
  split.
  - intros H. rewrite categorize_event_final_rules. now apply first_match_none.
  - now intros ? ->.
Qed.

(** The default at a meeting to which no rule applies. *)
Lemma categorize_event_final_total_witness :
  Rerun.categorize_event_final RerunSamples.plain_chat = "uncategorized".
Proof.
  apply (proj1 (proj2 (proj2
           (categorize_event_final_total RerunSamples.plain_chat)))).
  reflexivity.
Defined.

(** C6.  An event with an empty attendee list is labelled
    ["non_meetings_excluded"], whatever its other fields hold. *)
Theorem no_attendees_non_meeting (event : Rerun.CalendarEvent) :
  Rerun.attendees event = [] ->
  Rerun.categorize_event_final event = "non_meetings_excluded".
Proof.
  intros H. unfold Rerun.categorize_event_final, Rerun.is_actual_meeting.
  now rewrite H.
Qed.

(** The statement at a reminder with a blank title. *)
Lemma no_attendees_non_meeting_witness :
  Rerun.categorize_event_final RerunSamples.blank_reminder
  = "non_meetings_excluded".
Proof.
  apply (no_attendees_non_meeting RerunSamples.blank_reminder). reflexivity.
Defined.

(** C7.  An event whose own participation status is ["DECLINED"] receives a
    label of the excluded set, hence one that is not work-relevant: it is
    ["non_meetings_excluded"] without attendees and
    ["declined_tentative_declined"] with some. *)
Theorem declined_never_work_relevant (event : Rerun.CalendarEvent) :
  Rerun.status event = "DECLINED" ->
  In (Rerun.categorize_event_final event) Rerun.excluded_categories
  /\ Rerun.is_work_relevant_final (Rerun.categorize_event_final event) = false.
Proof.
  intros H. unfold Rerun.categorize_event_final. rewrite H.
  destruct (negb (Rerun.is_actual_meeting event)); cbn; tauto.
Qed.

(** The statement at a declined customer meeting. *)
Lemma declined_never_work_relevant_witness :
  In (Rerun.categorize_event_final RerunSamples.declined_review)
     Rerun.excluded_categories
  /\ Rerun.is_work_relevant_final
       (Rerun.categorize_event_final RerunSamples.declined_review) = false.
Proof.
  apply (declined_never_work_relevant RerunSamples.declined_review).
  reflexivity.
Defined.

(** ** The per-category aggregation *)

Section AggregateFacts.

Import AnalyzeCalendar Aggregate.

Lemma round2_comp (x y : Q) : (x == y)%Q -> round2 x = round2 y.
Proof.
  intros H. unfold round2.
  assert (Hn : (x * 100 == y * 100)%Q) by now rewrite H.
  rewrite (Qfloor_comp _ _ Hn).
  assert (Hc : (((x * 100 - inject_Z (Qfloor (y * 100))) * 2) ?= 1)%Q
               = (((y * 100 - inject_Z (Qfloor (y * 100))) * 2) ?= 1)%Q).
  { apply Qcompare_comp; [now rewrite Hn | reflexivity]. }
  now rewrite Hc.
Qed.

Lemma members_cons (label : string) (e : CalendarEvent) (events : list CalendarEvent) :
  members label (e :: events)
  = if String.eqb (categorize_event e) label
    then e :: members label events else members label events.
Proof. reflexivity. Qed.

Lemma sum_hours_cons (h : Q) (hs : list Q) :
  sum_hours (h :: hs) = (h + sum_hours hs)%Q.
Proof. reflexivity. Qed.

Lemma tally_categories (label : string) (events : list CalendarEvent) (t : tally) :
  default [] (t_categories (fold_left tally_event events t) !! label)
  = default [] (t_categories t !! label) ++ members label events.
Proof.
  revert t. induction events as [|e events IH]; intros t.
  - cbn. now rewrite app_nil_r.
  - cbn [fold_left]. rewrite IH, members_cons. unfold tally_event at 1.
    cbn [t_categories].
    destruct (String.eqb_spec (categorize_event e) label) as [E|Hne].
    + rewrite E, lookup_insert_eq. cbn. now rewrite <- List.app_assoc.
    + now rewrite lookup_insert_ne.
Qed.

Lemma tally_categories_none (label : string) (events : list CalendarEvent) (t : tally) :
  t_categories (fold_left tally_event events t) !! label = None
  <-> t_categories t !! label = None /\ members label events = [].
Proof.
  revert t. induction events as [|e events IH]; intros t.
  - cbn. tauto.
  - cbn [fold_left]. rewrite IH, members_cons. unfold tally_event at 1.
    cbn [t_categories].
    destruct (String.eqb_spec (categorize_event e) label) as [E|Hne].
    + rewrite E, lookup_insert_eq. split; [intros [H _]; discriminate|].
      intros [_ H]. discriminate.
    + rewrite lookup_insert_ne by exact Hne. tauto.
Qed.

Lemma tally_hours (label : string) (events : list CalendarEvent) (t : tally) :
  (default 0 (t_total_hours (fold_left tally_event events t) !! label)
   == default 0 (t_total_hours t !! label)
      + sum_hours (List.map get_duration_hours (members label events)))%Q.
Proof.
  revert t. induction events as [|e events IH]; intros t.
  - cbn. ring.
  - cbn [fold_left]. rewrite IH, members_cons. unfold tally_event at 1, add_hours.
    cbn [t_total_hours].
    destruct (String.eqb_spec (categorize_event e) label) as [E|Hne].
    + rewrite E, lookup_insert_eq. cbn [from_option List.map].
      rewrite sum_hours_cons. unfold id. ring.
    + rewrite lookup_insert_ne by exact Hne. reflexivity.
Qed.

End AggregateFacts.

(** C8 (as amended).  For every event sequence and every label, the running
    total [total_hours_by_category] of the label equals the sum of the
    durations of the events given that label (an unparsable duration counting
    as zero); the label has an entry in [by_category] exactly when some event
    received it, and that entry's [count] is the number of those events and
    its [total_hours] is the sum of their durations rounded to two
    decimals. *)
Theorem per_category_statistics
    (events : list AnalyzeCalendar.CalendarEvent) (label : string) :
  let stats := snd (AnalyzeCalendar.analyze_calendar events) in
  let labelled := Aggregate.members label events in
  let total :=
    Aggregate.sum_hours (List.map AnalyzeCalendar.get_duration_hours labelled) in
  (default 0 (AnalyzeCalendar.total_hours_by_category stats !! label) == total)%Q
  /\ default [] (fst (AnalyzeCalendar.analyze_calendar events) !! label) = labelled
  /\ match AnalyzeCalendar.by_category stats !! label with
     | Some c =>
         labelled <> []
         /\ AnalyzeCalendar.count c = length labelled
         /\ AnalyzeCalendar.total_hours c = round2 total
     | None => labelled = []
     end.
Proof.
  cbn zeta. unfold AnalyzeCalendar.analyze_calendar.
  cbn [fst snd AnalyzeCalendar.by_category AnalyzeCalendar.total_hours_by_category].
  pose proof (tally_hours label events AnalyzeCalendar.tally_init) as Hh.
  pose proof (tally_categories label events AnalyzeCalendar.tally_init) as Hc.
  pose proof (tally_categories_none label events AnalyzeCalendar.tally_init) as Hn.
  unfold AnalyzeCalendar.tally_init at 2 in Hh.
  unfold AnalyzeCalendar.tally_init at 2 in Hc.
  unfold AnalyzeCalendar.tally_init at 2 in Hn.
  cbn [AnalyzeCalendar.t_total_hours AnalyzeCalendar.t_categories] in Hh, Hc, Hn.
  rewrite lookup_empty in Hh. rewrite lookup_empty in Hc.
  rewrite lookup_empty in Hn. cbn [from_option app] in Hh, Hc.
  assert (Hh' : (default 0
                   (AnalyzeCalendar.t_total_hours
                      (fold_left AnalyzeCalendar.tally_event events
                         AnalyzeCalendar.tally_init) !! label)
                 == Aggregate.sum_hours
                      (List.map AnalyzeCalendar.get_duration_hours
                         (Aggregate.members label events)))%Q).
  { rewrite Hh. ring. }
  split; [exact Hh'|]. split; [exact Hc|].
  rewrite map_lookup_imap.
  destruct (AnalyzeCalendar.t_categories
              (fold_left AnalyzeCalendar.tally_event events
                 AnalyzeCalendar.tally_init) !! label) as [l|] eqn:Hl; cbn.
  - cbn in Hc. subst l. split; [|split].
    + intros Hm. assert (Some (Aggregate.members label events) = None) as Hx
        by (apply Hn; auto). discriminate Hx.
    + reflexivity.
    + apply round2_comp. exact Hh'.
  - apply Hn. reflexivity.
Qed.

(** The statement at a single event of twenty minutes. *)
Lemma per_category_statistics_witness :
  (default 0
     (AnalyzeCalendar.total_hours_by_category
        (snd (AnalyzeCalendar.analyze_calendar [Aggregate.twenty_minutes]))
      !! "uncategorized")
   == Aggregate.sum_hours
        (List.map AnalyzeCalendar.get_duration_hours
           (Aggregate.members "uncategorized" [Aggregate.twenty_minutes])))%Q.
Proof.
  apply (proj1 (per_category_statistics [Aggregate.twenty_minutes]
                  "uncategorized")).
Defined.

(** C8 as stated fails for the hours of the [by_category] entry: with a
    single event of twenty minutes the entry holds 0.33 hours, not the sum of
    the durations, a third of an hour. *)
Lemma rounded_hours_differ :
  exists c,
    AnalyzeCalendar.by_category
      (snd (AnalyzeCalendar.analyze_calendar [Aggregate.twenty_minutes]))
      !! "uncategorized" = Some c
    /\ ~ (AnalyzeCalendar.total_hours c
          == Aggregate.sum_hours
               (List.map AnalyzeCalendar.get_duration_hours
                  (Aggregate.members "uncategorized" [Aggregate.twenty_minutes])))%Q.
Proof.
  eexists. split; [vm_compute; reflexivity|].
  vm_compute. intros H. discriminate H.
Qed.

(** ** The stakeholder fold *)

Section StakeholderFacts.

Import Stakeholder StakeholderSpec.

Lemma track_attendee_hours (key : string) (e : CalendarEvent)
    (m : gmap string stakeholder) (a : attendee_info) :
  (hours_of (track_attendee e m a) key
   == hours_of m key + (if credited key a then get_duration_hours e else 0))%Q.
Proof.
  unfold track_attendee, credited, hours_of.
  destruct (is_self a); cbn [negb andb]; [ring|].
  destruct (String.eqb_spec (stakeholder_key a) key) as [->|Hne].
  - rewrite lookup_insert_eq. cbn [from_option hours].
    destruct (m !! key); cbn; ring.
  - rewrite lookup_insert_ne by exact Hne. ring.
Qed.

Lemma track_attendee_none (key : string) (e : CalendarEvent)
    (m : gmap string stakeholder) (a : attendee_info) :
  track_attendee e m a !! key = None
  <-> m !! key = None /\ credited key a = false.
Proof.
  unfold track_attendee, credited.
  destruct (is_self a); cbn [negb andb]; [tauto|].
  destruct (String.eqb_spec (stakeholder_key a) key) as [->|Hne].
  - rewrite lookup_insert_eq. split; [discriminate | intros [_ H]; discriminate].
  - rewrite lookup_insert_ne by exact Hne. tauto.
Qed.

Lemma track_attendees_hours (key : string) (e : CalendarEvent)
    (people : list attendee_info) (m : gmap string stakeholder) :
  (hours_of (fold_left (track_attendee e) people m) key
   == hours_of m key
      + inject_Z (Z.of_nat (length (List.filter (credited key) people)))
        * get_duration_hours e)%Q.
Proof.
  revert m. induction people as [|a people IH]; intros m.
  - cbn. ring.
  - cbn [fold_left List.filter]. rewrite IH, track_attendee_hours.
    destruct (credited key a).
    + cbn [length]. rewrite Nat2Z.inj_succ, <- Z.add_1_r, inject_Z_plus. ring.
    + ring.
Qed.

Lemma track_attendees_none (key : string) (e : CalendarEvent)
    (people : list attendee_info) (m : gmap string stakeholder) :
  fold_left (track_attendee e) people m !! key = None
  <-> m !! key = None /\ List.filter (credited key) people = [].
Proof.
  revert m. induction people as [|a people IH]; intros m.
  - cbn. tauto.
  - cbn [fold_left List.filter]. rewrite IH, track_attendee_none.
    destruct (credited key a); [|tauto].
    split; [intros [[_ H] _]; discriminate | intros [_ H]; discriminate].
Qed.

Lemma track_events_hours (key : string) (work : list CalendarEvent)
    (acc : gmap string stakeholder * gmap string organizer_record) :
  (hours_of (fst (fold_left track_event work acc)) key
   == hours_of (fst acc) key
      + Aggregate.sum_hours
          (List.map
             (fun e => inject_Z (Z.of_nat (appearances key e))
                       * get_duration_hours e) work))%Q.
Proof.
  revert acc. induction work as [|e work IH]; intros acc.
  - cbn. ring.
  - cbn [fold_left List.map]. rewrite IH. unfold track_event.
    cbn [fst]. rewrite track_attendees_hours.
    unfold appearances, Aggregate.sum_hours. cbn [fold_right]. ring.
Qed.

Lemma track_events_none (key : string) (work : list CalendarEvent)
    (acc : gmap string stakeholder * gmap string organizer_record) :
  fst (fold_left track_event work acc) !! key = None
  <-> fst acc !! key = None
      /\ Forall (fun e => appearances key e = 0%nat) work.
Proof.
  revert acc. induction work as [|e work IH]; intros acc.
  - cbn. split; [intros H; split; [exact H | constructor] | tauto].
  - cbn [fold_left]. rewrite IH. unfold track_event. cbn [fst].
    rewrite track_attendees_none, Forall_cons. unfold appearances.
    rewrite length_zero_iff_nil. tauto.
Qed.

(** When no event lists the key twice, crediting per attendee entry and
    counting each event once agree. *)
Lemma credited_attended (key : string) (events : list CalendarEvent) :
  Forall (fun e => (appearances key e <= 1)%nat) events ->
  (credited_hours key events == attended_hours key events)%Q.
Proof.
  unfold credited_hours, attended_hours.
  induction events as [|e events IH]; intros H; [reflexivity|].
  inversion H as [|? ? He Hes]; subst. specialize (IH Hes).
  cbn [List.filter]. destruct (is_work_relevant e); cbn [andb]; [|exact IH].
  cbn [List.map]. unfold Aggregate.sum_hours in *. cbn [fold_right].
  assert (Hcase : appearances key e = 0%nat \/ appearances key e = 1%nat) by lia.
  destruct Hcase as [Hn | Hn]; rewrite Hn; cbn [Nat.ltb Nat.leb].
  - rewrite IH. cbn. ring.
  - cbn [List.map fold_right]. rewrite IH. cbn. ring.
Qed.

End StakeholderFacts.

(** C9 (as amended).  For every stakeholder key (the name of an attendee, or
    the email when there is no name), the record's accumulated hours equal
    the sum, over the work-relevant events, of the event's duration counted
    once for every attendee entry of that event that carries the key and
    whose email does not contain the viewing user's name; entries of the
    viewing user accumulate nothing, and a key carried by no such entry has
    no record.  When no event lists the key more than once, this is the sum
    of the durations of the work-relevant events in which the key appears. *)
Theorem stakeholder_hours
    (events : list Stakeholder.CalendarEvent) (key : string) :
  let record := Stakeholder.stakeholders (Stakeholder.analyze_stakeholders events) in
  (StakeholderSpec.hours_of record key
   == StakeholderSpec.credited_hours key events)%Q
  /\ (record !! key = None
      <-> Forall (fun e => StakeholderSpec.appearances key e = 0%nat)
                 (List.filter Stakeholder.is_work_relevant events))
  /\ (Forall (fun e => (StakeholderSpec.appearances key e <= 1)%nat) events ->
      (StakeholderSpec.hours_of record key
       == StakeholderSpec.attended_hours key events)%Q).
Proof.
  cbn zeta. unfold Stakeholder.analyze_stakeholders.
  cbn [Stakeholder.stakeholders].
  pose proof (track_events_hours key
                (List.filter Stakeholder.is_work_relevant events) (∅, ∅)) as Hh.
  pose proof (track_events_none key
                (List.filter Stakeholder.is_work_relevant events) (∅, ∅)) as Hn.
  cbn [fst] in Hh, Hn. unfold StakeholderSpec.hours_of at 2 in Hh.
  rewrite lookup_empty in Hh. rewrite lookup_empty in Hn.
  cbn [from_option] in Hh.
  assert (H1 : (StakeholderSpec.hours_of
                  (fst (fold_left Stakeholder.track_event
                          (List.filter Stakeholder.is_work_relevant events)
                          (∅, ∅))) key
                == StakeholderSpec.credited_hours key events)%Q).
  { rewrite Hh. unfold StakeholderSpec.credited_hours. ring. }
  split; [exact H1|]. split.
  - rewrite Hn. tauto.
  - intros H. rewrite H1. now apply credited_attended.
Qed.

(** The statement at the one-hour meeting with Jane. *)
Lemma stakeholder_hours_witness :
  (StakeholderSpec.hours_of
     (Stakeholder.stakeholders
        (Stakeholder.analyze_stakeholders [StakeholderSpec.review]))
     "Jane Doe"
   == StakeholderSpec.attended_hours "Jane Doe" [StakeholderSpec.review])%Q.
Proof.
  apply (proj2 (proj2 (stakeholder_hours [StakeholderSpec.review] "Jane Doe"))).
  repeat constructor.
Defined.

(** C9 as stated fails: when the export lists Jane's attendee line twice on
    a one-hour meeting, her record holds two hours, not the one hour of the
    events she appears in. *)
Lemma duplicate_attendee_counted_twice :
  ~ (StakeholderSpec.hours_of
       (Stakeholder.stakeholders
          (Stakeholder.analyze_stakeholders [StakeholderSpec.review_listed_twice]))
       "Jane Doe"
     == StakeholderSpec.attended_hours "Jane Doe"
          [StakeholderSpec.review_listed_twice])%Q.
Proof.
  vm_compute. intros H. discriminate H.
Qed.

(** ** The by-company view *)

Section CompanyFacts.

Import Stakeholder StakeholderSpec.

Lemma work_relevant_attendees (e : CalendarEvent) :
  is_work_relevant e = true -> attendees e <> [].
Proof.
  unfold is_work_relevant. intros H Hnil. rewrite Hnil in H. discriminate H.
Qed.

Lemma event_companies_size (e : CalendarEvent) :
  attendees e <> [] -> size (event_companies e) <> 0%nat.
Proof.
  unfold event_companies. destruct (attendees e) as [|a people]; [congruence|].
  intros _ H. apply size_empty_inv in H. cbn in H.
  set_solver.
Qed.

Lemma add_company_share_ok (d : Q) (n : nat) (m : gmap string bucket) (c : string) :
  n <> 0%nat ->
  add_company_share d n (Ok m) c
  = Ok (<[c := {| b_count := S (b_count (default bucket_init (m !! c)));
                  b_hours := (b_hours (default bucket_init (m !! c))
                              + d / inject_Z (Z.of_nat n))%Q |}]> m).
Proof. intros Hn. destruct n as [|k]; [congruence | reflexivity]. Qed.

(** With a non-zero divisor the loop over distinct organizations credits
    each of them once with the same share. *)
Lemma add_company_shares (d : Q) (n : nat) (cs : list string)
    (m : gmap string bucket) :
  n <> 0%nat -> NoDup cs ->
  exists m',
    fold_left (add_company_share d n) cs (Ok m) = Ok m'
    /\ (forall c, c ∈ cs ->
          (company_hours m' c == company_hours m c + d / inject_Z (Z.of_nat n))%Q
          /\ company_count m' c = S (company_count m c))
    /\ (forall c, c ∉ cs -> m' !! c = m !! c).
Proof.
  intros Hn. revert m. induction cs as [|c cs IH]; intros m Hnd.
  - exists m. split; [reflexivity|]. split; [|reflexivity].
    intros c Hc. inversion Hc.
  - apply NoDup_cons in Hnd as [Hc Hcs].
    cbn [fold_left]. rewrite (add_company_share_ok d n m c Hn).
    match goal with
    | |- context [fold_left _ cs (Ok ?m1)] =>
        destruct (IH m1 Hcs) as (m' & Hrun & Hin & Hout)
    end.
    exists m'. split; [exact Hrun|]. split.
    + intros x Hx. apply elem_of_cons in Hx as [-> | Hx].
      * unfold company_hours, company_count. rewrite (Hout c Hc).
        rewrite lookup_insert_eq. cbn [from_option b_hours b_count].
        destruct (m !! c); cbn; split; reflexivity.
      * destruct (Hin x Hx) as [H1 H2].
        assert (Hne : c <> x) by (intros ->; contradiction).
        unfold company_hours, company_count in *.
        rewrite lookup_insert_ne in H1, H2 by exact Hne. auto.
    + intros x Hx. apply not_elem_of_cons in Hx as [Hne Hx].
      rewrite (Hout x Hx). now rewrite lookup_insert_ne.
Qed.

Lemma shares_sum (d : Q) (n : nat) (cs : list string)
    (m m' : gmap string bucket) :
  (forall c, c ∈ cs ->
     (company_hours m' c == company_hours m c + d / inject_Z (Z.of_nat n))%Q) ->
  (Aggregate.sum_hours
     (List.map (fun c => company_hours m' c - company_hours m c) cs)
   == inject_Z (Z.of_nat (length cs)) * (d / inject_Z (Z.of_nat n)))%Q.
Proof.
  induction cs as [|c cs IH]; intros H.
  - cbn. ring.
  - cbn [List.map length]. unfold Aggregate.sum_hours in *. cbn [fold_right].
    rewrite IH by (intros x Hx; apply H; now right).
    rewrite (H c) by now left.
    rewrite Nat2Z.inj_succ, <- Z.add_1_r, inject_Z_plus. ring.
Qed.

Lemma whole_from_shares (d : Q) (n : nat) :
  n <> 0%nat -> (inject_Z (Z.of_nat n) * (d / inject_Z (Z.of_nat n)) == d)%Q.
Proof.
  intros Hn. field. intros H.
  assert (Hz : (Z.of_nat n = 0)%Z).
  { unfold Qeq in H. cbn in H. lia. }
  lia.
Qed.

Lemma by_company_event_ok (m : gmap string bucket) (e : CalendarEvent) :
  exists m', by_company_event (Ok m) e = Ok m'.
Proof.
  unfold by_company_event.
  destruct (decide (size (event_companies e) = 0%nat)) as [Hz|Hnz].
  - assert (He : elements (event_companies e) = [])
      by (apply length_zero_iff_nil; exact Hz).
    rewrite He. now exists m.
  - destruct (add_company_shares (get_duration_hours e) _
                (elements (event_companies e)) m Hnz (NoDup_elements _))
      as (m' & H & _). now exists m'.
Qed.

Lemma by_company_ok (events : list CalendarEvent) :
  exists m, by_company events = Ok m.
Proof.
  unfold by_company.
  generalize (∅ : gmap string bucket) as m.
  induction (List.filter is_work_relevant events) as [|e work IH]; intros m.
  - now exists m.
  - cbn [fold_left]. destruct (by_company_event_ok m e) as (m1 & ->). apply IH.
Qed.

End CompanyFacts.

(** C10.  A work-relevant event has a non-empty attendee list, hence a
    non-empty set of distinct organizations, and the division of its duration
    by their number does not raise; every distinct organization is counted
    once more and credited with the duration divided by that number, the
    others are left as they were, and the shares credited for the event add
    up to its duration.  The whole [by_company] view is computed without a
    division by zero. *)
Theorem by_company_shares (event : Stakeholder.CalendarEvent) :
  Stakeholder.is_work_relevant event = true ->
  let companies := Stakeholder.event_companies event in
  let duration := Stakeholder.get_duration_hours event in
  Stakeholder.attendees event <> []
  /\ size companies <> 0%nat
  /\ (forall m : gmap string Stakeholder.bucket,
        exists m',
          Stakeholder.by_company_event (Ok m) event = Ok m'
          /\ (forall c, c ∈ companies ->
                (StakeholderSpec.company_hours m' c
                 == StakeholderSpec.company_hours m c
                    + duration / inject_Z (Z.of_nat (size companies)))%Q
                /\ StakeholderSpec.company_count m' c
                   = S (StakeholderSpec.company_count m c))
          /\ (forall c, c ∉ companies -> m' !! c = m !! c)
          /\ (Aggregate.sum_hours
                (List.map
                   (fun c => StakeholderSpec.company_hours m' c
                             - StakeholderSpec.company_hours m c)
                   (elements companies))
              == duration)%Q)
  /\ (forall events, exists m, Stakeholder.by_company events = Ok m).
Proof.
  intros Hw. cbn zeta.
  pose proof (work_relevant_attendees event Hw) as Ha.
  pose proof (event_companies_size event Ha) as Hn.
  split; [exact Ha|]. split; [exact Hn|]. split; [|apply by_company_ok].
  intros m. unfold Stakeholder.by_company_event.
  destruct (add_company_shares (Stakeholder.get_duration_hours event) _
              (elements (Stakeholder.event_companies event)) m Hn
              (NoDup_elements _)) as (m' & Hrun & Hin & Hout).
  exists m'. split; [exact Hrun|]. split; [|split].
  - intros c Hc. apply Hin. now apply elem_of_elements.
  - intros c Hc. apply Hout. now rewrite elem_of_elements.
  - rewrite (shares_sum (Stakeholder.get_duration_hours event)
               (size (Stakeholder.event_companies event))).
    + now apply whole_from_shares.
    + intros c Hc. now apply Hin.
Qed.

(** The statement at the meeting with the viewing user and Jane, two
    organizations sharing one hour. *)
Lemma by_company_shares_witness :
  Stakeholder.attendees StakeholderSpec.review <> []
  /\ size (Stakeholder.event_companies StakeholderSpec.review) <> 0%nat.
Proof.
  destruct (by_company_shares StakeholderSpec.review eq_refl) as (H1 & H2 & _).
  exact (conj H1 H2).
Defined.

(** ** More on the parser loop *)

Section ParserBounds.

Import AnalyzeCalendar Ics Lines.

Lemma outside_lines_not_begin (ls : list string) :
  ~ In "BEGIN:VEVENT" ls -> forallb outside_line ls = true.
Proof.
  intros H. apply forallb_forall. intros l Hl. unfold outside_line.
  apply negb_true_iff, String.eqb_neq. intros ->. contradiction.
Qed.

Lemma continuation_not_boundary (l : string) :
  is_continuation_line l = true ->
  String.eqb "BEGIN:VEVENT" l = false /\ String.eqb "END:VEVENT" l = false.
Proof.
  intros H. split; apply String.eqb_neq; intros <-; discriminate H.
Qed.

Lemma flushed_open (st : parser) :
  consistent st -> open_events (flushed st) = open_events st.
Proof.
  intros Hc. unfold open_events. rewrite flushed_current_event.
  unfold settled_event. destruct (current_event st) as [ev|] eqn:Hev; [|reflexivity].
  destruct (field_pending st); [|reflexivity].
  now destruct (current_field st).
Qed.

(** What one dispatched line does to the number of finished and of open
    events. *)
Lemma dispatch_counts (st st' : parser) (l : string) :
  dispatch st l = Ok st' ->
  length (events st') = length (events st) + count_lines "END:VEVENT" [l] * open_events st
  /\ length (events st') + open_events st'
     <= length (events st) + open_events st + count_lines "BEGIN:VEVENT" [l].
Proof.
  unfold dispatch, count_lines, open_events. cbn [List.filter].
  rewrite (String.eqb_sym "BEGIN:VEVENT" l), (String.eqb_sym "END:VEVENT" l).
  destruct (String.eqb l "BEGIN:VEVENT") eqn:Hb.
  { apply String.eqb_eq in Hb as ->. intros [= <-]. cbn.
    destruct (current_event st); lia. }
  destruct (current_event st) as [ev|] eqn:Hev.
  2:{ intros [= <-]. rewrite Hev. destruct (String.eqb l "END:VEVENT"); cbn; lia. }
  destruct (String.eqb l "END:VEVENT") eqn:He.
  { intros [= <-]. cbn. rewrite length_app. cbn. lia. }
  destruct (Py.split1 ":" l) as [[f v]|].
  2:{ intros [= <-]. rewrite Hev. cbn. lia. }
  destruct (negb (Py.endswith "=" l)); cbn; intros [= <-]; cbn; lia.
Qed.

Lemma step_counts (st st' : parser) (l : string) :
  consistent st -> step st l = Ok st' ->
  length (events st') <= length (events st) + count_lines "END:VEVENT" [l]
  /\ length (events st') + open_events st'
     <= length (events st) + open_events st + count_lines "BEGIN:VEVENT" [l].
Proof.
  intros Hc.
  destruct (is_continuation_line l && field_pending st) eqn:H.
  - apply andb_true_iff in H as [Hl Hp].
    rewrite (step_continuation st l Hl Hp). intros [= <-].
    unfold open_events, accumulated. cbn. lia.
  - rewrite (step_dispatch st l Hc H). intros Hd.
    apply dispatch_counts in Hd as [H1 H2].
    rewrite flushed_events in H1, H2. rewrite (flushed_open st Hc) in H1, H2.
    split; [|exact H2]. rewrite H1. unfold open_events.
    destruct (current_event st); lia.
Qed.

Lemma count_lines_cons (x l : string) (ls : list string) :
  count_lines x (l :: ls) = count_lines x [l] + count_lines x ls.
Proof. unfold count_lines. cbn. now destruct (String.eqb x l). Qed.

Lemma run_counts (st st' : parser) (ls : list string) :
  consistent st -> run st ls = Ok st' ->
  length (events st') <= length (events st) + count_lines "END:VEVENT" ls
  /\ length (events st') + open_events st'
     <= length (events st) + open_events st + count_lines "BEGIN:VEVENT" ls.
Proof.
  revert st. induction ls as [|l ls IH]; intros st Hc; cbn [run].
  - intros [= <-]. cbn. lia.
  - destruct (step_ok st l Hc) as (st1 & H1 & Hc1 & _). rewrite H1. cbn [bind].
    intros Hrun. destruct (IH st1 Hc1 Hrun) as [Ha Hb].
    destruct (step_counts st st1 l Hc H1) as [Hc' Hd].
    rewrite (count_lines_cons "END:VEVENT"), (count_lines_cons "BEGIN:VEVENT").
    lia.
Qed.

End ParserBounds.

(** X1.  A text without any [BEGIN:VEVENT] line yields no event: the parser
    returns the empty list. *)
Theorem no_begin_no_events (text : string) :
  ~ In "BEGIN:VEVENT" (Lines.of_text text) ->
  AnalyzeCalendar.parse_ics_file text = Ok [].
Proof.
  intros H. unfold AnalyzeCalendar.parse_ics_file.
  apply (parse_lines_run _ AnalyzeCalendar.parser_init).
  apply run_outside; [reflexivity | reflexivity |].
  now apply outside_lines_not_begin.
Qed.

(** The statement at a calendar header without events. *)
Lemma no_begin_no_events_witness :
  AnalyzeCalendar.parse_ics_file
    (ParserSamples.unlines ["BEGIN:VCALENDAR"; "VERSION:2.0"; "END:VEVENT";
                            "END:VCALENDAR"])
  = Ok [].
Proof.
  apply no_begin_no_events. vm_compute.
  intros [H|[H|[H|[H|H]]]]; try discriminate H. exact H.
Defined.

(** X2.  The parser never returns more events than the text has
    [END:VEVENT] lines, nor more than it has [BEGIN:VEVENT] lines. *)
Theorem events_bounded_by_markers (text : string) (evs : list AnalyzeCalendar.CalendarEvent) :
  AnalyzeCalendar.parse_ics_file text = Ok evs ->
  length evs <= Lines.count_lines "END:VEVENT" (Lines.of_text text)
  /\ length evs <= Lines.count_lines "BEGIN:VEVENT" (Lines.of_text text).
Proof.
  unfold AnalyzeCalendar.parse_ics_file, AnalyzeCalendar.parse_lines.
  fold (Lines.of_text text).
  destruct (AnalyzeCalendar.run AnalyzeCalendar.parser_init (Lines.of_text text))
    as [st|e] eqn:Hrun; cbn [bind]; [|discriminate].
  intros [= <-].
  destruct (run_counts _ _ _ parser_init_consistent Hrun) as [H1 H2].
  cbn in H1, H2. lia.
Qed.

(** The statement at the text with one closed and one open event. *)
Lemma events_bounded_by_markers_witness :
  length [Ics.decode_block [Ics.Single "SUMMARY" "Weekly sync"]]
  <= Lines.count_lines "END:VEVENT" (Lines.of_text ParserSamples.unterminated_text)
  /\ length [Ics.decode_block [Ics.Single "SUMMARY" "Weekly sync"]]
     <= Lines.count_lines "BEGIN:VEVENT" (Lines.of_text ParserSamples.unterminated_text).
Proof.
  apply (events_bounded_by_markers ParserSamples.unterminated_text).
  vm_compute. reflexivity.
Defined.

(** ** Fields the decoder does not know, and stray continuation lines *)

Section StrayFacts.

Import AnalyzeCalendar Ics Stray.

(** A field whose name is not one of the known ones leaves the event as it
    is. *)
Lemma process_field_unknown (ev : CalendarEvent) (field value : string) :
  existsb (String.eqb (field_name field)) known_fields = false ->
  process_field ev field value = ev.
Proof.
  unfold process_field, known_fields, field_name. cbn [existsb].
  rewrite !orb_false_iff. intros H.
  repeat match goal with
         | H : _ /\ _ |- _ => destruct H as [?E H]
         end.
  repeat match goal with
         | E : String.eqb _ _ = false |- _ => rewrite E; clear E
         end.
  reflexivity.
Qed.

(** The piece being read is a prefix of the first piece returned. *)
Lemma split_from_first (sep s : string) (skip : nat) (cur : string) :
  exists t, Py.first_piece (Py.split_from sep s skip cur) = cur +:+ t.
Proof.
  revert skip cur. induction s as [|c s IH]; intros skip cur; cbn [Py.split_from].
  - exists "". cbn. now rewrite append_empty_r.
  - destruct skip as [|k]; [|apply IH].
    destruct (String.prefix sep (String c s)).
    + exists "". cbn. now rewrite append_empty_r.
    + destruct (IH 0%nat (cur +:+ String c "")) as (t & Ht).
      exists (String c t). rewrite Ht, append_assoc. reflexivity.
Qed.

Lemma continuation_head (l : string) :
  is_continuation_line l = true ->
  exists c r, l = String c r /\ (c = " "%char \/ c = ascii_of_nat 9).
Proof.
  unfold is_continuation_line, Py.startswith.
  destruct l as [|c r]; [discriminate|]. intros H. exists c, r.
  split; [reflexivity|]. cbn [String.prefix File.tab] in H.
  destruct (ascii_dec " " c) as [<-|]; [now left|].
  destruct (ascii_dec (ascii_of_nat 9) c) as [<-|]; [now right|].
  discriminate H.
Qed.

Lemma head_continuation (c : ascii) (r : string) :
  c = " "%char \/ c = ascii_of_nat 9 ->
  is_continuation_line (String c r) = true.
Proof. intros [-> | ->]; destruct r; reflexivity. Qed.

Lemma continuation_field_name (f : string) :
  is_continuation_line f = true ->
  existsb (String.eqb (field_name f)) known_fields = false.
Proof.
  intros H. destruct (continuation_head f H) as (c & r & -> & Hc).
  unfold field_name, Py.split. cbn [Py.split_from].
  assert (Hp : String.prefix ";" (String c r) = false).
  { destruct Hc as [-> | ->]; reflexivity. }
  rewrite Hp. destruct (split_from_first ";" r 0 ("" +:+ String c "")) as (t & ->).
  destruct Hc as [-> | ->]; reflexivity.
Qed.

Lemma continuation_split1 (l f v : string) :
  is_continuation_line l = true -> Py.split1 ":" l = Some (f, v) ->
  is_continuation_line f = true.
Proof.
  intros H. destruct (continuation_head l H) as (c & r & -> & Hc).
  cbn [Py.split1].
  assert (Ec : Ascii.eqb c ":" = false) by (destruct Hc as [-> | ->]; reflexivity).
  rewrite Ec. destruct (Py.split1 ":" r) as [[a b]|]; [|discriminate].
  intros [= <- <-]. now apply head_continuation.
Qed.

Lemma similar_refl (a : parser) : similar a a.
Proof. unfold similar. auto. Qed.

Lemma similar_consistent (a b : parser) :
  similar a b -> consistent a -> consistent b.
Proof.
  intros (He & Hc & Hp & Hv) Ha Hb. rewrite <- Hp in Hb.
  destruct (Ha Hb) as [H1 H2]. destruct (Hv Hb) as [_ H3].
  rewrite <- Hc, <- H3. auto.
Qed.

Lemma similar_flushed (a b : parser) : similar a b -> similar (flushed a) (flushed b).
Proof.
  intros (He & Hc & Hp & Hv). unfold flushed, settled_event.
  rewrite <- Hp. destruct (field_pending a) eqn:Hpa.
  - destruct (Hv eq_refl) as [Hf Hcv]. rewrite <- Hc, <- Hf, <- Hcv, He.
    apply similar_refl.
  - unfold similar. rewrite Hpa, <- Hp. repeat split; try assumption;
      discriminate.
Qed.

Lemma similar_dispatch (a b : parser) (l : string) :
  similar a b -> field_pending a = false ->
  exists a' b', dispatch a l = Ok a' /\ dispatch b l = Ok b' /\ similar a' b'.
Proof.
  intros (He & Hc & Hp & Hv) Hpa. unfold dispatch. rewrite <- Hc, <- He.
  assert (Hpb : field_pending b = false) by congruence.
  destruct (String.eqb l "BEGIN:VEVENT").
  { do 2 eexists. split; [reflexivity|]. split; [reflexivity|].
    unfold similar, field_pending in *. cbn. rewrite Hpa, Hpb.
    repeat split; discriminate. }
  destruct (current_event a) as [ev|] eqn:Hev.
  2:{ exists a, b. split; [reflexivity|]. split; [reflexivity|].
      unfold similar. rewrite Hpa, Hpb. repeat split; try assumption;
        try congruence; discriminate. }
  destruct (String.eqb l "END:VEVENT").
  { do 2 eexists. split; [reflexivity|]. split; [reflexivity|].
    unfold similar, field_pending in *. cbn. rewrite Hpa, Hpb, He.
    repeat split; discriminate. }
  destruct (Py.split1 ":" l) as [[f v]|].
  2:{ exists a, b. split; [reflexivity|]. split; [reflexivity|].
      unfold similar. rewrite Hpa, Hpb. repeat split; try assumption;
        try congruence; discriminate. }
  destruct (negb (Py.endswith "=" l)); cbn.
  - do 2 eexists. split; [reflexivity|]. split; [reflexivity|].
    unfold similar, field_pending. cbn. rewrite He. repeat split; discriminate.
  - do 2 eexists. split; [reflexivity|]. split; [reflexivity|].
    unfold similar, field_pending. cbn. rewrite He. repeat split.
Qed.

Lemma similar_step (a b : parser) (l : string) :
  similar a b -> consistent a ->
  exists a' b', step a l = Ok a' /\ step b l = Ok b'
                /\ similar a' b' /\ consistent a'.
Proof.
  intros H Ha. pose proof (similar_consistent a b H Ha) as Hb.
  destruct H as (He & Hc & Hp & Hv).
  destruct (is_continuation_line l && field_pending a) eqn:E.
  - apply andb_true_iff in E as [El Ep].
    rewrite (step_continuation a l El Ep).
    rewrite (step_continuation b l El) by congruence.
    do 2 eexists. split; [reflexivity|]. split; [reflexivity|].
    split; [|now apply accumulated_consistent].
    destruct (Hv Ep) as [Hf Hcv].
    unfold similar, accumulated, field_pending in *. cbn.
    rewrite He, Hc, Hf, Hcv. auto.
  - rewrite (step_dispatch a l Ha E).
    rewrite (step_dispatch b l Hb) by (rewrite <- Hp; exact E).
    assert (Hs : similar a b) by (unfold similar; auto).
    destruct (similar_dispatch (flushed a) (flushed b) l (similar_flushed a b Hs)
                (flushed_not_pending a)) as (a' & b' & H1 & H2 & H3).
    exists a', b'. split; [exact H1|]. split; [exact H2|]. split; [exact H3|].
    destruct (dispatch_ok (flushed a) l (flushed_not_pending a))
      as (a2 & H4 & H5 & _).
    rewrite H1 in H4. injection H4 as <-. exact H5.
Qed.

Lemma similar_run (a b : parser) (ls : list string) :
  similar a b -> consistent a ->
  exists a' b', run a ls = Ok a' /\ run b ls = Ok b' /\ events a' = events b'.
Proof.
  revert a b. induction ls as [|l ls IH]; intros a b H Ha; cbn.
  - exists a, b. split; [reflexivity|]. split; [reflexivity|]. apply H.
  - destruct (similar_step a b l H Ha) as (a1 & b1 & -> & -> & H1 & Ha1). cbn.
    now apply IH.
Qed.

(** After a line that does not end in [=], no field is pending. *)
Lemma dispatch_complete_line (st st' : parser) (l : string) :
  field_pending st = false -> Py.endswith "=" l = false ->
  dispatch st l = Ok st' -> field_pending st' = false.
Proof.
  intros Hp Hw. unfold dispatch.
  destruct (String.eqb l "BEGIN:VEVENT"); [intros [= <-]; exact Hp|].
  destruct (current_event st) as [ev|]; [|intros [= <-]; exact Hp].
  destruct (String.eqb l "END:VEVENT"); [intros [= <-]; exact Hp|].
  destruct (Py.split1 ":" l) as [[f v]|]; [|intros [= <-]; exact Hp].
  rewrite Hw. cbn. intros [= <-]. reflexivity.
Qed.

(** A continuation line met without a pending field changes neither the
    finished events nor the event under construction. *)
Lemma strayed_step (origin st : parser) (c : string) :
  strayed origin st -> is_continuation_line c = true ->
  exists st', step st c = Ok st' /\ strayed origin st'.
Proof.
  intros (He & Hc & Hcons & Hf) Hl.
  assert (Hst : strayed origin st) by (unfold strayed; auto).
  destruct (field_pending st) eqn:Hp.
  - rewrite (step_continuation st c Hl Hp). eexists. split; [reflexivity|].
    unfold strayed, accumulated. cbn. split; [exact He|]. split; [exact Hc|].
    split; [now apply (accumulated_consistent st)|]. intros _. now apply Hf.
  - rewrite (step_dispatch st c Hcons) by (rewrite Hp; apply andb_false_r).
    rewrite (flushed_id st Hp). unfold dispatch.
    destruct (continuation_not_boundary c Hl) as [Hb Hend].
    rewrite String.eqb_sym in Hb. rewrite String.eqb_sym in Hend.
    rewrite Hb.
    destruct (current_event st) as [ev|] eqn:Hev.
    2:{ exists st. split; [reflexivity | exact Hst]. }
    rewrite Hend.
    destruct (Py.split1 ":" c) as [[f v]|] eqn:Hs.
    2:{ exists st. split; [reflexivity | exact Hst]. }
    pose proof (continuation_split1 c f v Hl Hs) as Hfc.
    destruct (Py.endswith "=" c) eqn:Hw; cbn.
    + eexists. split; [reflexivity|]. unfold strayed. cbn.
      split; [exact He|]. split; [exact Hc|]. split.
      * intros _. cbn. split; [eauto|]. eapply split1_value_truthy; eauto.
      * intros _. eauto.
    + rewrite (process_field_unknown ev f v (continuation_field_name f Hfc)).
      eexists. split; [reflexivity|]. unfold strayed. cbn.
      split; [exact He|]. split; [exact Hc|]. split.
      * intros H. discriminate H.
      * intros H. discriminate H.
Qed.

Lemma strayed_run (origin st : parser) (cs : list string) :
  strayed origin st -> forallb is_continuation_line cs = true ->
  exists st', run st cs = Ok st' /\ strayed origin st'.
Proof.
  revert st. induction cs as [|c cs IH]; intros st Hs H; cbn.
  - now exists st.
  - apply andb_true_iff in H as [Hc Hcs].
    destruct (strayed_step origin st c Hs Hc) as (st1 & -> & H1). cbn.
    now apply IH.
Qed.

Lemma strayed_flushed (origin st : parser) :
  field_pending origin = false -> strayed origin st ->
  similar (flushed st) origin.
Proof.
  intros Ho (He & Hc & Hcons & Hf). unfold flushed, settled_event.
  destruct (field_pending st) eqn:Hp.
  - destruct (Hf eq_refl) as (f & Hcf & Hfc). rewrite Hcf.
    destruct (Hcons Hp) as [[ev Hev] _]. rewrite Hev.
    rewrite (process_field_unknown ev f _ (continuation_field_name f Hfc)).
    split; [exact He|]. split; [cbn; congruence|].
    split; [cbn; now rewrite Ho | intros H; discriminate H].
  - unfold similar. rewrite Hp, Ho. repeat split; try assumption; discriminate.
Qed.

End StrayFacts.

(** X3.  Continuation lines are appended only to a line that ends in [=]:
    after a line that does not end in [=], the following lines that begin
    with a space or a tab are dropped without effect, so the input yields the
    same events as the input without them. *)
Theorem stray_continuation_ignored (pre cs post : list string) (l : string) :
  AnalyzeCalendar.is_continuation_line l = false ->
  Py.endswith "=" l = false ->
  forallb AnalyzeCalendar.is_continuation_line cs = true ->
  AnalyzeCalendar.is_continuation_line (List.hd "" post) = false ->
  AnalyzeCalendar.parse_lines (pre ++ l :: cs ++ post)
  = AnalyzeCalendar.parse_lines (pre ++ l :: post).
Proof.
  intros Hl Hw Hcs Hpost.
  destruct (run_ok AnalyzeCalendar.parser_init pre parser_init_consistent)
    as (st0 & H0 & Hc0).
  destruct (dispatch_ok (Ics.flushed st0) l (flushed_not_pending st0))
    as (s1 & Hd & Hc1 & _).
  pose proof (dispatch_complete_line _ _ l (flushed_not_pending st0) Hw Hd) as Hp1.
  assert (Hstep : AnalyzeCalendar.step st0 l = Ok s1).
  { now rewrite (not_continuation_dispatch st0 l Hc0 Hl). }
  assert (Hs1 : Stray.strayed s1 s1).
  { unfold Stray.strayed. repeat split; try assumption.
    - now apply Hc1.
    - now apply Hc1.
    - intros H. congruence. }
  destruct (strayed_run s1 s1 cs Hs1 Hcs) as (s2 & Hrun2 & Hs2).
  assert (Hleft : exists a b,
             AnalyzeCalendar.run s2 post = Ok a
             /\ AnalyzeCalendar.run s1 post = Ok b
             /\ AnalyzeCalendar.events a = AnalyzeCalendar.events b).
  { destruct post as [|p rest].
    - exists s2, s1. split; [reflexivity|]. split; [reflexivity|]. apply Hs2.
    - cbn in Hpost. cbn [AnalyzeCalendar.run].
      assert (Hc2 : Ics.consistent s2) by apply Hs2.
      rewrite (not_continuation_dispatch s2 p Hc2 Hpost).
      rewrite (not_continuation_dispatch s1 p Hc1 Hpost).
      rewrite (flushed_id s1 Hp1).
      destruct (similar_dispatch (Ics.flushed s2) s1 p
                  (strayed_flushed s1 s2 Hp1 Hs2) (flushed_not_pending s2))
        as (a1 & b1 & Ha1 & Hb1 & Hab).
      rewrite Ha1, Hb1. cbn [bind].
      destruct (dispatch_ok (Ics.flushed s2) p (flushed_not_pending s2))
        as (a2 & Ha2 & Hca & _).
      rewrite Ha1 in Ha2. injection Ha2 as <-.
      apply (similar_run a1 b1 rest Hab Hca). }
  destruct Hleft as (a & b & Ha & Hb & Hab).
  rewrite (parse_lines_run _ a).
  2:{ rewrite run_app, H0. cbn [bind AnalyzeCalendar.run]. rewrite Hstep.
      cbn [bind]. now rewrite run_app, Hrun2. }
  rewrite (parse_lines_run _ b).
  2:{ rewrite run_app, H0. cbn [bind AnalyzeCalendar.run]. rewrite Hstep.
      exact Hb. }
  now rewrite Hab.
Qed.

(** The statement at a title wrapped onto a second line the usual way. *)
Lemma stray_continuation_ignored_witness :
  AnalyzeCalendar.parse_lines
    (["BEGIN:VEVENT"] ++ "SUMMARY:Quarterly business" :: [" review"] ++ ["END:VEVENT"])
  = AnalyzeCalendar.parse_lines
      (["BEGIN:VEVENT"] ++ "SUMMARY:Quarterly business" :: ["END:VEVENT"]).
Proof.
  apply (stray_continuation_ignored ["BEGIN:VEVENT"] [" review"] ["END:VEVENT"]
           "SUMMARY:Quarterly business"); reflexivity.
Defined.

(** ** What every parsed event satisfies *)

Section DecodedFacts.

Import AnalyzeCalendar Ics Decoded.

Lemma ascii_ignore_ascii (s : string) :
  Py.all_chars is_ascii (Py.ascii_ignore s) = true.
Proof.
  induction s as [|c s IH]; cbn [Py.ascii_ignore]; [reflexivity|].
  destruct (Py.code c <? 128)%N eqn:E; [|exact IH].
  cbn [Py.all_chars]. unfold is_ascii at 1. now rewrite E.
Qed.

Lemma take_length (n : nat) (s : string) : String.length (Py.take n s) <= n.
Proof.
  revert s. induction n as [|n IH]; intros s; [cbn; lia|].
  destruct s as [|c s]; cbn; [lia|]. specialize (IH s). lia.
Qed.

Lemma take_while_all (p : ascii -> bool) (s : string) :
  Py.all_chars p (Py.take_while p s) = true.
Proof.
  induction s as [|c s IH]; cbn [Py.take_while]; [reflexivity|].
  destruct (p c) eqn:E; [|reflexivity]. cbn. now rewrite E.
Qed.

Lemma search_some {A} (m : string -> option A) (s : string) (a : A) :
  Py.search m s = Some a -> exists t, m t = Some a.
Proof.
  induction s as [|c s IH]; cbn [Py.search].
  - destruct (m "") eqn:E; [intros [= <-]; eauto | discriminate].
  - destruct (m (String c s)) eqn:E; [intros [= <-]; eauto | exact IH].
Qed.

Lemma search_mailto_address (value e : string) :
  Re.search_mailto value = Some e -> address_like e = true.
Proof.
  intros H. apply search_some in H as (t & Ht).
  unfold Re.match_mailto, Re.non_empty in Ht.
  destruct (Py.startswith "mailto:" t); [|discriminate].
  destruct (Py.truthy _) eqn:E; [|discriminate]. injection Ht as <-.
  apply andb_true_iff. split; [exact E | apply take_while_all].
Qed.

Lemma search_partstat_status (field s : string) :
  Re.search_partstat field = Some s -> status_like s = true.
Proof.
  intros H. apply search_some in H as (t & Ht).
  unfold Re.match_partstat, Re.non_empty in Ht.
  destruct (Py.startswith "PARTSTAT=" t); [|discriminate].
  destruct (Py.truthy _) eqn:E; [|discriminate]. injection Ht as <-.
  apply andb_true_iff. split; [exact E | apply take_while_all].
Qed.

(** The decoder keeps the bounds on the title and the description. *)
Lemma process_field_bounded (ev : CalendarEvent) (field value : string) :
  bounded_text ev -> bounded_text (process_field ev field value).
Proof.
  intros [Hs Hd]. unfold process_field, bounded_text.
  repeat match goal with
         | |- context [if String.eqb ?a ?b then _ else _] =>
             destruct (String.eqb a b)
         end;
    repeat match goal with
           | |- context [match ?x with Some _ => _ | None => _ end] => destruct x
           | |- context [if ?c then _ else _] => destruct c
           end;
    unfold set_summary, set_dtstart, set_dtend, set_description, set_location,
      set_organizer, set_attendees, set_categories, set_status,
      set_busy_status, set_transp, set_created, set_uid, set_is_recurring,
      set_recurrence_id;
    cbn [summary description];
    split; auto using ascii_ignore_ascii, take_length.
Qed.

(** The decoder only ever appends captured attendee entries. *)
Lemma process_field_attendees (ev : CalendarEvent) (field value : string) :
  attendees_captured ev -> attendees_captured (process_field ev field value).
Proof.
  intros H. unfold process_field, attendees_captured in *.
  repeat match goal with
         | |- context [if String.eqb ?a ?b then _ else _] =>
             destruct (String.eqb a b)
         end; try exact H.
  - destruct (Re.search_mailto value); exact H.
  - destruct (Re.search_mailto value) as [e|] eqn:He.
    + assert (Hnew : attendee_captured
                       {| email := e; att_status := Re.search_partstat field |} = true).
      { unfold attendee_captured. cbn. rewrite (search_mailto_address _ _ He).
        destruct (Re.search_partstat field) as [s|] eqn:Hp; [|reflexivity].
        exact (search_partstat_status _ _ Hp). }
      destruct (Py.contains viewer_email (Py.lower value));
        destruct (Re.search_partstat field); cbn in *;
        rewrite forallb_app; cbn; rewrite H, Hnew; reflexivity.
    + destruct (Py.contains viewer_email (Py.lower value));
        destruct (Re.search_partstat field); exact H.
Qed.

(** A property of the fresh event that the decoder keeps holds of the event
    under construction and of every finished event. *)
Lemma run_invariant (P : CalendarEvent -> Prop) (st st' : parser) (ls : list string) :
  P CalendarEvent_init ->
  (forall ev f v, P ev -> P (process_field ev f v)) ->
  Forall P (events st) -> (forall ev, current_event st = Some ev -> P ev) ->
  run st ls = Ok st' ->
  Forall P (events st') /\ (forall ev, current_event st' = Some ev -> P ev).
Proof.
  intros Hinit Hkeep. revert st. induction ls as [|l ls IH]; intros st He Hc; cbn [run].
  - intros [= <-]. auto.
  - destruct (step st l) as [s1|] eqn:Hstep; cbn [bind]; [|discriminate].
    apply IH.
    + revert Hstep. unfold step.
      destruct (is_continuation_line l && field_pending st);
        [intros [= <-]; exact He|].
      assert (Hfl : forall s, flush st = Ok s ->
                Forall P (events s) /\ (forall ev, current_event s = Some ev -> P ev)).
      { unfold flush. destruct (current_field st) as [f|]; [|intros s [= <-]; auto].
        destruct (Py.truthy f && Py.truthy (continuation_value st));
          [|intros s [= <-]; auto].
        unfold process_field_on. destruct (current_event st) as [ev|] eqn:Hev.
        - cbn. intros s [= <-]. cbn. split; [exact He|].
          intros ev' [= <-]. apply Hkeep, Hc. reflexivity.
        - destruct (assigns f (continuation_value st)); cbn; [discriminate|].
          intros s [= <-]. cbn. split; [exact He | discriminate]. }
      destruct (flush st) as [s|] eqn:Hf; cbn [bind]; [|discriminate].
      destruct (Hfl s eq_refl) as [Hes Hcs]. unfold dispatch.
      destruct (String.eqb l "BEGIN:VEVENT"); [intros [= <-]; exact Hes|].
      destruct (current_event s) as [ev|] eqn:Hev; [|intros [= <-]; exact Hes].
      destruct (String.eqb l "END:VEVENT").
      { intros [= <-]. cbn. apply List.Forall_app. split; [exact Hes|].
        constructor; [now apply Hcs | constructor]. }
      destruct (Py.split1 ":" l) as [[f v]|]; [|intros [= <-]; exact Hes].
      destruct (negb (Py.endswith "=" l)); cbn; intros [= <-]; exact Hes.
    + revert Hstep. unfold step.
      destruct (is_continuation_line l && field_pending st);
        [intros [= <-]; exact Hc|].
      assert (Hfl : forall s, flush st = Ok s ->
                (forall ev, current_event s = Some ev -> P ev)).
      { unfold flush. destruct (current_field st) as [f|]; [|intros s [= <-]; auto].
        destruct (Py.truthy f && Py.truthy (continuation_value st));
          [|intros s [= <-]; auto].
        unfold process_field_on. destruct (current_event st) as [ev|] eqn:Hev.
        - cbn. intros s [= <-]. cbn.
          intros ev' [= <-]. apply Hkeep, Hc. reflexivity.
        - destruct (assigns f (continuation_value st)); cbn; [discriminate|].
          intros s [= <-]. cbn. discriminate. }
      destruct (flush st) as [s|] eqn:Hf; cbn [bind]; [|discriminate].
      pose proof (Hfl s eq_refl) as Hcs. unfold dispatch.
      destruct (String.eqb l "BEGIN:VEVENT").
      { intros [= <-]. cbn. intros ev [= <-]. exact Hinit. }
      destruct (current_event s) as [ev|] eqn:Hev; [|intros [= <-]; congruence].
      destruct (String.eqb l "END:VEVENT"); [intros [= <-]; cbn; discriminate|].
      destruct (Py.split1 ":" l) as [[f v]|].
      2:{ intros [= <-]. rewrite Hev. intros ? [= <-]. now apply Hcs. }
      destruct (negb (Py.endswith "=" l)); cbn; intros [= <-]; cbn;
        intros ? [= <-]; [apply Hkeep|]; now apply Hcs.
Qed.

Lemma parsed_invariant (P : CalendarEvent -> Prop) (text : string)
    (evs : list CalendarEvent) :
  P CalendarEvent_init ->
  (forall ev f v, P ev -> P (process_field ev f v)) ->
  parse_ics_file text = Ok evs -> Forall P evs.
Proof.
  intros Hinit Hkeep. unfold parse_ics_file, parse_lines.
  destruct (run parser_init _) as [st|] eqn:Hrun; cbn [bind]; [|discriminate].
  intros [= <-].
  refine (proj1 (run_invariant P parser_init st _ Hinit Hkeep _ _ Hrun)).
  - constructor.
  - intros ev H. discriminate H.
Qed.

End DecodedFacts.

(** X4.  Every event the parser returns has a title made of ASCII
    characters only and a description of at most 500 characters, whatever
    the text holds. *)
Theorem parsed_text_bounded (text : string) (evs : list AnalyzeCalendar.CalendarEvent) :
  AnalyzeCalendar.parse_ics_file text = Ok evs ->
  Forall Decoded.bounded_text evs.
Proof.
  apply parsed_invariant.
  - split; [reflexivity | cbn; lia].
  - intros ev f v. apply process_field_bounded.
Qed.

(** The statement at the sample calendar. *)
Lemma parsed_text_bounded_witness :
  Forall Decoded.bounded_text
    (List.map Ics.decode_block (Ics.document_blocks ParserSamples.calendar)).
Proof.
  apply (parsed_text_bounded ParserSamples.calendar_text).
  vm_compute. reflexivity.
Defined.

(** X5.  Every attendee entry of every event the parser returns has an
    email address that is not empty and holds no white space, and a status,
    when it has one, that is not empty and holds no semicolon or colon. *)
Theorem parsed_attendees_captured (text : string) (evs : list AnalyzeCalendar.CalendarEvent) :
  AnalyzeCalendar.parse_ics_file text = Ok evs ->
  Forall Decoded.attendees_captured evs.
Proof.
  apply parsed_invariant.
  - reflexivity.
  - intros ev f v. apply process_field_attendees.
Qed.

(** The statement at the sample calendar. *)
Lemma parsed_attendees_captured_witness :
  Forall Decoded.attendees_captured
    (List.map Ics.decode_block (Ics.document_blocks ParserSamples.calendar)).
Proof.
  apply (parsed_attendees_captured ParserSamples.calendar_text).
  vm_compute. reflexivity.
Defined.

(** ** Reading back a stored start and end *)

Section StoredFacts.

Import AnalyzeCalendar Stored.




























End StoredFacts.



(** ** The report of [analyze_calendar.py] *)

Section DictFacts.

Import Aggregate Dict.

Lemma sum_hours_zero (hs : list Q) :
  List.Forall (fun h => (h == 0)%Q) hs -> (sum_hours hs == 0)%Q.
Proof.
  induction 1 as [|h hs Hh _ IH]; [reflexivity|].
  rewrite sum_hours_cons, Hh, IH. reflexivity.
Qed.

Lemma sum_items_hours_zero {A} (f : string -> A -> Q) (d : gmap string A) :
  (forall k v, d !! k = Some v -> (f k v == 0)%Q) ->
  (sum_items_hours f d == 0)%Q.
Proof.
  intros H. unfold sum_items_hours. apply sum_hours_zero.
  apply List.Forall_forall. intros h Hin. apply List.in_map_iff in Hin.
  destruct Hin as [[k v] [<- Hin]]. apply H. cbn.
  apply elem_of_map_to_list. apply list_elem_of_In. exact Hin.
Qed.

End DictFacts.

Section ReportFacts.

Import AnalyzeCalendar Aggregate Report.

Lemma categories_lookup (label : string) (events : list CalendarEvent) :
  t_categories (fold_left tally_event events tally_init) !! label
  = match members label events with
    | [] => None
    | _ => Some (members label events)
    end.
Proof.
  pose proof (tally_categories label events tally_init) as Hc.
  pose proof (tally_categories_none label events tally_init) as Hn.
  unfold tally_init at 2 in Hc. unfold tally_init at 2 in Hn.
  cbn [t_categories] in Hc, Hn.
  rewrite lookup_empty in Hc. rewrite lookup_empty in Hn.
  cbn [from_option app] in Hc.
  destruct (t_categories (fold_left tally_event events tally_init) !! label)
    as [l|] eqn:Hl.
  - cbn in Hc. subst l. destruct (members label events) eqn:Hm; [|reflexivity].
    assert (Some (@nil CalendarEvent) = None) as Hx by (apply Hn; auto).
    discriminate Hx.
  - destruct Hn as [Hn _]. destruct (Hn eq_refl) as [_ ->]. reflexivity.
Qed.

Lemma by_category_lookup (label : string) (events : list CalendarEvent) :
  by_category (snd (analyze_calendar events)) !! label
  = match members label events with
    | [] => None
    | _ =>
        Some (make_category_stats
                (t_total_hours (fold_left tally_event events tally_init))
                label (members label events))
    end.
Proof.
  unfold analyze_calendar. cbn [snd by_category].
  rewrite map_lookup_imap, categories_lookup.
  destruct (members label events); reflexivity.
Qed.

Lemma entry_count_members (label : string) (events : list CalendarEvent) :
  entry_count (snd (analyze_calendar events)) label
  = length (members label events).
Proof.
  unfold entry_count. rewrite by_category_lookup.
  destruct (members label events); reflexivity.
Qed.

Lemma list_sum_cons (n : nat) (l : list nat) :
  list_sum (n :: l) = n + list_sum l.
Proof. reflexivity. Qed.

Lemma count_label (x : string) (labels : list string) :
  NoDup labels ->
  list_sum (List.map (fun l => if String.eqb x l then 1 else 0) labels)
  = if existsb (String.eqb x) labels then 1 else 0.
Proof.
  induction 1 as [|l labels Hl Hnd IH]; [reflexivity|].
  cbn [List.map existsb]. rewrite list_sum_cons, IH.
  destruct (String.eqb_spec x l) as [->|Hne]; [|reflexivity].
  cbn [orb]. destruct (existsb (String.eqb l) labels) eqn:He; [|reflexivity].
  exfalso. apply Hl. apply existsb_exists in He. destruct He as [y [Hy He]].
  apply String.eqb_eq in He. subst y. apply list_elem_of_In. exact Hy.
Qed.

Lemma list_sum_add {A} (f g : A -> nat) (l : list A) :
  list_sum (List.map (fun a => f a + g a) l)
  = list_sum (List.map f l) + list_sum (List.map g l).
Proof.
  induction l as [|a l IH]; [reflexivity|].
  cbn [List.map]. rewrite !list_sum_cons, IH. lia.
Qed.

Lemma members_counts (labels : list string) (events : list CalendarEvent) :
  NoDup labels ->
  list_sum (List.map (fun l => length (members l events)) labels)
  = length (labelled_in labels events).
Proof.
  intros Hnd. induction events as [|e events IH].
  - cbn. induction labels; [reflexivity|]. cbn.
    apply IHlabels. now inversion Hnd.
  - transitivity
      (list_sum
         (List.map (fun l => (if String.eqb (categorize_event e) l then 1 else 0)
                             + length (members l events)) labels)).
    { f_equal. apply List.map_ext. intros l. rewrite members_cons.
      destruct (String.eqb (categorize_event e) l); reflexivity. }
    rewrite list_sum_add, IH, count_label by exact Hnd.
    unfold labelled_in. cbn [List.filter]. unfold has_label at 2.
    destruct (existsb (String.eqb (categorize_event e)) labels); reflexivity.
Qed.

Lemma category_order_nodup : NoDup category_order.
Proof.
  repeat (constructor; [rewrite list_elem_of_In; cbn; intuition discriminate|]).
  constructor.
Qed.

Lemma non_relevant_nodup : NoDup non_relevant.
Proof.
  repeat (constructor; [rewrite list_elem_of_In; cbn; intuition discriminate|]).
  constructor.
Qed.

Lemma filter_length_split {A} (p : A -> bool) (l : list A) :
  length (List.filter p l) + length (List.filter (fun a => negb (p a)) l)
  = length l.
Proof.
  induction l as [|a l IH]; [reflexivity|].
  cbn [List.filter]. destruct (p a); cbn [negb length]; lia.
Qed.

Lemma filter_all {A} (p : A -> bool) (l : list A) :
  (forall a, p a = true) -> List.filter p l = l.
Proof.
  intros H. induction l as [|a l IH]; [reflexivity|].
  cbn [List.filter]. now rewrite H, IH.
Qed.

Lemma hours_lookup_zero (events : list CalendarEvent) (label : string) (h : Q) :
  List.Forall (fun e => (get_duration_hours e == 0)%Q) events ->
  t_total_hours (fold_left tally_event events tally_init) !! label = Some h ->
  (h == 0)%Q.
Proof.
  intros Hz Hl. pose proof (tally_hours label events tally_init) as Hh.
  rewrite Hl in Hh. unfold tally_init at 1 in Hh.
  cbn [t_total_hours] in Hh. rewrite lookup_empty in Hh.
  cbn [from_option] in Hh. unfold id in Hh. rewrite Hh, Qplus_0_l.
  apply sum_hours_zero. apply List.Forall_forall. intros x Hx.
  apply List.in_map_iff in Hx. destruct Hx as [e [<- He]].
  unfold members in He. apply List.filter_In in He. destruct He as [He _].
  revert e He. apply List.Forall_forall. exact Hz.
Qed.

Lemma categorize_event_listed (e : CalendarEvent) :
  In (categorize_event e) category_order.
Proof.
  unfold categorize_event.
  destruct (existsb (String.eqb (status e)) ["DECLINED"; "TENTATIVE"]) eqn:Hs.
  { destruct (status_label _ Hs) as [-> | ->]; cbn; tauto. }
  repeat match goal with
         | |- In (if ?c then _ else _) _ => destruct c
         end; cbn; tauto.
Qed.

End ReportFacts.

(** X7.  Every label [categorize_event] can return is one of the fourteen
    categories that [print_analysis] prints, so no event falls outside the
    printed breakdown. *)
Theorem categorize_event_in_report (event : AnalyzeCalendar.CalendarEvent) :
  In (AnalyzeCalendar.categorize_event event) Report.category_order.
Proof. apply categorize_event_listed. Qed.

(** X8.  The counts of the category entries that [print_analysis] prints add
    up to the total number of events that [analyze_calendar] reports. *)
Theorem printed_counts_total (events : list AnalyzeCalendar.CalendarEvent) :
  let stats := snd (AnalyzeCalendar.analyze_calendar events) in
  list_sum (List.map (Report.entry_count stats) Report.category_order)
  = AnalyzeCalendar.total_events stats.
Proof.
  cbn zeta.
  rewrite (List.map_ext _ (fun l => length (Aggregate.members l events)))
    by (intros l; apply entry_count_members).
  rewrite members_counts by apply category_order_nodup.
  unfold Report.labelled_in. rewrite filter_all; [reflexivity|].
  intros e. unfold Report.has_label. apply existsb_exists.
  exists (AnalyzeCalendar.categorize_event e). split.
  - apply categorize_event_listed.
  - apply String.eqb_refl.
Qed.

(** X9.  Whenever a category has an entry, its sample events are built from
    the first five events of that category in input order, so there are
    five of them or as many as the category has events. *)
Theorem sample_events_first_five
    (events : list AnalyzeCalendar.CalendarEvent) (label : string)
    (c : AnalyzeCalendar.category_stats) :
  AnalyzeCalendar.by_category (snd (AnalyzeCalendar.analyze_calendar events))
    !! label = Some c ->
  AnalyzeCalendar.sample_events c
  = List.map AnalyzeCalendar.make_sample
      (List.firstn 5 (Aggregate.members label events))
  /\ length (AnalyzeCalendar.sample_events c)
     = Nat.min 5 (AnalyzeCalendar.count c).
Proof.
  rewrite by_category_lookup.
  destruct (Aggregate.members label events) as [|e l] eqn:Hm; [discriminate|].
  intros [= <-]. split; [reflexivity|].
  unfold AnalyzeCalendar.make_category_stats.
  cbn [AnalyzeCalendar.sample_events AnalyzeCalendar.count].
  rewrite length_map, length_firstn. reflexivity.
Qed.

Lemma sample_events_first_five_witness :
  exists c,
    AnalyzeCalendar.by_category
      (snd (AnalyzeCalendar.analyze_calendar (List.repeat Aggregate.twenty_minutes 7)))
      !! "uncategorized" = Some c
    /\ length (AnalyzeCalendar.sample_events c) = 5
    /\ AnalyzeCalendar.count c = 7.
Proof.
  destruct (AnalyzeCalendar.by_category
              (snd (AnalyzeCalendar.analyze_calendar
                      (List.repeat Aggregate.twenty_minutes 7)))
              !! "uncategorized") as [c|] eqn:Hc.
  - exists c. split; [reflexivity|].
    pose proof (sample_events_first_five _ _ _ Hc) as [Hs Hl].
    assert (Hn : AnalyzeCalendar.count c = 7).
    { revert Hc. vm_compute. intros [= <-]. reflexivity. }
    split; [|exact Hn]. rewrite Hl, Hn. reflexivity.
  - exfalso. revert Hc. vm_compute. discriminate.
Defined.

(** X10.  The work-relevance summary of [print_analysis] divides by the
    number of events and by the total hours without a guard: when every
    event has duration zero, and in particular when there is no event, it
    raises ZeroDivisionError. *)
Theorem summary_division_by_zero (events : list AnalyzeCalendar.CalendarEvent) :
  List.Forall (fun e => (AnalyzeCalendar.get_duration_hours e == 0)%Q) events ->
  Report.work_relevance_summary (snd (AnalyzeCalendar.analyze_calendar events))
  = Raise ZeroDivisionError.
Proof.
  intros Hz.
  set (s := snd (AnalyzeCalendar.analyze_calendar events)).
  assert (Ht : Qeq_bool (Report.total_hours_of s) 0 = true).
  { apply Qeq_bool_iff. unfold Report.total_hours_of.
    apply sum_items_hours_zero. intros k v Hl.
    eapply hours_lookup_zero; [exact Hz|exact Hl]. }
  assert (Hn : AnalyzeCalendar.total_events s = length events) by reflexivity.
  clearbody s. unfold Report.work_relevance_summary. rewrite Hn.
  destruct events as [|e events]; [reflexivity|].
  unfold Report.percent_of_events at 1. cbn [length bind].
  unfold Report.percent_of_hours at 1. rewrite Ht. reflexivity.
Qed.

Lemma summary_division_by_zero_witness :
  Report.work_relevance_summary
    (snd (AnalyzeCalendar.analyze_calendar [AnalyzeCalendar.CalendarEvent_init]))
  = Raise ZeroDivisionError.
Proof.
  apply (summary_division_by_zero [AnalyzeCalendar.CalendarEvent_init]).
  repeat constructor.
Defined.

(** X11.  In the work-relevance summary of [print_analysis] the
    non-relevant count is the number of events whose label is one of the six
    non-relevant categories and the work-relevant count is the number of all
    other events; the two add up to the total. *)
Theorem summary_counts_partition (events : list AnalyzeCalendar.CalendarEvent) :
  let stats := snd (AnalyzeCalendar.analyze_calendar events) in
  Report.non_relevant_count stats
  = length (Report.labelled_in Report.non_relevant events)
  /\ Report.work_relevant_count stats
     = Z.of_nat (length (Report.labelled_outside Report.non_relevant events)).
Proof.
  cbn zeta.
  assert (Hn : Report.non_relevant_count
                 (snd (AnalyzeCalendar.analyze_calendar events))
               = length (Report.labelled_in Report.non_relevant events)).
  { unfold Report.non_relevant_count.
    rewrite (List.map_ext _ (fun l => length (Aggregate.members l events)))
      by (intros l; apply entry_count_members).
    apply members_counts, non_relevant_nodup. }
  split; [exact Hn|].
  unfold Report.work_relevant_count. rewrite Hn.
  cbn [AnalyzeCalendar.total_events AnalyzeCalendar.analyze_calendar snd].
  pose proof (filter_length_split (Report.has_label Report.non_relevant) events).
  unfold Report.labelled_in, Report.labelled_outside. lia.
Qed.

(** ** The summary of [rerun_analysis_improved.py] *)

Section DictSums.

Import Aggregate Dict.

Lemma list_sum_perm (l l' : list nat) : l ≡ₚ l' -> list_sum l = list_sum l'.
Proof.
  induction 1 as [|x l l' _ IH|x y l|l l' l'' _ IH1 _ IH2].
  - reflexivity.
  - rewrite !list_sum_cons, IH. reflexivity.
  - rewrite !list_sum_cons. lia.
  - now rewrite IH1.
Qed.

Lemma sum_hours_perm (l l' : list Q) : l ≡ₚ l' -> (sum_hours l == sum_hours l')%Q.
Proof.
  induction 1 as [|x l l' _ IH|x y l|l l' l'' _ IH1 _ IH2].
  - reflexivity.
  - rewrite !sum_hours_cons, IH. reflexivity.
  - rewrite !sum_hours_cons. ring.
  - now rewrite IH1.
Qed.

Lemma sum_items_insert {A} (f : string -> A -> nat) (d : gmap string A)
    (k : string) (v : A) :
  sum_items f (<[k := v]> d) + from_option (f k) 0 (d !! k)
  = f k v + sum_items f d.
Proof.
  unfold sum_items. destruct (d !! k) as [v0|] eqn:Hk; cbn [from_option].
  - rewrite <- (insert_delete_eq d k v).
    rewrite (list_sum_perm _ _
               (Permutation_map _
                  (map_to_list_insert (delete k d) k v (lookup_delete_eq d k)))).
    rewrite <- (list_sum_perm _ _
                  (Permutation_map _ (map_to_list_delete d k v0 Hk))).
    cbn [List.map fst snd]. rewrite !list_sum_cons. lia.
  - rewrite (list_sum_perm _ _
               (Permutation_map _ (map_to_list_insert d k v Hk))).
    cbn [List.map fst snd]. rewrite !list_sum_cons. lia.
Qed.

Lemma sum_items_hours_insert {A} (f : string -> A -> Q) (d : gmap string A)
    (k : string) (v : A) :
  (sum_items_hours f (<[k := v]> d) + from_option (f k) 0 (d !! k)
   == f k v + sum_items_hours f d)%Q.
Proof.
  unfold sum_items_hours. destruct (d !! k) as [v0|] eqn:Hk; cbn [from_option].
  - rewrite <- (insert_delete_eq d k v).
    rewrite (sum_hours_perm _ _
               (Permutation_map _
                  (map_to_list_insert (delete k d) k v (lookup_delete_eq d k)))).
    rewrite <- (sum_hours_perm _ _
                  (Permutation_map _ (map_to_list_delete d k v0 Hk))).
    cbn [List.map fst snd]. rewrite !sum_hours_cons. ring.
  - rewrite (sum_hours_perm _ _
               (Permutation_map _ (map_to_list_insert d k v Hk))).
    cbn [List.map fst snd]. rewrite !sum_hours_cons. ring.
Qed.

Lemma sum_items_empty {A} (f : string -> A -> nat) : sum_items f (∅ : gmap string A) = 0.
Proof. unfold sum_items. now rewrite map_to_list_empty. Qed.

Lemma sum_items_hours_empty {A} (f : string -> A -> Q) :
  sum_items_hours f (∅ : gmap string A) = 0%Q.
Proof. unfold sum_items_hours. now rewrite map_to_list_empty. Qed.

Lemma sum_hours_app (a b : list Q) :
  (sum_hours (a ++ b) == sum_hours a + sum_hours b)%Q.
Proof.
  induction a as [|x a IH]; cbn [app].
  - cbn. ring.
  - rewrite !sum_hours_cons, IH. ring.
Qed.

End DictSums.

Section RerunMainFacts.

Import Aggregate Dict RerunMain.

Lemma members_cons' (label : string) (e : Rerun.CalendarEvent)
    (events : list Rerun.CalendarEvent) :
  members label (e :: events)
  = if String.eqb (Rerun.categorize_event_final e) label
    then e :: members label events else members label events.
Proof. reflexivity. Qed.

Lemma categorize_lookup (label : string) (events : list Rerun.CalendarEvent)
    (d : gmap string (list Rerun.CalendarEvent)) :
  fold_left categorize_one events d !! label
  = match d !! label, members label events with
    | None, [] => None
    | _, _ => Some (default [] (d !! label) ++ members label events)
    end.
Proof.
  revert d. induction events as [|e events IH]; intros d.
  - cbn. destruct (d !! label); cbn; [now rewrite app_nil_r | reflexivity].
  - cbn [fold_left]. rewrite IH, members_cons'. unfold categorize_one, append_to.
    destruct (String.eqb_spec (Rerun.categorize_event_final e) label) as [E|Hne].
    + rewrite E, lookup_insert_eq. cbn [from_option]. unfold id.
      rewrite <- List.app_assoc. cbn [app].
      destruct (d !! label); reflexivity.
    + rewrite lookup_insert_ne by exact Hne. reflexivity.
Qed.

Lemma categorize_all_lookup (label : string) (events : list Rerun.CalendarEvent) :
  categorize_all events !! label
  = match members label events with
    | [] => None
    | _ => Some (members label events)
    end.
Proof.
  unfold categorize_all. rewrite categorize_lookup, lookup_empty.
  destruct (members label events); reflexivity.
Qed.

Lemma hours_of_app (a b : list Rerun.CalendarEvent) :
  (hours_of (a ++ b) == hours_of a + hours_of b)%Q.
Proof. unfold hours_of. rewrite List.map_app. apply sum_hours_app. Qed.

Lemma categorize_count (events : list Rerun.CalendarEvent) (d : gmap string (list Rerun.CalendarEvent)) :
  sum_items (fun _ l => length l) (fold_left categorize_one events d)
  = sum_items (fun _ l => length l) d + length events.
Proof.
  revert d. induction events as [|e events IH]; intros d; cbn [fold_left length].
  - lia.
  - rewrite IH. unfold categorize_one, append_to.
    pose proof (sum_items_insert (fun _ (l : list Rerun.CalendarEvent) => length l)
                  d (Rerun.categorize_event_final e)
                  (default [] (d !! Rerun.categorize_event_final e) ++ [e])) as H.
    cbn beta in H. rewrite length_app in H. cbn [length] in H.
    destruct (d !! Rerun.categorize_event_final e); cbn [from_option] in H |- *;
      cbn [length] in H; unfold id in *; lia.
Qed.

Lemma categorize_hours (events : list Rerun.CalendarEvent) (d : gmap string (list Rerun.CalendarEvent)) :
  (sum_items_hours (fun _ l => hours_of l) (fold_left categorize_one events d)
   == sum_items_hours (fun _ l => hours_of l) d + hours_of events)%Q.
Proof.
  revert d. induction events as [|e events IH]; intros d; cbn [fold_left].
  - unfold hours_of at 3. cbn. ring.
  - rewrite IH. unfold categorize_one, append_to.
    pose proof (sum_items_hours_insert
                  (fun _ (l : list Rerun.CalendarEvent) => hours_of l)
                  d (Rerun.categorize_event_final e)
                  (default [] (d !! Rerun.categorize_event_final e) ++ [e])) as H.
    cbn beta in H. rewrite hours_of_app in H.
    assert (He : (hours_of (e :: events)
                  == hours_of [e] + hours_of events)%Q).
    { change (e :: events) with ([e] ++ events). apply hours_of_app. }
    rewrite He.
    destruct (d !! Rerun.categorize_event_final e); cbn [from_option] in H |- *.
    + unfold id in *. lra.
    + assert (H0 : (hours_of [] == 0)%Q) by reflexivity. lra.
Qed.

Lemma getitem_present (d : gmap string (list Rerun.CalendarEvent)) (k : string) (v : list Rerun.CalendarEvent) :
  d !! k = Some v -> fst (getitem k d) = v.
Proof. unfold getitem. now intros ->. Qed.

(** A sum over the selected keys is a sum over the items. *)
Lemma selected_count (p : string -> bool) (d : gmap string (list Rerun.CalendarEvent))
    (items : list (string * list Rerun.CalendarEvent)) :
  (forall k v, In (k, v) items -> d !! k = Some v) ->
  list_sum (List.map (fun cat => length (fst (getitem cat d)))
              (List.filter p (List.map fst items)))
  = list_sum (List.map (fun kv => if p (fst kv) then length (snd kv) else 0) items).
Proof.
  induction items as [|[k v] items IH]; intros H; [reflexivity|].
  cbn [List.map List.filter fst snd]. rewrite list_sum_cons.
  rewrite <- IH by (intros k' v' Hin; apply H; now right).
  destruct (p k); [|reflexivity].
  cbn [List.map]. rewrite list_sum_cons.
  rewrite (getitem_present d k v) by (apply H; now left). reflexivity.
Qed.

Lemma selected_hours (p : string -> bool) (d : gmap string (list Rerun.CalendarEvent))
    (items : list (string * list Rerun.CalendarEvent)) :
  (forall k v, In (k, v) items -> d !! k = Some v) ->
  (sum_hours (List.map (fun cat => hours_of (fst (getitem cat d)))
                (List.filter p (List.map fst items)))
   == sum_hours (List.map (fun kv => if p (fst kv) then hours_of (snd kv) else 0)
                   items))%Q.
Proof.
  induction items as [|[k v] items IH]; intros H; [reflexivity|].
  cbn [List.map List.filter fst snd]. rewrite sum_hours_cons.
  rewrite <- IH by (intros k' v' Hin; apply H; now right).
  destruct (p k); [|ring].
  cbn [List.map]. rewrite sum_hours_cons.
  rewrite (getitem_present d k v) by (apply H; now left). reflexivity.
Qed.

Lemma items_lookup (d : gmap string (list Rerun.CalendarEvent)) (k : string) (v : list Rerun.CalendarEvent) :
  In (k, v) (map_to_list d) -> d !! k = Some v.
Proof. intros H. apply elem_of_map_to_list, list_elem_of_In, H. Qed.

Lemma split_count {A} (p : A -> bool) (g : A -> nat) (l : list A) :
  list_sum (List.map (fun a => if p a then g a else 0) l)
  + list_sum (List.map (fun a => if negb (p a) then g a else 0) l)
  = list_sum (List.map g l).
Proof.
  induction l as [|a l IH]; [reflexivity|].
  cbn [List.map]. rewrite !list_sum_cons. destruct (p a); cbn [negb]; lia.
Qed.

Lemma split_hours {A} (p : A -> bool) (g : A -> Q) (l : list A) :
  (sum_hours (List.map (fun a => if p a then g a else 0) l)
   + sum_hours (List.map (fun a => if negb (p a) then g a else 0) l)
   == sum_hours (List.map g l))%Q.
Proof.
  induction l as [|a l IH]; [reflexivity|].
  cbn [List.map]. rewrite !sum_hours_cons. destruct (p a); cbn [negb]; lra.
Qed.

Lemma events_partition (events : list Rerun.CalendarEvent) :
  work_events (categorize_all events) + excluded_events (categorize_all events)
  = length events.
Proof.
  unfold work_events, excluded_events, work_categories, excluded_categories, keys.
  rewrite !selected_count by apply items_lookup.
  rewrite (split_count (fun kv => Rerun.is_work_relevant_final (fst kv))
             (fun kv => length (snd kv))).
  pose proof (categorize_count events ∅) as H.
  rewrite sum_items_empty in H. exact H.
Qed.

Lemma hours_partition (events : list Rerun.CalendarEvent) :
  (work_hours (categorize_all events) + excluded_hours (categorize_all events)
   == hours_of events)%Q.
Proof.
  unfold work_hours, excluded_hours, work_categories, excluded_categories, keys.
  rewrite !selected_hours by apply items_lookup.
  rewrite (split_hours (fun kv => Rerun.is_work_relevant_final (fst kv))
             (fun kv => hours_of (snd kv))).
  pose proof (categorize_hours events ∅) as H.
  rewrite sum_items_hours_empty in H. rewrite Qplus_0_l in H. exact H.
Qed.

Lemma main_ok (events : list Rerun.CalendarEvent) :
  events <> [] ->
  main events
  = Ok {| output_summary :=
            {| total_events := length events;
               work_relevant_events := work_events (categorize_all events);
               work_relevant_hours := round2 (work_hours (categorize_all events));
               excluded_events_total := excluded_events (categorize_all events);
               excluded_hours_total := round2 (excluded_hours (categorize_all events)) |};
          by_category :=
            map_imap (fun cat cat_events => Some (make_entry cat cat_events))
              (snd (getitem "uncategorized"
                      (snd (getitem "non_meetings_excluded"
                              (categorize_all events))))) |}.
Proof.
  intros Hne. unfold main. cbn zeta.
  destruct events as [|e events]; [congruence|]. reflexivity.
Qed.

Lemma getitem_lookup (k label : string) (d : gmap string (list Rerun.CalendarEvent)) :
  snd (getitem k d) !! label
  = if String.eqb k label
    then Some (default [] (d !! label)) else d !! label.
Proof.
  unfold getitem. destruct (String.eqb_spec k label) as [<-|Hne].
  - destruct (d !! k) eqn:Hk; cbn [snd].
    + now rewrite Hk.
    + now rewrite lookup_insert_eq.
  - destruct (d !! k); cbn [snd]; [reflexivity|].
    now rewrite lookup_insert_ne.
Qed.

End RerunMainFacts.

(** X12.  [main] of the improved analysis raises ZeroDivisionError exactly
    when the calendar has no event: the percentages of the table are guarded
    against an empty calendar, those of the work-relevant versus excluded
    block are not. *)
Theorem main_raises_iff_empty (events : list Rerun.CalendarEvent) :
  RerunMain.main events = Raise ZeroDivisionError <-> events = [].
Proof.
  split.
  - intros H. destruct events as [|e events]; [reflexivity|].
    rewrite main_ok in H by discriminate. discriminate H.
  - intros ->. reflexivity.
Qed.

(** X13.  In the exported summary the work-relevant and the excluded event
    counts add up to the total number of events, which is the number of
    parsed events. *)
Theorem summary_events_partition
    (events : list Rerun.CalendarEvent) (out : RerunMain.output) :
  RerunMain.main events = Ok out ->
  let s := RerunMain.output_summary out in
  RerunMain.total_events s = length events
  /\ (RerunMain.work_relevant_events s + RerunMain.excluded_events_total s
      = RerunMain.total_events s)%nat.
Proof.
  intros H. destruct events as [|e events]; [discriminate H|].
  rewrite main_ok in H by discriminate. injection H as <-.
  cbn [RerunMain.output_summary RerunMain.total_events
       RerunMain.work_relevant_events RerunMain.excluded_events_total].
  split; [reflexivity|]. apply events_partition.
Qed.

Lemma summary_events_partition_witness :
  exists out,
    RerunMain.main [RerunMain.no_attendees; RerunMain.with_attendee] = Ok out
    /\ RerunMain.total_events (RerunMain.output_summary out) = 2%nat
    /\ (RerunMain.work_relevant_events (RerunMain.output_summary out)
        + RerunMain.excluded_events_total (RerunMain.output_summary out)
        = RerunMain.total_events (RerunMain.output_summary out))%nat.
Proof.
  eexists. split.
  - apply main_ok. discriminate.
  - apply (summary_events_partition
             [RerunMain.no_attendees; RerunMain.with_attendee]).
    apply main_ok. discriminate.
Defined.

(** X14.  Before rounding, the work-relevant and the excluded hours that
    [main] computes add up to the sum of the durations of all events. *)
Theorem summary_hours_partition (events : list Rerun.CalendarEvent) :
  let categorized := RerunMain.categorize_all events in
  (RerunMain.work_hours categorized + RerunMain.excluded_hours categorized
   == RerunMain.hours_of events)%Q.
Proof. cbn zeta. apply hours_partition. Qed.

(** X15.  In the exported [by_category] every entry counts the events that
    received its label, and a label has an entry exactly when some event
    received it or it is one of the two labels that the key-changes block
    subscripts, which are exported even with no event. *)
Theorem exported_categories
    (events : list Rerun.CalendarEvent) (out : RerunMain.output) (label : string) :
  RerunMain.main events = Ok out ->
  match RerunMain.by_category out !! label with
  | Some c =>
      RerunMain.count c = length (RerunMain.members label events)
      /\ RerunMain.is_work_relevant c = Rerun.is_work_relevant_final label
      /\ (RerunMain.members label events = [] ->
          label = "non_meetings_excluded" \/ label = "uncategorized")
  | None =>
      RerunMain.members label events = []
      /\ label <> "non_meetings_excluded" /\ label <> "uncategorized"
  end.
Proof.
  intros H. destruct events as [|e0 events0] eqn:Hev; [discriminate H|].
  rewrite <- Hev in *. rewrite main_ok in H by (rewrite Hev; discriminate).
  injection H as <-. cbn [RerunMain.by_category].
  rewrite map_lookup_imap, !getitem_lookup, categorize_all_lookup.
  destruct (String.eqb_spec "uncategorized" label) as [<-|Hu].
  - cbn [String.eqb Ascii.eqb Bool.eqb].
    destruct (RerunMain.members "uncategorized" events) eqn:Hm;
      cbn; (split; [reflexivity|split; [reflexivity|]]); intros _; now right.
  - destruct (String.eqb_spec "non_meetings_excluded" label) as [<-|Hn].
    + destruct (RerunMain.members "non_meetings_excluded" events) eqn:Hm;
        cbn; (split; [reflexivity|split; [reflexivity|]]); intros _; now left.
    + destruct (RerunMain.members label events) eqn:Hm; cbn.
      * split; [reflexivity|]. split; congruence.
      * split; [reflexivity|]. split; [reflexivity|]. discriminate.
Qed.

Lemma exported_categories_witness :
  exists out c,
    RerunMain.main [RerunMain.with_attendee] = Ok out
    /\ RerunMain.by_category out !! "non_meetings_excluded" = Some c
    /\ RerunMain.count c = 0%nat.
Proof.
  pose proof (exported_categories [RerunMain.with_attendee] _
                "non_meetings_excluded"
                (main_ok [RerunMain.with_attendee] ltac:(discriminate))) as H.
  eexists.
  destruct (RerunMain.by_category _ !! "non_meetings_excluded") as [c|] eqn:Hc.
  - exists c. split; [apply main_ok; discriminate|]. split; [exact Hc|].
    destruct H as [H _]. rewrite H. vm_compute. reflexivity.
  - exfalso. destruct H as [_ [H _]]. apply H. reflexivity.
Defined.

(** ** What a work-relevant label requires *)

(** X16.  The rules that precede the first work rule all give excluded
    labels, so an event whose final label is work-relevant has at least one
    attendee, is neither declined nor tentative, is not marked out of
    office, and its lowered summary holds no time-off keyword and no
    focus friday. *)
Theorem work_relevant_requires (event : Rerun.CalendarEvent) :
  Rerun.is_work_relevant_final (Rerun.categorize_event_final event) = true ->
  Rerun.is_actual_meeting event = true
  /\ existsb (String.eqb (Rerun.status event)) ["DECLINED"; "TENTATIVE"] = false
  /\ Rerun.busy_status event <> "OOF"
  /\ Py.any_in RerunMain.time_off_keywords (Py.lower (Rerun.summary event)) = false
  /\ Py.contains "focus friday" (Py.lower (Rerun.summary event)) = false.
Proof.
  unfold Rerun.categorize_event_final, RerunMain.time_off_keywords.
  destruct (Rerun.is_actual_meeting event); cbn [negb];
    [|intros H; discriminate H].
  destruct (existsb (String.eqb (Rerun.status event)) ["DECLINED"; "TENTATIVE"])
    eqn:Hs.
  { destruct (status_label _ Hs) as [-> | ->]; intros H; discriminate H. }
  destruct (String.eqb_spec (Rerun.busy_status event) "OOF") as [Ho|Ho];
    [intros H; discriminate H|].
  destruct (Py.any_in _ (Py.lower (Rerun.summary event))) eqn:Ht;
    [intros H; discriminate H|].
  destruct (Py.contains "focus friday" (Py.lower (Rerun.summary event))) eqn:Hf;
    [intros H; discriminate H|].
  intros _. repeat split; try reflexivity. exact Ho.
Qed.

Lemma work_relevant_requires_witness :
  Rerun.is_actual_meeting RerunMain.with_attendee = true
  /\ Rerun.busy_status RerunMain.with_attendee <> "OOF".
Proof.
  pose proof (work_relevant_requires RerunMain.with_attendee eq_refl)
    as [Ha [_ [Ho _]]].
  split; [exact Ha | exact Ho].
Defined.

(** ** Stakeholder records *)

Section RecordFacts.

Import Stakeholder Records.

Lemma stakeholder_init_consistent : consistent stakeholder_init.
Proof.
  unfold consistent, type_total. cbn [stakeholder_init count as_organizer
    as_attendee meeting_types months_active].
  split; [reflexivity|]. split; [apply sum_items_empty|].
  rewrite size_empty. lia.
Qed.

Lemma size_add (X : gset string) (x : string) : size (X ∪ {[x]}) <= S (size X).
Proof.
  rewrite size_union_alt.
  assert (H : size ({[x]} ∖ X) <= size ({[x]} : gset string)).
  { apply subseteq_size. intros y Hy. apply elem_of_difference in Hy. tauto. }
  rewrite size_singleton in H. lia.
Qed.

Lemma track_attendee_populated (e : CalendarEvent)
    (m : gmap string stakeholder) (a : attendee_info) :
  (forall k r, m !! k = Some r -> populated r) ->
  forall k r, track_attendee e m a !! k = Some r -> populated r.
Proof.
  intros Hm k r. unfold track_attendee.
  destruct (is_self a); [apply Hm|].
  destruct (String.eqb_spec (stakeholder_key a) k) as [->|Hne].
  2:{ rewrite lookup_insert_ne by exact Hne. apply Hm. }
  rewrite lookup_insert_eq. intros [= <-].
  assert (Hc : consistent (default stakeholder_init (m !! k))).
  { destruct (m !! k) as [r0|] eqn:Hk; cbn [from_option].
    - apply (Hm k r0 Hk).
    - apply stakeholder_init_consistent. }
  destruct Hc as (Hc1 & Hc2 & Hc3).
  set (r0 := default stakeholder_init (m !! k)) in *.
  unfold populated, consistent, type_total.
  cbn [count as_organizer as_attendee meeting_types months_active companies].
  split; [split; [|split]|split].
  - destruct (String.eqb (organizer e) viewer_email); lia.
  - pose proof (sum_items_insert (fun _ (n : nat) => n) (meeting_types r0)
                  (categorize_meeting_type e)
                  (S (default 0 (meeting_types r0 !! categorize_meeting_type e))))
      as H.
    cbn beta in H. unfold type_total in Hc2.
    destruct (meeting_types r0 !! categorize_meeting_type e);
      cbn [from_option] in H |- *; unfold id in *; lia.
  - destruct (Py.truthy (get_month e)); [|lia].
    pose proof (size_add (months_active r0) (get_month e)). lia.
  - lia.
  - set_solver.
Qed.

Lemma track_attendees_populated (e : CalendarEvent)
    (people : list attendee_info) (m : gmap string stakeholder) :
  (forall k r, m !! k = Some r -> populated r) ->
  forall k r, fold_left (track_attendee e) people m !! k = Some r -> populated r.
Proof.
  revert m. induction people as [|a people IH]; intros m Hm; [exact Hm|].
  cbn [fold_left]. apply IH. now apply track_attendee_populated.
Qed.

Lemma track_events_populated (work : list CalendarEvent)
    (acc : gmap string stakeholder * gmap string organizer_record) :
  (forall k r, fst acc !! k = Some r -> populated r) ->
  forall k r, fst (fold_left track_event work acc) !! k = Some r -> populated r.
Proof.
  revert acc. induction work as [|e work IH]; intros acc Hm; [exact Hm|].
  cbn [fold_left]. apply IH. unfold track_event. cbn [fst].
  now apply track_attendees_populated.
Qed.

End RecordFacts.

(** X17.  Every stakeholder record that [analyze_stakeholders] returns has
    been updated at least once: its count is positive and is the sum of its
    organizer and attendee counters and also the sum of its meeting-type
    counters, it names at least one company, and it has no more active
    months than meetings. *)
Theorem stakeholder_record_populated
    (events : list Stakeholder.CalendarEvent) (key : string)
    (r : Stakeholder.stakeholder) :
  Stakeholder.stakeholders (Stakeholder.analyze_stakeholders events) !! key
  = Some r ->
  Records.populated r.
Proof.
  unfold Stakeholder.analyze_stakeholders. cbn [Stakeholder.stakeholders].
  apply track_events_populated. cbn [fst]. intros k r0 H.
  rewrite lookup_empty in H. discriminate H.
Qed.

Lemma stakeholder_record_populated_witness :
  exists r,
    Stakeholder.stakeholders
      (Stakeholder.analyze_stakeholders [StakeholderSpec.review]) !! "Jane Doe"
    = Some r
    /\ Records.populated r.
Proof.
  destruct (Stakeholder.stakeholders
              (Stakeholder.analyze_stakeholders [StakeholderSpec.review])
              !! "Jane Doe") as [r|] eqn:Hr.
  - exists r. split; [reflexivity|].
    apply (stakeholder_record_populated [StakeholderSpec.review] "Jane Doe" r Hr).
  - exfalso. revert Hr. vm_compute. discriminate.
Defined.

(** ** The views of [analyze_time_patterns] *)

Section TimePatternFacts.

Import Stakeholder TimePatterns Dict.

Lemma add_to_bucket_count (k : string) (d : Q) (m : gmap string bucket) :
  sum_items (fun _ b => b_count b) (add_to_bucket k d m)
  = S (sum_items (fun _ b => b_count b) m).
Proof.
  unfold add_to_bucket.
  pose proof (sum_items_insert (fun _ b => b_count b) m k
                {| b_count := S (b_count (default bucket_init (m !! k)));
                   b_hours := (b_hours (default bucket_init (m !! k)) + d)%Q |})
    as H.
  cbn beta in H. cbn [b_count] in H.
  destruct (m !! k); cbn [from_option] in H |- *; unfold id in *;
    cbn [bucket_init b_count] in *; lia.
Qed.

Lemma add_to_bucket_hours (k : string) (d : Q) (m : gmap string bucket) :
  (sum_items_hours (fun _ b => b_hours b) (add_to_bucket k d m)
   == sum_items_hours (fun _ b => b_hours b) m + d)%Q.
Proof.
  unfold add_to_bucket.
  pose proof (sum_items_hours_insert (fun _ b => b_hours b) m k
                {| b_count := S (b_count (default bucket_init (m !! k)));
                   b_hours := (b_hours (default bucket_init (m !! k)) + d)%Q |})
    as H.
  cbn beta in H. cbn [b_hours] in H.
  destruct (m !! k); cbn [from_option] in H |- *; unfold id in *;
    cbn [bucket_init b_hours] in *; lra.
Qed.

Lemma hours_of_cons (e : CalendarEvent) (events : list CalendarEvent) :
  hours_of (e :: events) = (get_duration_hours e + hours_of events)%Q.
Proof. reflexivity. Qed.

Lemma view_fold (key : CalendarEvent -> string) (work : list CalendarEvent)
    (m : gmap string bucket) :
  let m' :=
    fold_left
      (fun m event => add_to_bucket (key event) (get_duration_hours event) m)
      work m in
  sum_items (fun _ b => b_count b) m'
  = sum_items (fun _ b => b_count b) m + length work
  /\ (sum_items_hours (fun _ b => b_hours b) m'
      == sum_items_hours (fun _ b => b_hours b) m + hours_of work)%Q.
Proof.
  cbn zeta. revert m. induction work as [|e work IH]; intros m.
  - cbn [fold_left length]. split; [lia|]. unfold hours_of. cbn. ring.
  - cbn [fold_left length]. destruct (IH (add_to_bucket (key e)
                                            (get_duration_hours e) m)) as [Hc Hh].
    rewrite Hc, Hh, add_to_bucket_count, add_to_bucket_hours, hours_of_cons.
    split; [lia | ring].
Qed.

Lemma by_month_fold (work : list CalendarEvent) (m : gmap string bucket) :
  let m' :=
    fold_left
      (fun m event =>
         if Py.truthy (get_month event)
         then add_to_bucket (get_month event) (get_duration_hours event) m
         else m)
      work m in
  sum_items (fun _ b => b_count b) m'
  = sum_items (fun _ b => b_count b) m
    + length (List.filter (fun e => Py.truthy (get_month e)) work)
  /\ (sum_items_hours (fun _ b => b_hours b) m'
      == sum_items_hours (fun _ b => b_hours b) m
         + hours_of (List.filter (fun e => Py.truthy (get_month e)) work))%Q.
Proof.
  cbn zeta. revert m. induction work as [|e work IH]; intros m.
  - cbn [fold_left List.filter length]. split; [lia|]. unfold hours_of. cbn. ring.
  - cbn [fold_left List.filter]. destruct (Py.truthy (get_month e)).
    + destruct (IH (add_to_bucket (get_month e) (get_duration_hours e) m))
        as [Hc Hh].
      rewrite Hc, Hh, add_to_bucket_count, add_to_bucket_hours, hours_of_cons.
      cbn [length]. split; [lia | ring].
    + apply IH.
Qed.

Lemma company_shares_total (d : Q) (n : nat) (cs : list string)
    (m : gmap string bucket) :
  n <> 0%nat ->
  exists m',
    fold_left (add_company_share d n) cs (Ok m) = Ok m'
    /\ sum_items (fun _ b => b_count b) m'
       = sum_items (fun _ b => b_count b) m + length cs
    /\ (sum_items_hours (fun _ b => b_hours b) m'
        == sum_items_hours (fun _ b => b_hours b) m
           + inject_Z (Z.of_nat (length cs)) * (d / inject_Z (Z.of_nat n)))%Q.
Proof.
  intros Hn. revert m. induction cs as [|c cs IH]; intros m.
  - exists m. cbn [fold_left length]. split; [reflexivity|].
    split; [lia|]. cbn. ring.
  - cbn [fold_left]. rewrite (add_company_share_ok d n m c Hn).
    change (<[c := {| b_count := S (b_count (default bucket_init (m !! c)));
                      b_hours := (b_hours (default bucket_init (m !! c))
                                  + d / inject_Z (Z.of_nat n))%Q |}]> m)
      with (add_to_bucket c (d / inject_Z (Z.of_nat n)) m).
    destruct (IH (add_to_bucket c (d / inject_Z (Z.of_nat n)) m))
      as (m' & Hrun & Hc & Hh).
    exists m'. split; [exact Hrun|].
    rewrite Hc, Hh, add_to_bucket_count, add_to_bucket_hours.
    cbn [length]. split; [lia|].
    rewrite Nat2Z.inj_succ, <- Z.add_1_r, inject_Z_plus. ring.
Qed.

Lemma by_company_event_total (m : gmap string bucket) (e : CalendarEvent) :
  attendees e <> [] ->
  exists m',
    by_company_event (Ok m) e = Ok m'
    /\ sum_items (fun _ b => b_count b) m'
       = sum_items (fun _ b => b_count b) m + size (event_companies e)
    /\ (sum_items_hours (fun _ b => b_hours b) m'
        == sum_items_hours (fun _ b => b_hours b) m + get_duration_hours e)%Q.
Proof.
  intros Ha. pose proof (event_companies_size e Ha) as Hn.
  unfold by_company_event.
  destruct (company_shares_total (get_duration_hours e)
              (size (event_companies e)) (elements (event_companies e)) m Hn)
    as (m' & Hrun & Hc & Hh).
  exists m'. split; [exact Hrun|]. split; [exact Hc|].
  rewrite Hh.
  change (length (elements (event_companies e))) with (size (event_companies e)).
  rewrite whole_from_shares by exact Hn. reflexivity.
Qed.

Lemma by_company_fold (work : list CalendarEvent) (m : gmap string bucket) :
  List.Forall (fun e => is_work_relevant e = true) work ->
  exists m',
    fold_left by_company_event work (Ok m) = Ok m'
    /\ sum_items (fun _ b => b_count b) m'
       = sum_items (fun _ b => b_count b) m + company_slots work
    /\ (sum_items_hours (fun _ b => b_hours b) m'
        == sum_items_hours (fun _ b => b_hours b) m + hours_of work)%Q.
Proof.
  intros Hw. revert m. induction Hw as [|e work He _ IH]; intros m.
  - exists m. cbn [fold_left]. split; [reflexivity|].
    unfold company_slots, hours_of. cbn. split; [lia | ring].
  - cbn [fold_left].
    destruct (by_company_event_total m e (work_relevant_attendees e He))
      as (m1 & -> & Hc1 & Hh1).
    destruct (IH m1) as (m' & Hrun & Hc & Hh).
    exists m'. split; [exact Hrun|].
    rewrite Hc, Hh, Hc1, Hh1, hours_of_cons. unfold company_slots.
    cbn [List.map]. rewrite list_sum_cons. split; [lia | ring].
Qed.

Lemma work_relevant_all (events : list CalendarEvent) :
  List.Forall (fun e => is_work_relevant e = true)
    (List.filter is_work_relevant events).
Proof.
  apply List.Forall_forall. intros e He.
  apply List.filter_In in He. tauto.
Qed.

Lemma meeting_size_listed (e : CalendarEvent) : In (meeting_size e) size_order.
Proof.
  unfold meeting_size, size_order.
  repeat match goal with
         | |- In (if ?c then _ else _) _ => destruct c
         end; cbn; tauto.
Qed.

Lemma incr_total (k : string) (d : gmap string nat) :
  sum_items (fun _ n => n) (AnalyzeCalendar.incr k d)
  = S (sum_items (fun _ n => n) d).
Proof.
  unfold AnalyzeCalendar.incr.
  pose proof (sum_items_insert (fun _ (n : nat) => n) d k
                (S (default 0 (d !! k)))) as H.
  cbn beta in H.
  destruct (d !! k); cbn [from_option] in H |- *; unfold id in *; lia.
Qed.

Lemma sizes_fold (work : list CalendarEvent) (d : gmap string nat) :
  let d' :=
    fold_left (fun d event => AnalyzeCalendar.incr (meeting_size event) d) work d in
  sum_items (fun _ n => n) d' = sum_items (fun _ n => n) d + length work
  /\ ((forall k n, d !! k = Some n -> In k size_order /\ 0 < n) ->
      forall k n, d' !! k = Some n -> In k size_order /\ 0 < n).
Proof.
  cbn zeta. revert d. induction work as [|e work IH]; intros d.
  - cbn [fold_left length]. split; [lia | tauto].
  - cbn [fold_left length].
    destruct (IH (AnalyzeCalendar.incr (meeting_size e) d)) as [Ht Hk].
    rewrite Ht, incr_total. split; [lia|].
    intros Hd. apply Hk. intros k n. unfold AnalyzeCalendar.incr.
    destruct (String.eqb_spec (meeting_size e) k) as [<-|Hne].
    + rewrite lookup_insert_eq. intros [= <-].
      split; [apply meeting_size_listed | lia].
    + rewrite lookup_insert_ne by exact Hne. apply Hd.
Qed.

Lemma recurring_fold (work : list CalendarEvent) (r : recurring_stats) :
  let r' := fold_left count_recurring work r in
  recurring r' + adhoc r' = recurring r + adhoc r + length work
  /\ recurring r' = recurring r + length (List.filter is_recurring work)
  /\ (recurring_hours r' + adhoc_hours r'
      == recurring_hours r + adhoc_hours r + hours_of work)%Q.
Proof.
  cbn zeta. revert r. induction work as [|e work IH]; intros r.
  - cbn [fold_left length List.filter]. split; [lia|]. split; [lia|].
    unfold hours_of. cbn. ring.
  - cbn [fold_left length List.filter].
    destruct (IH (count_recurring r e)) as (H1 & H2 & H3).
    rewrite H1, H2, H3, hours_of_cons. unfold count_recurring.
    destruct (is_recurring e);
      cbn [recurring adhoc recurring_hours adhoc_hours length];
      (split; [lia|]); (split; [lia|]); ring.
Qed.

End TimePatternFacts.

(** X18.  A view of [analyze_time_patterns] that files every work-relevant
    event under one key, such as the views by meeting type and by location,
    loses and duplicates nothing: its counts add up to the number of
    work-relevant events and its hours to the sum of their durations. *)
Theorem view_totals
    (key : Stakeholder.CalendarEvent -> string)
    (events : list Stakeholder.CalendarEvent) :
  let work := List.filter Stakeholder.is_work_relevant events in
  Dict.sum_items (fun _ b => Stakeholder.b_count b) (TimePatterns.view key events)
  = length work
  /\ (Dict.sum_items_hours (fun _ b => Stakeholder.b_hours b)
        (TimePatterns.view key events)
      == TimePatterns.hours_of work)%Q.
Proof.
  cbn zeta. unfold TimePatterns.view.
  destruct (view_fold key (List.filter Stakeholder.is_work_relevant events) ∅)
    as [Hc Hh].
  rewrite Hc, Hh, sum_items_empty, sum_items_hours_empty.
  split; [lia | ring].
Qed.

(** X19.  The view by month files only the work-relevant events that have a
    month: its counts add up to the number of those events and its hours to
    the sum of their durations, so an event whose start holds no date is
    left out of the monthly totals. *)
Theorem by_month_totals (events : list Stakeholder.CalendarEvent) :
  let dated :=
    List.filter (fun e => Py.truthy (Stakeholder.get_month e))
      (List.filter Stakeholder.is_work_relevant events) in
  Dict.sum_items (fun _ b => Stakeholder.b_count b) (TimePatterns.by_month events)
  = length dated
  /\ (Dict.sum_items_hours (fun _ b => Stakeholder.b_hours b)
        (TimePatterns.by_month events)
      == TimePatterns.hours_of dated)%Q.
Proof.
  cbn zeta. unfold TimePatterns.by_month.
  destruct (by_month_fold (List.filter Stakeholder.is_work_relevant events) ∅)
    as [Hc Hh].
  rewrite Hc, Hh, sum_items_empty, sum_items_hours_empty.
  split; [lia | ring].
Qed.

(** X20.  Splitting an event's duration between its organizations keeps the
    total: the hours of the by-company view add up to the sum of the
    durations of the work-relevant events, and its counts to the number of
    distinct organizations summed over those events. *)
Theorem by_company_totals
    (events : list Stakeholder.CalendarEvent)
    (m : gmap string Stakeholder.bucket) :
  Stakeholder.by_company events = Ok m ->
  let work := List.filter Stakeholder.is_work_relevant events in
  Dict.sum_items (fun _ b => Stakeholder.b_count b) m
  = TimePatterns.company_slots work
  /\ (Dict.sum_items_hours (fun _ b => Stakeholder.b_hours b) m
      == TimePatterns.hours_of work)%Q.
Proof.
  unfold Stakeholder.by_company. intros H. cbn zeta.
  destruct (by_company_fold (List.filter Stakeholder.is_work_relevant events) ∅
              (work_relevant_all events)) as (m' & Hrun & Hc & Hh).
  rewrite Hrun in H. injection H as <-.
  rewrite Hc, Hh, sum_items_empty, sum_items_hours_empty.
  split; [lia | ring].
Qed.

Lemma by_company_totals_witness :
  exists m,
    Stakeholder.by_company [StakeholderSpec.review] = Ok m
    /\ (Dict.sum_items_hours (fun _ b => Stakeholder.b_hours b) m
        == TimePatterns.hours_of
             (List.filter Stakeholder.is_work_relevant [StakeholderSpec.review]))%Q.
Proof.
  destruct (Stakeholder.by_company [StakeholderSpec.review]) as [m|x] eqn:Hm.
  - exists m. split; [reflexivity|].
    apply (by_company_totals [StakeholderSpec.review] m Hm).
  - exfalso. revert Hm. vm_compute. discriminate.
Defined.

(** X21.  Every key of the meeting-size distribution is one of the five
    sizes that [print_stakeholder_report] prints, with a positive count, and
    the counts add up to the number of work-relevant events. *)
Theorem meeting_sizes_total (events : list Stakeholder.CalendarEvent) :
  Dict.sum_items (fun _ n => n) (TimePatterns.meeting_size_distribution events)
  = length (List.filter Stakeholder.is_work_relevant events)
  /\ forall size n,
       TimePatterns.meeting_size_distribution events !! size = Some n ->
       In size TimePatterns.size_order /\ 0 < n.
Proof.
  unfold TimePatterns.meeting_size_distribution.
  destruct (sizes_fold (List.filter Stakeholder.is_work_relevant events) ∅)
    as [Ht Hk].
  rewrite Ht, sum_items_empty. split; [lia|].
  apply Hk. intros k n H. rewrite lookup_empty in H. discriminate H.
Qed.

(** The statement at the one-hour meeting with Jane, a meeting of two. *)
Lemma meeting_sizes_total_witness :
  TimePatterns.meeting_size_distribution [StakeholderSpec.review]
    !! "1:1 (2 people)" = Some 1%nat
  /\ In "1:1 (2 people)" TimePatterns.size_order /\ 0 < 1.
Proof.
  assert (H : TimePatterns.meeting_size_distribution [StakeholderSpec.review]
                !! "1:1 (2 people)" = Some 1%nat)
    by (vm_compute; reflexivity).
  split; [exact H|].
  apply (proj2 (meeting_sizes_total [StakeholderSpec.review])
           "1:1 (2 people)" 1%nat H).
Defined.

(** X22.  The recurring and the ad-hoc counters partition the work-relevant
    events: they add up to their number, the recurring counter is the number
    of recurring ones, and the two hour totals add up to the sum of the
    durations. *)
Theorem recurring_partition (events : list Stakeholder.CalendarEvent) :
  let work := List.filter Stakeholder.is_work_relevant events in
  let r := TimePatterns.recurring_vs_adhoc events in
  TimePatterns.recurring r + TimePatterns.adhoc r = length work
  /\ TimePatterns.recurring r
     = length (List.filter Stakeholder.is_recurring work)
  /\ (TimePatterns.recurring_hours r + TimePatterns.adhoc_hours r
      == TimePatterns.hours_of work)%Q.
Proof.
  cbn zeta. unfold TimePatterns.recurring_vs_adhoc.
  destruct (recurring_fold (List.filter Stakeholder.is_work_relevant events)
              TimePatterns.recurring_init) as (H1 & H2 & H3).
  rewrite H1, H2, H3. cbn. split; [reflexivity|]. split; [reflexivity|]. ring.
Qed.

(** X23.  The last block of [print_stakeholder_report] divides by the
    number of recurring plus ad-hoc meetings without a guard: it raises
    ZeroDivisionError exactly when no event is work-relevant. *)
Theorem recurring_percentages_raise (events : list Stakeholder.CalendarEvent) :
  TimePatterns.recurring_percentages (TimePatterns.recurring_vs_adhoc events)
  = Raise ZeroDivisionError
  <-> List.filter Stakeholder.is_work_relevant events = [].
Proof.
  unfold TimePatterns.recurring_percentages. cbn zeta.
  destruct (recurring_fold (List.filter Stakeholder.is_work_relevant events)
              TimePatterns.recurring_init) as (H1 & _).
  fold (TimePatterns.recurring_vs_adhoc events) in H1.
  cbn [TimePatterns.recurring_init TimePatterns.recurring TimePatterns.adhoc] in H1.
  rewrite H1. cbn [Nat.add].
  destruct (List.filter Stakeholder.is_work_relevant events) as [|e work].
  - split; reflexivity.
  - cbn [length RerunMain.percent bind]. split; intros H; discriminate H.
Qed.

(** ** Organizers and status tallies *)

Section TallyFacts.

Import Dict.

Lemma track_organizer_total (e : Stakeholder.CalendarEvent)
    (m : gmap string Stakeholder.organizer_record) :
  sum_items (fun _ r => Stakeholder.org_count r) (Stakeholder.track_organizer e m)
  = sum_items (fun _ r => Stakeholder.org_count r) m
    + (if Records.organized_by_other e then 1 else 0)
  /\ (sum_items_hours (fun _ r => Stakeholder.org_hours r)
        (Stakeholder.track_organizer e m)
      == sum_items_hours (fun _ r => Stakeholder.org_hours r) m
         + (if Records.organized_by_other e
            then Stakeholder.get_duration_hours e else 0))%Q.
Proof.
  unfold Stakeholder.track_organizer, Records.organized_by_other.
  destruct (Py.truthy (Stakeholder.organizer e)
            && negb (String.eqb (Stakeholder.organizer e) Stakeholder.viewer_email)).
  2:{ split; [lia | ring]. }
  set (k := if Py.truthy (Stakeholder.organizer_name e)
            then Stakeholder.organizer_name e else Stakeholder.organizer e).
  match goal with
  | |- context [<[k := ?v]> m] =>
      pose proof (sum_items_insert (fun _ r => Stakeholder.org_count r) m k v) as Hc;
      pose proof (sum_items_hours_insert (fun _ r => Stakeholder.org_hours r) m k v)
        as Hh
  end.
  cbn beta in Hc, Hh. cbn [Stakeholder.org_count Stakeholder.org_hours] in Hc, Hh.
  destruct (m !! k); cbn [from_option] in Hc, Hh |- *; unfold id in *;
    cbn [Stakeholder.organizer_init Stakeholder.org_count Stakeholder.org_hours] in *;
    (split; [lia | lra]).
Qed.

Lemma track_events_organizers (work : list Stakeholder.CalendarEvent)
    (acc : gmap string Stakeholder.stakeholder
           * gmap string Stakeholder.organizer_record) :
  let acc' := fold_left Stakeholder.track_event work acc in
  sum_items (fun _ r => Stakeholder.org_count r) (snd acc')
  = sum_items (fun _ r => Stakeholder.org_count r) (snd acc)
    + length (List.filter Records.organized_by_other work)
  /\ (sum_items_hours (fun _ r => Stakeholder.org_hours r) (snd acc')
      == sum_items_hours (fun _ r => Stakeholder.org_hours r) (snd acc)
         + TimePatterns.hours_of (List.filter Records.organized_by_other work))%Q.
Proof.
  cbn zeta. revert acc. induction work as [|e work IH]; intros acc.
  - cbn [fold_left List.filter length]. split; [lia|].
    unfold TimePatterns.hours_of. cbn. ring.
  - cbn [fold_left List.filter].
    destruct (IH (Stakeholder.track_event acc e)) as [Hc Hh].
    rewrite Hc, Hh.
    change (snd (Stakeholder.track_event acc e))
      with (Stakeholder.track_organizer e (snd acc)).
    destruct (track_organizer_total e (snd acc)) as [Hc1 Hh1].
    rewrite Hc1, Hh1.
    destruct (Records.organized_by_other e).
    + rewrite hours_of_cons. cbn [length]. split; [lia | ring].
    + split; [lia | ring].
Qed.

Lemma tally_status (events : list AnalyzeCalendar.CalendarEvent)
    (t : AnalyzeCalendar.tally) :
  let t' := fold_left AnalyzeCalendar.tally_event events t in
  sum_items (fun _ n => n) (AnalyzeCalendar.t_by_status t')
  = sum_items (fun _ n => n) (AnalyzeCalendar.t_by_status t)
    + length (List.filter (fun e => Py.truthy (AnalyzeCalendar.status e)) events)
  /\ sum_items (fun _ n => n) (AnalyzeCalendar.t_by_busy_status t')
     = sum_items (fun _ n => n) (AnalyzeCalendar.t_by_busy_status t)
       + length (List.filter
                   (fun e => Py.truthy (AnalyzeCalendar.busy_status e)) events).
Proof.
  cbn zeta. revert t. induction events as [|e events IH]; intros t.
  - cbn [fold_left List.filter length]. lia.
  - cbn [fold_left List.filter].
    destruct (IH (AnalyzeCalendar.tally_event t e)) as [Hs Hb].
    rewrite Hs, Hb.
    change (AnalyzeCalendar.t_by_status (AnalyzeCalendar.tally_event t e))
      with (if Py.truthy (AnalyzeCalendar.status e)
            then AnalyzeCalendar.incr (AnalyzeCalendar.status e)
                   (AnalyzeCalendar.t_by_status t)
            else AnalyzeCalendar.t_by_status t).
    change (AnalyzeCalendar.t_by_busy_status (AnalyzeCalendar.tally_event t e))
      with (if Py.truthy (AnalyzeCalendar.busy_status e)
            then AnalyzeCalendar.incr (AnalyzeCalendar.busy_status e)
                   (AnalyzeCalendar.t_by_busy_status t)
            else AnalyzeCalendar.t_by_busy_status t).
    destruct (Py.truthy (AnalyzeCalendar.status e));
      destruct (Py.truthy (AnalyzeCalendar.busy_status e));
      rewrite ?incr_total; cbn [length]; lia.
Qed.

End TallyFacts.

(** X24.  The organizer records count exactly the work-relevant events that
    have an organizer other than the viewing user: their counts add up to
    the number of those events and their hours to the sum of their
    durations. *)
Theorem organizer_totals (events : list Stakeholder.CalendarEvent) :
  let data := Stakeholder.analyze_stakeholders events in
  let organized :=
    List.filter Records.organized_by_other (Stakeholder.work_events data) in
  Dict.sum_items (fun _ r => Stakeholder.org_count r) (Stakeholder.organizers data)
  = length organized
  /\ (Dict.sum_items_hours (fun _ r => Stakeholder.org_hours r)
        (Stakeholder.organizers data)
      == TimePatterns.hours_of organized)%Q.
Proof.
  cbn zeta. unfold Stakeholder.analyze_stakeholders.
  cbn [Stakeholder.organizers Stakeholder.work_events].
  destruct (track_events_organizers
              (List.filter Stakeholder.is_work_relevant events) (∅, ∅)) as [Hc Hh].
  rewrite Hc, Hh. cbn [snd]. rewrite sum_items_empty, sum_items_hours_empty.
  split; [lia | ring].
Qed.

(** X25.  The status and busy-status breakdowns of [analyze_calendar] count
    only the events whose field is not empty: the counts of each breakdown
    add up to the number of those events, which can be less than the total
    number of events. *)
Theorem status_breakdown_totals (events : list AnalyzeCalendar.CalendarEvent) :
  let stats := snd (AnalyzeCalendar.analyze_calendar events) in
  Dict.sum_items (fun _ n => n) (AnalyzeCalendar.by_status stats)
  = length (List.filter (fun e => Py.truthy (AnalyzeCalendar.status e)) events)
  /\ Dict.sum_items (fun _ n => n) (AnalyzeCalendar.by_busy_status stats)
     = length (List.filter
                 (fun e => Py.truthy (AnalyzeCalendar.busy_status e)) events).
Proof.
  cbn zeta. unfold AnalyzeCalendar.analyze_calendar.
  cbn [snd AnalyzeCalendar.by_status AnalyzeCalendar.by_busy_status].
  destruct (tally_status events AnalyzeCalendar.tally_init) as [Hs Hb].
  rewrite Hs, Hb. cbn [AnalyzeCalendar.tally_init AnalyzeCalendar.t_by_status
                         AnalyzeCalendar.t_by_busy_status].
  rewrite sum_items_empty. lia.
Qed.
